(** * Sales helper: query ranking, description decoding, price precedence

    A shallow embedding of [src/search.py], [src/enrichment.py] and
    [src/pricing.py], and the properties of the specification proved or
    refuted on it.

    Modelling conventions.
    - Python [str] is [string]; the text handled is ASCII, so [upper],
      [strip] and the regular-expression classes are those of the ASCII
      range (a byte above 127 is an ordinary non-word, non-space character).
    - Python [float] scores and prices are exact rationals ([Q]); a NaN or
      absent price cell is [None].  Where a property depends on the
      rounding of the score, [SearchFloat] has [_score_item] in binary64.
    - [re] patterns are kept as the source writes them and compiled by
      [Re.compile] to a small backtracking matcher (greedy, leftmost, ordered
      alternation), which is what [re] does on the patterns of this program.
    - Library functions whose code is outside the repository (rapidfuzz's
      ratios, pandas' [sort_values]) are interfaces, with the properties
      their documentation gives. *)

From Stdlib Require Import String Ascii List Bool Arith ZArith QArith Qround.
From Stdlib Require Import Lia Lqa.
From Stdlib Require Import Sorting.Permutation Sorting.Sorted.
From Stdlib Require PrimFloat Uint63.
Import ListNotations.

Open Scope string_scope.

(* ===================================================================== *)
(** * Python string operations *)
(* ===================================================================== *)

Module PyStr.

Definition code (a : ascii) : nat := nat_of_ascii a.

Definition between (lo hi : nat) (a : ascii) : bool :=
  Nat.leb lo (code a) && Nat.leb (code a) hi.

(** [str.isspace] on one ASCII character: TAB..CR, FS..US and space. *)
Definition is_space (a : ascii) : bool :=
  between 9 13 a || between 28 32 a.

Definition is_digit (a : ascii) : bool := between 48 57 a.
Definition is_upper (a : ascii) : bool := between 65 90 a.
Definition is_lower (a : ascii) : bool := between 97 122 a.

(** [\w]: letters, digits and underscore. *)
Definition is_word (a : ascii) : bool :=
  is_digit a || is_upper a || is_lower a || Nat.eqb (code a) 95.

Definition upper_char (a : ascii) : ascii :=
  if is_lower a then ascii_of_nat (code a - 32) else a.

Definition lower_char (a : ascii) : ascii :=
  if is_upper a then ascii_of_nat (code a + 32) else a.

Fixpoint upper (s : string) : string :=
  match s with
  | EmptyString => EmptyString
  | String a s' => String (upper_char a) (upper s')
  end.

Fixpoint lstrip (s : string) : string :=
  match s with
  | EmptyString => EmptyString
  | String a s' => if is_space a then lstrip s' else s
  end.

(** [rstrip]: a character is kept when something non-blank follows it. *)
Fixpoint rstrip (s : string) : string :=
  match s with
  | EmptyString => EmptyString
  | String a s' =>
      match rstrip s' with
      | EmptyString => if is_space a then EmptyString else String a EmptyString
      | t => String a t
      end
  end.

Definition strip (s : string) : string := rstrip (lstrip s).

(** [s.startswith(p)] *)
Fixpoint startswith (s p : string) : bool :=
  match p, s with
  | EmptyString, _ => true
  | String b p', String a s' => Ascii.eqb a b && startswith s' p'
  | String _ _, EmptyString => false
  end.

(** [sub in s] *)
Fixpoint contains (s sub : string) : bool :=
  startswith s sub ||
  match s with
  | EmptyString => false
  | String _ s' => contains s' sub
  end.

(** [s.replace(c, new)] for a one-character [c]. *)
Fixpoint replace_char (c : ascii) (new : string) (s : string) : string :=
  match s with
  | EmptyString => EmptyString
  | String a s' =>
      if Ascii.eqb a c then new ++ replace_char c new s'
      else String a (replace_char c new s')
  end.

(** [sep.join(parts)] *)
Fixpoint join (sep : string) (parts : list string) : string :=
  match parts with
  | [] => EmptyString
  | [p] => p
  | p :: rest => p ++ sep ++ join sep rest
  end.

(** [s[n:]] *)
Fixpoint drop (n : nat) (s : string) : string :=
  match n, s with
  | O, _ => s
  | S n', String _ s' => drop n' s'
  | S _, EmptyString => EmptyString
  end.

(** [s[a:b]] for [a <= b] *)
Definition slice (a b : nat) (s : string) : string := substring a (b - a) s.

(** [x in xs] for a list or set of strings *)
Definition mem (x : string) (xs : list string) : bool :=
  existsb (String.eqb x) xs.

(** The double quote character, as a string. *)
Definition dq : string := String (ascii_of_nat 34) EmptyString.

(** [s[:n]] *)
Fixpoint take (n : nat) (s : string) : string :=
  match n, s with
  | S n', String a s' => String a (take n' s')
  | _, _ => EmptyString
  end.

(** [s.split()]: the maximal runs of non-blank characters.  [cur] is the
    run being read. *)
Fixpoint split_from (cur : string) (s : string) : list string :=
  match s with
  | EmptyString => if String.eqb cur "" then [] else [cur]
  | String a s' =>
      if is_space a
      then if String.eqb cur "" then split_from "" s'
           else cur :: split_from "" s'
      else split_from (cur ++ String a EmptyString) s'
  end.

Definition split (s : string) : list string := split_from "" s.

(** [s.lower()] *)
Fixpoint lower (s : string) : string :=
  match s with
  | EmptyString => EmptyString
  | String a s' => String (lower_char a) (lower s')
  end.

End PyStr.

(* ===================================================================== *)
(** * Python lists and dicts *)
(* ===================================================================== *)

Module PyList.

Section StableSort.
Context {A : Type}.

(** [before y x]: the key of [y] is strictly less than the key of [x]. *)
Variable before : A -> A -> bool.

(** [x] goes in front of the first element that is not strictly before it,
    so an element keeps its place among those it ties with. *)
Fixpoint insert (x : A) (l : list A) : list A :=
  match l with
  | [] => [x]
  | y :: l' => if before y x then y :: insert x l' else x :: y :: l'
  end.

(** [sorted(l, key=...)] and [list.sort(key=...)]: a stable sort. *)
Fixpoint sorted (l : list A) : list A :=
  match l with
  | [] => []
  | x :: l' => insert x (sorted l')
  end.

End StableSort.

(** A dict as its items in insertion order. *)
Definition dict (V : Type) : Type := list (string * V).

(** [d[k] = v]: a key already present keeps its position. *)
Fixpoint dict_set {V : Type} (k : string) (v : V) (d : dict V) : dict V :=
  match d with
  | [] => [(k, v)]
  | (k', v') :: rest =>
      if String.eqb k k' then (k, v) :: rest
      else (k', v') :: dict_set k v rest
  end.

(** A dict display [{k1: v1, k2: v2, ...}], evaluated left to right. *)
Definition dict_of_items {V : Type} (items : list (string * V)) : dict V :=
  fold_left (fun d '(k, v) => dict_set k v d) items [].

(** [d.get(k)] *)
Fixpoint dict_get {V : Type} (k : string) (d : dict V) : option V :=
  match d with
  | [] => None
  | (k', v) :: rest => if String.eqb k k' then Some v else dict_get k rest
  end.

(** [d.keys()] *)
Definition keys {V : Type} (d : dict V) : list string := map fst d.

End PyList.

(* ===================================================================== *)
(** * Python numbers *)
(* ===================================================================== *)

Module PyNum.

Open Scope Q_scope.

(** [x < y] *)
Definition Qltb (x y : Q) : bool := negb (Qle_bool y x).

(** Python's [max(a, b)] and [min(a, b)]: the first argument unless the
    second is strictly better. *)
Definition py_max (a b : Q) : Q := if Qltb a b then b else a.
Definition py_min (a b : Q) : Q := if Qltb b a then b else a.

End PyNum.

(* ===================================================================== *)
(** * The [re] module, as far as the program uses it *)
(* ===================================================================== *)

Module Re.
Import PyStr.

(** One-character items of a pattern. *)
Inductive cset : Type :=
| CAny                          (* .   : anything but a newline *)
| CDigit                        (* \d *)
| CSpace                        (* \s *)
| CWord                         (* \w *)
| CLit (c : ascii)
| CRange (lo hi : ascii)        (* a-z inside brackets *)
| COr (a b : cset)              (* members of a bracket class *)
| CNone.

Inductive regex : Type :=
| Eps
| Never                         (* a pattern that failed to parse *)
| Ch (c : cset)
| Seq (a b : regex)
| Alt (a b : regex)             (* ordered choice *)
| Star (a : regex)              (* greedy *)
| Grp (n : nat) (a : regex)     (* capturing group number n *)
| WordB                         (* \b *)
| Bol                           (* ^ *)
| Eol.                          (* $ *)

Definition Opt (r : regex) : regex := Alt r Eps.
Definition Plus (r : regex) : regex := Seq r (Star r).

Fixpoint Times (n : nat) (r : regex) : regex :=
  match n with
  | O => Eps
  | S n' => Seq r (Times n' r)
  end.

(** Up to [n] greedy copies: [(r(r(r)?)?)?]. *)
Fixpoint UpTo (n : nat) (r : regex) : regex :=
  match n with
  | O => Eps
  | S n' => Opt (Seq r (UpTo n' r))
  end.

Definition Range (lo hi : nat) (r : regex) : regex :=
  Seq (Times lo r) (UpTo (hi - lo) r).

(** ** Parsing a pattern *)

Definition digit_val (a : ascii) : nat := code a - 48.

Fixpoint read_nat (acc : nat) (s : string) : nat * string :=
  match s with
  | String a s' =>
      if is_digit a then read_nat (10 * acc + digit_val a) s' else (acc, s)
  | EmptyString => (acc, s)
  end.

Definition escape (a : ascii) : regex :=
  if Ascii.eqb a "b" then WordB
  else if Ascii.eqb a "d" then Ch CDigit
  else if Ascii.eqb a "s" then Ch CSpace
  else if Ascii.eqb a "w" then Ch CWord
  else Ch (CLit a).

(** The members of [[...]], up to the closing bracket. *)
Fixpoint parse_class (fuel : nat) (s : string) : option (cset * string) :=
  match fuel with
  | O => None
  | S f =>
      match s with
      | EmptyString => None
      | String "]" rest => Some (CNone, rest)
      | String lo (String "-" (String hi rest)) =>
          if Ascii.eqb hi "]"
          then Some (COr (CLit lo) (CLit "-"), rest)
          else match parse_class f rest with
               | Some (cs, rest') => Some (COr (CRange lo hi) cs, rest')
               | None => None
               end
      | String a rest =>
          match parse_class f rest with
          | Some (cs, rest') => Some (COr (CLit a) cs, rest')
          | None => None
          end
      end
  end.

(** A quantifier after an atom, if there is one. *)
Definition parse_quant (r : regex) (s : string) : regex * string :=
  match s with
  | String "*" rest => (Star r, rest)
  | String "+" rest => (Plus r, rest)
  | String "?" rest => (Opt r, rest)
  | String "{" rest =>
      let '(lo, rest1) := read_nat 0 rest in
      match rest1 with
      | String "}" rest2 => (Times lo r, rest2)
      | String "," rest2 =>
          let '(hi, rest3) := read_nat 0 rest2 in
          match rest3 with
          | String "}" rest4 => (Range lo hi r, rest4)
          | _ => (Never, EmptyString)
          end
      | _ => (Never, EmptyString)
      end
  | _ => (r, s)
  end.

(** Recursive descent; [g] is the number of groups opened so far. *)
Fixpoint parse_alt (fuel : nat) (s : string) (g : nat)
  : option (regex * string * nat) :=
  match fuel with
  | O => None
  | S f =>
      match parse_seq f s g with
      | Some (r, String "|" rest, g1) =>
          match parse_alt f rest g1 with
          | Some (r2, rest2, g2) => Some (Alt r r2, rest2, g2)
          | None => None
          end
      | other => other
      end
  end

with parse_seq (fuel : nat) (s : string) (g : nat)
  : option (regex * string * nat) :=
  match fuel with
  | O => None
  | S f =>
      match s with
      | EmptyString => Some (Eps, s, g)
      | String "|" _ => Some (Eps, s, g)
      | String ")" _ => Some (Eps, s, g)
      | _ =>
          match parse_atom f s g with
          | Some (a, rest, g1) =>
              let '(aq, rest1) := parse_quant a rest in
              match parse_seq f rest1 g1 with
              | Some (Eps, rest2, g2) => Some (aq, rest2, g2)
              | Some (r, rest2, g2) => Some (Seq aq r, rest2, g2)
              | None => None
              end
          | None => None
          end
      end
  end

with parse_atom (fuel : nat) (s : string) (g : nat)
  : option (regex * string * nat) :=
  match fuel with
  | O => None
  | S f =>
      match s with
      | EmptyString => None
      | String "(" (String "?" (String ":" rest)) =>
          match parse_alt f rest g with
          | Some (r, String ")" rest1, g1) => Some (r, rest1, g1)
          | _ => None
          end
      | String "(" rest =>
          match parse_alt f rest (S g) with
          | Some (r, String ")" rest1, g1) => Some (Grp (S g) r, rest1, g1)
          | _ => None
          end
      | String "[" rest =>
          match parse_class (S (String.length rest)) rest with
          | Some (cs, rest1) => Some (Ch cs, rest1, g)
          | None => None
          end
      | String "\" (String a rest) => Some (escape a, rest, g)
      | String "." rest => Some (Ch CAny, rest, g)
      | String "^" rest => Some (Bol, rest, g)
      | String "$" rest => Some (Eol, rest, g)
      | String a rest => Some (Ch (CLit a), rest, g)
      end
  end.

(** [re.compile(p)] *)
Definition compile (p : string) : regex :=
  match parse_alt (3 * String.length p + 3) p 0 with
  | Some (r, EmptyString, _) => r
  | _ => Never
  end.

(** ** Matching *)

Fixpoint cset_has (cs : cset) (a : ascii) : bool :=
  match cs with
  | CAny => negb (Nat.eqb (code a) 10)
  | CDigit => is_digit a
  | CSpace => is_space a
  | CWord => is_word a
  | CLit c => Ascii.eqb a c
  | CRange lo hi => between (code lo) (code hi) a
  | COr x y => cset_has x a || cset_has y a
  | CNone => false
  end.

(** With [re.IGNORECASE] a character also matches through its other case. *)
Definition cset_match (ic : bool) (cs : cset) (a : ascii) : bool :=
  cset_has cs a ||
  (ic && (cset_has cs (upper_char a) || cset_has cs (lower_char a))).

(** Where the matcher stands: the character before, the text ahead, the
    index, and the groups closed so far (most recent first). *)
Record cursor : Type := Cursor {
  c_prev : option ascii;
  c_rest : string;
  c_pos  : nat;
  c_caps : list (nat * (nat * nat))
}.

Definition word_opt (o : option ascii) : bool :=
  match o with Some a => is_word a | None => false end.

Definition peek (s : string) : option ascii :=
  match s with String a _ => Some a | EmptyString => None end.

Definition newline : ascii := ascii_of_nat 10.

Fixpoint exec (ic : bool) (r : regex) (cu : cursor)
         (k : cursor -> option cursor) {struct r} : option cursor :=
  match r with
  | Eps => k cu
  | Never => None
  | Ch cs =>
      match c_rest cu with
      | String a s' =>
          if cset_match ic cs a
          then k (Cursor (Some a) s' (S (c_pos cu)) (c_caps cu))
          else None
      | EmptyString => None
      end
  | Seq a b => exec ic a cu (fun cu' => exec ic b cu' k)
  | Alt a b =>
      match exec ic a cu k with
      | Some x => Some x
      | None => exec ic b cu k
      end
  | Star a =>
      (fix loop (fuel : nat) (cu0 : cursor) {struct fuel} : option cursor :=
         match fuel with
         | O => k cu0
         | S f =>
             match exec ic a cu0
                     (fun cu' => if Nat.eqb (c_pos cu') (c_pos cu0) then None
                                 else loop f cu') with
             | Some x => Some x
             | None => k cu0
             end
         end) (S (String.length (c_rest cu))) cu
  | Grp n a =>
      exec ic a cu
        (fun cu' => k (Cursor (c_prev cu') (c_rest cu') (c_pos cu')
                              ((n, (c_pos cu, c_pos cu')) :: c_caps cu')))
  | WordB =>
      if xorb (word_opt (c_prev cu)) (word_opt (peek (c_rest cu)))
      then k cu else None
  | Bol => if Nat.eqb (c_pos cu) 0 then k cu else None
  | Eol =>
      match c_rest cu with
      | EmptyString => k cu
      | String a EmptyString => if Ascii.eqb a newline then k cu else None
      | _ => None
      end
  end.

(** A match object: the subject, the span and the groups. *)
Record rmatch : Type := RMatch {
  m_string : string;
  m_start  : nat;
  m_end    : nat;
  m_caps   : list (nat * (nat * nat))
}.

Fixpoint cap_lookup (n : nat) (caps : list (nat * (nat * nat)))
  : option (nat * nat) :=
  match caps with
  | [] => None
  | (i, span) :: rest => if Nat.eqb i n then Some span else cap_lookup n rest
  end.

(** [m.group(n)]; group 0 is the whole match. *)
Definition group (m : rmatch) (n : nat) : string :=
  match n with
  | O => slice (m_start m) (m_end m) (m_string m)
  | _ => match cap_lookup n (m_caps m) with
         | Some (a, b) => slice a b (m_string m)
         | None => EmptyString
         end
  end.

(** The leftmost match at or after the cursor, with the cursor after it. *)
Fixpoint scan (ic : bool) (r : regex) (whole : string)
         (prev : option ascii) (s : string) (pos : nat)
  : option (rmatch * cursor) :=
  match exec ic r (Cursor prev s pos []) Some with
  | Some cu => Some (RMatch whole pos (c_pos cu) (c_caps cu), cu)
  | None =>
      match s with
      | EmptyString => None
      | String a s' => scan ic r whole (Some a) s' (S pos)
      end
  end.

(** [re.search(p, s)] *)
Definition search_with (ic : bool) (p s : string) : option rmatch :=
  option_map fst (scan ic (compile p) s None s 0).

Definition search (p s : string) : option rmatch := search_with false p s.

(** [re.match(p, s)]: at the start of [s] only. *)
Definition match_ (p s : string) : option rmatch :=
  match exec false (compile p) (Cursor None s 0 []) Some with
  | Some cu => Some (RMatch s 0 (c_pos cu) (c_caps cu))
  | None => None
  end.

(** Successive non-overlapping matches, left to right.  After an empty
    match the scan moves on by one character (no pattern of the program
    matches the empty string). *)
Fixpoint finditer_from (fuel : nat) (ic : bool) (r : regex) (whole : string)
         (prev : option ascii) (s : string) (pos : nat) : list rmatch :=
  match fuel with
  | O => []
  | S f =>
      match scan ic r whole prev s pos with
      | None => []
      | Some (m, cu) =>
          if Nat.eqb (m_end m) (m_start m) then
            match c_rest cu with
            | EmptyString => [m]
            | String a s' =>
                m :: finditer_from f ic r whole (Some a) s' (S (c_pos cu))
            end
          else
            m :: finditer_from f ic r whole
                   (c_prev cu) (c_rest cu) (c_pos cu)
      end
  end.

(** [re.finditer(p, s)], with or without [re.IGNORECASE]. *)
Definition finditer_with (ic : bool) (p s : string) : list rmatch :=
  finditer_from (S (String.length s)) ic (compile p) s None s 0.

(** [re.findall(p, s)] for a pattern without groups. *)
Definition findall (p s : string) : list string :=
  map (fun m => group m 0) (finditer_with false p s).

(** Text between the matches, each match replaced by [repl m]. *)
Fixpoint splice (s : string) (from : nat) (ms : list rmatch)
         (repl : rmatch -> string) : string :=
  match ms with
  | [] => drop from s
  | m :: rest =>
      slice from (m_start m) s ++ repl m ++ splice s (m_end m) rest repl
  end.

(** [re.sub(p, repl, s)] where [repl] builds the replacement from a match. *)
Definition sub_with (ic : bool) (p : string) (repl : rmatch -> string)
           (s : string) : string :=
  splice s 0 (finditer_with ic p s) repl.

(** [re.sub(p, repl, s)] *)
Definition sub (p : string) (repl : rmatch -> string) (s : string) : string :=
  sub_with false p repl s.

(** A compiled pattern object: [re.compile(source, flags)]. *)
Inductive flags : Type := NOFLAG | IGNORECASE.

Record pattern : Type := Pattern { p_source : string; p_flags : flags }.

Definition icase (p : pattern) : bool :=
  match p_flags p with IGNORECASE => true | NOFLAG => false end.

(** [pattern.finditer(s)] *)
Definition finditer (p : pattern) (s : string) : list rmatch :=
  finditer_with (icase p) (p_source p) s.

(** [pattern.sub(repl, s)] with a constant replacement *)
Definition psub (p : pattern) (repl : string) (s : string) : string :=
  sub_with (icase p) (p_source p) (fun _ => repl) s.

End Re.

(* ===================================================================== *)
(** * search.py *)
(* ===================================================================== *)

Module Search.
Import PyStr PyNum Re.

Open Scope Q_scope.

(** ** Query parser tables *)

Definition _DIAMETER_PATTERNS : list (pattern * (rmatch -> string)) :=
  [ (Pattern "\b0?\.(\d{3})\b" NOFLAG, fun m => group m 1);
    (Pattern "\b(\d+)/(\d+)\b" NOFLAG,
     fun m => group m 1 ++ " " ++ group m 2) ].

Definition _ALLOY_PATTERN : pattern :=
  Pattern "\b(?:ER|E)?(\d{2,4}[A-Z]?S?-?\d{0,3}[A-Z]{0,3})\b" IGNORECASE.

Definition _KNOWN_ALLOYS : list string :=
  [ "70S6"; "70S-6"; "70S3"; "70S-3"; "80SD2"; "80S-D2";
    "308L"; "308"; "309L"; "309"; "316L"; "316"; "317L";
    "7018"; "7014"; "7024"; "6010"; "6011"; "6013";
    "4043"; "5356"; "5183"; "5556"; "4047"; "4145";
    "2209"; "2594"; "71T1"; "71T9"; "71T8"; "71T11";
    "80NI1"; "80S" ].

Definition _PKG_WEIGHT_PATTERN : pattern :=
  Pattern "\b(\d+)\s*(?:#|lbs?|lb)\b" IGNORECASE.

Definition _PKG_TYPE_PATTERN : pattern :=
  Pattern
    "\b(spool|drum|coil|basket|carton|tube|hermetic|vacpak|pallet|bulk|mini)\b"
    IGNORECASE.

Definition _EXPANSIONS : list (pattern * string) :=
  [ (Pattern "\bs6\b" IGNORECASE,              "70S 6");
    (Pattern "\bs-6\b" IGNORECASE,             "70S 6");
    (Pattern "\bs3\b" IGNORECASE,              "70S 3");
    (Pattern "\bs-3\b" IGNORECASE,             "70S 3");
    (Pattern "\bER70S[-.]?6\b" IGNORECASE,     "70S 6");
    (Pattern "\b70S[-.]?6\b" IGNORECASE,       "70S 6");
    (Pattern "\bER70S[-.]?3\b" IGNORECASE,     "70S 3");
    (Pattern "\b70S[-.]?3\b" IGNORECASE,       "70S 3");
    (Pattern "\bdual\s*shield\b" IGNORECASE,   "DS");
    (Pattern "\bcoreshield\b" IGNORECASE,      "CS");
    (Pattern "\batom\s*arc\b" IGNORECASE,      "AA");
    (Pattern "\bspoolarc\b" IGNORECASE,        "SA");
    (Pattern "\bsureweld\b" IGNORECASE,        "SUREWELD");
    (Pattern "\bautoshield\b" IGNORECASE,      "AS");
    (Pattern "\bcoreweld\b" IGNORECASE,        "CW");
    (Pattern "\balcotec\b" IGNORECASE,         "ER");
    (Pattern "\bshield[- ]?brite\b" IGNORECASE, "SB");
    (Pattern "\bexaton\b" IGNORECASE,          "EXATON");
    (Pattern "\bspraymaster\b" IGNORECASE,     "SPRAY MASTER");
    (Pattern "\bspray\s*master\b" IGNORECASE,  "SPRAY MASTER");
    (Pattern "\btig\s*rod\b" IGNORECASE,       "TIG");
    (Pattern "\btig\s*wire\b" IGNORECASE,      "TIG");
    (Pattern "\bmig\s*wire\b" IGNORECASE,      "WELD");
    (Pattern "\bstick\b" IGNORECASE,           "ELECTRODE");
    (Pattern "\bsmaw\b" IGNORECASE,            "ELECTRODE");
    (Pattern "\bfcaw\b" IGNORECASE,            "DS");
    (Pattern "\bgmaw\b" IGNORECASE,            "WELD");
    (Pattern "\bflux[- ]?core\b" IGNORECASE,   "DS");
    (Pattern "\bself[- ]?shield\b" IGNORECASE, "CS");
    (Pattern "\brebel\b" IGNORECASE,           "REBEL");
    (Pattern "\brobust\s*feed\b" IGNORECASE,   "ROBUST FEED");
    (Pattern "\bcutmaster\b" IGNORECASE,       "CUTMASTER");
    (Pattern "\bpurus\b" IGNORECASE,           "PURUS");
    (Pattern "\boks\b" IGNORECASE,             "OK");
    (Pattern "\brutilia\b" IGNORECASE,         "SUREWELD") ].

Definition _STOP_WORDS : list string :=
  [ "WIRE"; "ROD"; "FILLER"; "WELDING"; "THE"; "A"; "AN"; "FOR"; "AND";
    "WITH"; "OF" ].

(** ** ParsedQuery *)

Record ParsedQuery : Type := mkParsedQuery {
  raw         : string;
  diameters   : list string;
  alloys      : list string;
  pkg_weights : list string;
  pkg_types   : list string;
  tokens      : list string;
  normalized  : string
}.

(** [ParsedQuery(raw)]: every list empty. *)
Definition ParsedQuery_init (text : string) : ParsedQuery :=
  mkParsedQuery text [] [] [] [] [] "".

Definition parse_query (text : string) : ParsedQuery :=
  let working := strip text in
  if String.eqb working "" then ParsedQuery_init text
  else
    let diameters :=
      flat_map (fun '(pattern, extractor) =>
                  map extractor (finditer pattern working))
               _DIAMETER_PATTERNS in
    let pkg_weights :=
      map (fun m => group m 1) (finditer _PKG_WEIGHT_PATTERN working) in
    let pkg_types :=
      map (fun m => upper (group m 1)) (finditer _PKG_TYPE_PATTERN working) in
    let norm := strip (upper working) in
    let norm :=
      fold_left (fun norm '(pattern, replacement) =>
                   psub pattern replacement norm)
                _EXPANSIONS norm in
    let norm := Re.sub "\b0?\.(\d{3})\b" (fun m => group m 1) norm in
    let norm :=
      Re.sub "(\d)/(\d+)" (fun m => group m 1 ++ " " ++ group m 2) norm in
    let alloys :=
      flat_map (fun m =>
                  let code := replace_char "-" "" (upper (group m 1)) in
                  if mem code _KNOWN_ALLOYS || Nat.leb 3 (String.length code)
                  then [upper (group m 1)] else [])
               (finditer _ALLOY_PATTERN norm) in
    let raw_tokens := findall "[A-Z0-9]+" norm in
    let tokens :=
      filter (fun t => negb (mem t _STOP_WORDS)
                       && Nat.ltb 0 (String.length t))
             raw_tokens in
    mkParsedQuery text diameters alloys pkg_weights pkg_types tokens norm.

(** ** Scoring *)

(** rapidfuzz's [fuzz] module: two similarity measures on a 0..100 scale. *)
Class RapidFuzz : Type := {
  token_set_ratio : string -> string -> Q;
  partial_ratio   : string -> string -> Q;
  token_set_ratio_range : forall a b,
    0 <= token_set_ratio a b /\ token_set_ratio a b <= 100;
  partial_ratio_range : forall a b,
    0 <= partial_ratio a b /\ partial_ratio a b <= 100
}.

Definition Qnat (n : nat) : Q := inject_Z (Z.of_nat n).

(** [any(p(x) for x in xs)] *)
Definition any {A : Type} (p : A -> bool) (xs : list A) : bool := existsb p xs.

(** A non-empty list is true. *)
Definition truthy {A : Type} (xs : list A) : bool :=
  match xs with [] => false | _ :: _ => true end.

Section Scoring.
Context {fuzz : RapidFuzz}.

Definition _score_item (pq : ParsedQuery) (desc pn enriched : string) : Q :=
  let desc_upper := upper desc in
  let pn_upper := upper pn in
  let enriched_upper :=
    if String.eqb enriched "" then "" else upper enriched in
  let combined := desc_upper ++ " " ++ pn_upper ++ " " ++ enriched_upper in
  (* Token hit scoring *)
  let hits :=
    List.length (filter (fun token => contains combined token) (tokens pq)) in
  let n_tokens := Nat.max (List.length (tokens pq)) 1 in
  let token_ratio := Qnat hits / Qnat n_tokens in
  if Qeq_bool token_ratio 0 then 0
  else
    (* Fuzzy matching, best of all fields *)
    let desc_fuzzy := token_set_ratio (normalized pq) desc_upper in
    let pn_fuzzy := partial_ratio (normalized pq) pn_upper in
    let enriched_fuzzy :=
      if String.eqb enriched_upper "" then 0
      else token_set_ratio (normalized pq) enriched_upper in
    let fuzzy_best := py_max (py_max desc_fuzzy pn_fuzzy) enriched_fuzzy in
    (* Coverage *)
    let desc_tokens := findall "[A-Z0-9]+" desc_upper in
    let coverage :=
      py_min (Qnat n_tokens / Qnat (Nat.max (List.length desc_tokens) 1)) 1 in
    let score :=
      token_ratio * 45 + fuzzy_best / 100 * 30 + coverage * 15 in
    (* Diameter match *)
    let score :=
      if truthy (diameters pq) then
        if any (fun d => contains combined d) (diameters pq)
        then score + 15 else score - 10
      else score in
    (* Alloy code match *)
    let score :=
      if truthy (alloys pq) then
        if any (fun a => contains (replace_char "-" "" combined)
                                  (replace_char "-" "" a)) (alloys pq)
        then score + 12 else score - 8
      else score in
    (* Packaging weight match *)
    let score :=
      if truthy (pkg_weights pq) then
        if any (fun w => contains combined (w ++ "F")
                         || contains combined (w ++ "LB")
                         || contains combined (w ++ " LB"))
               (pkg_weights pq)
        then score + 8 else score
      else score in
    (* Packaging type match *)
    let score :=
      if truthy (pkg_types pq) then
        if any (fun t => contains combined t) (pkg_types pq)
        then score + 5 else score
      else score in
    (* All tokens hit *)
    let score := if Qeq_bool token_ratio 1 then score + 8 else score in
    (* Exact part number match *)
    let norm_query_flat := replace_char " " "" (normalized pq) in
    let score :=
      if String.eqb norm_query_flat (replace_char " " "" pn_upper)
      then 100 else score in
    py_max (py_min score 100) 0.
End Scoring.

(** ** The catalog partition (a pandas DataFrame) *)

(** A cell; [None] is NaN. *)
Definition cell : Type := option string.

Record Row : Type := mkRow {
  part_number : cell;
  description : cell;
  others      : list (string * cell)      (* the remaining columns *)
}.

Record DataFrame : Type := mkDataFrame {
  other_columns : list string;
  rows          : list Row
}.

Definition columns (df : DataFrame) : list string :=
  "part_number" :: "description" :: other_columns df.

Fixpoint assoc (k : string) (l : list (string * cell)) : cell :=
  match l with
  | [] => None
  | (k', v) :: rest => if String.eqb k k' then v else assoc k rest
  end.

Definition row_get (r : Row) (col : string) : cell :=
  if String.eqb col "part_number" then part_number r
  else if String.eqb col "description" then description r
  else assoc col (others r).

(** [series.fillna("").astype(str)] on one cell *)
Definition fillna_str (c : cell) : string :=
  match c with Some s => s | None => "" end.

(** [df[col].fillna("").astype(str).tolist()] *)
Definition column_strings (df : DataFrame) (col : string) : list string :=
  map (fun r => fillna_str (row_get r col)) (rows df).

(** A row of the result frame: the catalog row and its [match_score]. *)
Definition Scored : Type := (Row * Q)%type.
Definition match_score (x : Scored) : Q := snd x.

(** [df.sort_values("match_score", ascending=False)] with pandas' default
    [kind="quicksort"]: the rows reordered so that scores do not increase.
    pandas documents that this kind is not stable. *)
Class SortValues : Type := {
  sort_values_desc : list Scored -> list Scored;
  sort_values_perm : forall l, Permutation l (sort_values_desc l);
  sort_values_sorted : forall l,
    Sorted (fun a b => match_score b <= match_score a) (sort_values_desc l)
}.

(** [df.head(n)]: the first [n] rows; for a negative [n], all rows but the
    last [|n|]. *)
Definition head {A : Type} (n : Z) (l : list A) : list A :=
  if (0 <=? n)%Z then firstn (Z.to_nat n) l
  else firstn (List.length l - Z.to_nat (- n)) l.

Section SearchProducts.
Context {fuzz : RapidFuzz} {sorter : SortValues}.

(** Defaults in the source: [max_results = 12], [min_score = 30],
    [enriched_col = "enriched_description"].  The empty DataFrame
    returned on the guards is the empty list of rows. *)
Definition search_products (query : string) (master_df : DataFrame)
           (max_results : Z) (min_score : Q) (enriched_col : option string)
  : list Scored :=
  if negb (truthy (rows master_df)) || String.eqb (strip query) "" then []
  else
    let pq := parse_query query in
    if negb (truthy (tokens pq)) then []
    else
      let descriptions := column_strings master_df "description" in
      let part_numbers := column_strings master_df "part_number" in
      let has_enriched :=
        match enriched_col with
        | Some c => negb (String.eqb c "") && mem c (columns master_df)
        | None => false
        end in
      let enriched_descs :=
        match enriched_col with
        | Some c =>
            if has_enriched then column_strings master_df c
            else map (fun _ => "") (rows master_df)
        | None => map (fun _ => "") (rows master_df)
        end in
      let scores :=
        map (fun '(d, (p, e)) => _score_item pq d p e)
            (combine descriptions (combine part_numbers enriched_descs)) in
      let result := combine (rows master_df) scores in
      let result :=
        filter (fun x => Qle_bool min_score (match_score x)) result in
      let result := sort_values_desc result in
      let result := head max_results result in
      result.
End SearchProducts.

End Search.

(* ===================================================================== *)
(** * search.py: the score in binary64 arithmetic *)
(* ===================================================================== *)

(** [Search._score_item] computes the score in exact rationals, which is
    enough wherever only the order or the range of a score matters.  Python
    computes it in floats: IEEE 754 binary64, every operation rounded to
    nearest.  Here is the same function on binary64 values, operation for
    operation, for the facts that depend on the rounding. *)
Module SearchFloat.
Import PrimFloat.
Import PyStr Re Search.

Local Open Scope float_scope.

(** rapidfuzz's [fuzz] module: the two similarity measures return floats. *)
Class RapidFuzz : Type := {
  token_set_ratio : string -> string -> float;
  partial_ratio   : string -> string -> float
}.

(** A Python int as a float (exact below 2^53). *)
Definition float_of_nat (n : nat) : float :=
  PrimFloat.of_uint63 (Uint63.of_Z (Z.of_nat n)).

(** [max(a, b)]: [b] when [b > a], else [a]. *)
Definition py_max (a b : float) : float := if a <? b then b else a.

(** [min(a, b)]: [b] when [b < a], else [a]. *)
Definition py_min (a b : float) : float := if b <? a then b else a.

Section Scoring.
Context {fuzz : RapidFuzz}.

Definition _score_item (pq : ParsedQuery) (desc pn enriched : string)
  : float :=
  let desc_upper := upper desc in
  let pn_upper := upper pn in
  let enriched_upper :=
    if String.eqb enriched "" then ""%string else upper enriched in
  let combined :=
    (desc_upper ++ " " ++ pn_upper ++ " " ++ enriched_upper)%string in
  (* Token hit scoring *)
  let hits :=
    List.length (filter (fun token => contains combined token) (tokens pq)) in
  let n_tokens := Nat.max (List.length (tokens pq)) 1 in
  let token_ratio := float_of_nat hits / float_of_nat n_tokens in
  if token_ratio =? 0 then 0
  else
    (* Fuzzy matching, best of all fields *)
    let desc_fuzzy := token_set_ratio (normalized pq) desc_upper in
    let pn_fuzzy := partial_ratio (normalized pq) pn_upper in
    let enriched_fuzzy :=
      if String.eqb enriched_upper "" then 0
      else token_set_ratio (normalized pq) enriched_upper in
    let fuzzy_best := py_max (py_max desc_fuzzy pn_fuzzy) enriched_fuzzy in
    (* Coverage *)
    let desc_tokens := findall "[A-Z0-9]+" desc_upper in
    let coverage :=
      py_min (float_of_nat n_tokens
              / float_of_nat (Nat.max (List.length desc_tokens) 1)) 1 in
    let score :=
      token_ratio * 45 + fuzzy_best / 100 * 30 + coverage * 15 in
    (* Diameter match *)
    let score :=
      if truthy (diameters pq) then
        if any (fun d => contains combined d) (diameters pq)
        then score + 15 else score - 10
      else score in
    (* Alloy code match *)
    let score :=
      if truthy (alloys pq) then
        if any (fun a => contains (replace_char "-" "" combined)
                                  (replace_char "-" "" a)) (alloys pq)
        then score + 12 else score - 8
      else score in
    (* Packaging weight match *)
    let score :=
      if truthy (pkg_weights pq) then
        if any (fun w => contains combined (w ++ "F")
                         || contains combined (w ++ "LB")
                         || contains combined (w ++ " LB"))
               (pkg_weights pq)
        then score + 8 else score
      else score in
    (* Packaging type match *)
    let score :=
      if truthy (pkg_types pq) then
        if any (fun t => contains combined t) (pkg_types pq)
        then score + 5 else score
      else score in
    (* All tokens hit *)
    let score := if token_ratio =? 1 then score + 8 else score in
    (* Exact part number match *)
    let norm_query_flat := replace_char " " "" (normalized pq) in
    let score :=
      if String.eqb norm_query_flat (replace_char " " "" pn_upper)
      then 100 else score in
    py_max (py_min score 100) 0.
End Scoring.

End SearchFloat.

(* ===================================================================== *)
(** * enrichment.py *)
(* ===================================================================== *)

Module Enrichment.
Import PyStr PyList Re.

(** ** Reference tables *)

(** The items of the [PRODUCT_LINES] display, in source order; five codes
    are written twice. *)
Definition PRODUCT_LINES_literal : list (string * (string * string)) :=
  [
    (* (full_name, product_type) *)
    (* MIG/GMAW wire *)
    ("WELD 70S 6", ("Spoolarc Weld 70S-6", "MIG Wire (ER70S-6)"));
    ("WELD 70S 3", ("Spoolarc Weld 70S-3", "MIG Wire (ER70S-3)"));
    ("86", ("Spoolarc 86", "MIG Wire (ER70S-6)"));
    ("86E", ("Spoolarc 86", "MIG Wire (ER70S-6)"));
    ("86 E", ("Spoolarc 86", "MIG Wire (ER70S-6)"));
    ("29S", ("Spoolarc 29S", "MIG Wire (ER80S-D2)"));
    ("81", ("Arcaloy 81", "MIG/TIG Wire"));
    ("81 3", ("Arcaloy 81-B3", "Chrome-Moly Wire"));
    ("81 5", ("Arcaloy 81-B5", "Chrome-Moly Wire"));
    ("83", ("Spoolarc 83", "MIG Wire (ER80S-Ni1)"));
    ("83E", ("Spoolarc 83", "MIG Wire (ER80S-Ni1)"));
    ("71", ("Spoolarc 71", "MIG Wire"));
    ("71 5", ("71-5", "MIG Wire"));
    ("82", ("Spoolarc 82", "MIG Wire (ER80S-D2)"));
    ("82 E", ("Spoolarc 82", "MIG Wire (ER80S-D2)"));
    ("95", ("Spoolarc 95", "MIG Wire"));
    ("95E", ("Spoolarc 95", "MIG Wire"));
    ("95 E", ("Spoolarc 95", "MIG Wire"));
    ("95 CU", ("Spoolarc 95 CU", "Copper-Coated MIG Wire"));
    ("120", ("Spoolarc 120", "Submerged Arc Wire"));
    ("120E", ("Spoolarc 120", "Submerged Arc Wire"));
    ("120 CU", ("Spoolarc 120 CU", "Copper-Coated Submerged Arc Wire"));
    ("65", ("Spoolarc 65", "Submerged Arc Wire"));
    ("65 E", ("Spoolarc 65", "MIG Wire"));
    ("65E", ("Spoolarc 65", "MIG Wire"));
    ("75E", ("Spoolarc 75", "MIG Wire"));
    ("75 E", ("Spoolarc 75", "MIG Wire"));
    ("CW", ("CoreWeld", "Metal-Cored Wire"));
    ("CW 70", ("CoreWeld 70", "Metal-Cored Wire (E70C-6M)"));
    ("CW C6", ("CoreWeld C6", "Metal-Cored Wire"));
    (* Flux-cored wire *)
    ("DS", ("Dual Shield", "Flux-Cored Wire"));
    ("DS II", ("Dual Shield II", "Flux-Cored Wire"));
    ("DS II 70", ("Dual Shield II 70", "Flux-Cored Wire (E71T-1)"));
    ("DS II 70 ULT", ("Dual Shield II 70 Ultra", "Flux-Cored Wire (E71T-1)"));
    ("DS II 71", ("Dual Shield II 71", "Flux-Cored Wire"));
    ("DS II 71 ULT", ("Dual Shield II 71 Ultra", "Flux-Cored Wire (E71T-1)"));
    ("DS 710X", ("Dual Shield 710X", "Flux-Cored Wire"));
    ("DS 7100 ULT", ("Dual Shield 7100 Ultra", "Flux-Cored Wire (E71T-1M)"));
    ("DS 7100 LC", ("Dual Shield 7100 Low Carbon", "Flux-Cored Wire"));
    ("DS 7100 SR", ("Dual Shield 7100 SR", "Flux-Cored Wire"));
    ("DS 111RB", ("Dual Shield 111RB", "Flux-Cored Wire"));
    ("DS T", ("Dual Shield T", "Flux-Cored Wire"));
    ("DS T 75", ("Dual Shield T-75", "Flux-Cored Wire"));
    ("DS R 70", ("Dual Shield R 70", "Flux-Cored Wire"));
    ("DS R 70 ULT", ("Dual Shield R 70 Ultra", "Flux-Cored Wire"));
    ("ESAB 71", ("ESAB 71", "Flux-Cored Wire"));
    (* Self-shielded flux-cored *)
    ("CS", ("Coreshield", "Self-Shielded Flux-Cored Wire"));
    ("CS 8", ("Coreshield 8", "Self-Shielded Flux-Cored Wire (E71T-8)"));
    ("CS 11", ("Coreshield 11", "Self-Shielded Flux-Cored Wire (E71T-11)"));
    ("CS 15", ("Coreshield 15", "Self-Shielded Flux-Cored Wire (E71T-14)"));
    (* Stick electrodes — Atom Arc *)
    ("AA", ("Atom Arc", "Stick Electrode"));
    ("AA 7018", ("Atom Arc 7018", "Stick Electrode (E7018)"));
    ("AA 7018 1", ("Atom Arc 7018-1", "Stick Electrode (E7018-1)"));
    ("AA 7018 M", ("Atom Arc 7018 Moisture Resistant", "Stick Electrode (E7018-H4R)"));
    ("AA T", ("Atom Arc T", "Stick Electrode"));
    (* Stick electrodes — Sureweld (abbreviated SW) *)
    ("SW", ("Sureweld", "Stick Electrode"));
    ("SW T", ("Sureweld T", "Stick Electrode"));
    ("SW T 11", ("Sureweld T-11", "Stick Electrode (E6011)"));
    (* Stick electrodes — Sureweld (full name) *)
    ("SUREWELD 6010", ("Sureweld 6010", "Stick Electrode (E6010)"));
    ("SUREWELD 6011", ("Sureweld 6011", "Stick Electrode (E6011)"));
    ("SUREWELD 6013", ("Sureweld 6013", "Stick Electrode (E6013)"));
    ("SUREWELD 7014", ("Sureweld 7014", "Stick Electrode (E7014)"));
    ("SUREWELD 7018", ("Sureweld 7018", "Stick Electrode (E7018)"));
    ("SUREWELD 7024", ("Sureweld 7024", "Stick Electrode (E7024)"));
    ("SUREWELD 308L 16", ("Sureweld 308L-16", "Stainless Stick Electrode (E308L-16)"));
    ("SUREWELD 309L 16", ("Sureweld 309L-16", "Stainless Stick Electrode (E309L-16)"));
    ("SUREWELD 316L 16", ("Sureweld 316L-16", "Stainless Stick Electrode (E316L-16)"));
    ("SUREWELD 308LSI MIG", ("Sureweld 308LSi MIG", "Stainless MIG Wire (ER308LSi)"));
    (* Submerged arc *)
    ("AS", ("AutoShield", "Submerged Arc Wire"));
    ("SA", ("Spoolarc", "Submerged Arc Wire"));
    (* A S = Arcaloy Stainless stick electrodes *)
    ("A S SUPER 4 60", ("Arcaloy Super 4-60", "Stainless Stick Electrode"));
    ("A S 4 60", ("Arcaloy 4-60", "Stainless Stick Electrode"));
    ("A S SMOOTHCOTE 34", ("Arcaloy Smoothcote 34", "Stainless Stick Electrode"));
    ("A S 275", ("Arcaloy 275", "Stainless Stick Electrode"));
    ("A S STEELARC 80LV", ("Arcaloy Steelarc 80LV", "Low-Alloy Stick Electrode"));
    ("A S HS 2C", ("Arcaloy HS-2C", "Stainless Stick Electrode"));
    ("A S 8 60", ("Arcaloy 8-60", "Stainless Stick Electrode"));
    ("A S", ("Arcaloy Stainless", "Stick Electrode"));
    (* OK brand (ESAB Europe) *)
    ("OK FLUX 10", ("OK Flux 10", "Submerged Arc Flux"));
    ("OK FLUXN 10", ("OK Flux 10", "Submerged Arc Flux"));
    ("OK AUTROD 308LSI", ("OK Autrod 308LSi", "Stainless MIG Wire"));
    ("OK AUTROD 12", ("OK Autrod 12.50/12.51", "MIG Wire (ER70S-6)"));
    ("OK AUTROD", ("OK Autrod", "MIG/TIG Wire (ESAB Europe)"));
    ("OK TIGROD", ("OK Tigrod", "TIG Rod (ESAB Europe)"));
    ("OK TUBROD 14 12", ("OK Tubrod 14.12", "Flux-Cored Wire (ESAB Europe)"));
    ("OK TUBROD", ("OK Tubrod", "Flux-Cored Wire (ESAB Europe)"));
    ("OK AR12 62", ("OK Autrod 12.62", "Low-Alloy MIG Wire"));
    ("OK AR12 63", ("OK Autrod 12.63", "MIG Wire"));
    ("OK AR12 50", ("OK Autrod 12.50", "MIG Wire (ER70S-6)"));
    ("OK AR 12 50", ("OK Autrod 12.50", "MIG Wire (ER70S-6)"));
    ("OK AR 12 63", ("OK Autrod 12.63", "MIG Wire"));
    ("OK AR55", ("OK Autrod 55", "Low-Alloy MIG Wire"));
    ("OK AR13 26", ("OK Autrod 13.26", "Stainless MIG Wire"));
    ("OK 53 70", ("OK 53.70", "Stick Electrode (E7016)"));
    ("OK 12 51", ("OK 12.51", "MIG Wire (ER70S-6)"));
    ("OK 12 50", ("OK 12.50", "MIG Wire (ER70S-6)"));
    ("OK", ("OK (ESAB Europe)", "Welding Consumable"));
    (* Aluminum — ER prefix *)
    ("ER4043", ("Alcotec ER4043", "Aluminum MIG/TIG Wire (4043)"));
    ("ER5356", ("Alcotec ER5356", "Aluminum MIG/TIG Wire (5356)"));
    ("ER1100", ("Alcotec ER1100", "Aluminum MIG/TIG Wire (1100)"));
    ("ER4047", ("Alcotec ER4047", "Aluminum MIG/TIG Wire (4047)"));
    ("ER5183", ("Alcotec ER5183", "Aluminum MIG/TIG Wire (5183)"));
    ("ER5554", ("Alcotec ER5554", "Aluminum MIG/TIG Wire (5554)"));
    ("ER5556", ("Alcotec ER5556", "Aluminum MIG/TIG Wire (5556)"));
    ("ER4145", ("Alcotec ER4145", "Aluminum MIG/TIG Wire (4145)"));
    (* Aluminum — R prefix (TIG rod) *)
    ("R4043", ("Alcotec R4043", "Aluminum TIG Rod (4043)"));
    ("R4047", ("Alcotec R4047", "Aluminum TIG Rod (4047)"));
    ("R4009", ("Alcotec R4009", "Aluminum TIG Rod (4009)"));
    ("R5356", ("Alcotec R5356", "Aluminum TIG Rod (5356)"));
    ("R5183", ("Alcotec R5183", "Aluminum TIG Rod (5183)"));
    ("R5556", ("Alcotec R5556", "Aluminum TIG Rod (5556)"));
    ("R5554", ("Alcotec R5554", "Aluminum TIG Rod (5554)"));
    ("R1100", ("Alcotec R1100", "Aluminum TIG Rod (1100)"));
    (* Aluminum — bare number *)
    ("4043", ("Alcotec 4043", "Aluminum MIG/TIG Wire (4043)"));
    ("5356", ("Alcotec 5356", "Aluminum MIG/TIG Wire (5356)"));
    (* Stainless — Exaton *)
    ("EXATON ER308 308L", ("Exaton ER308/308L", "Stainless MIG/TIG Wire"));
    ("EXATON ER308SI 308LSI", ("Exaton ER308Si/308LSi", "Stainless MIG/TIG Wire"));
    ("EXATON ER316 316L", ("Exaton ER316/316L", "Stainless MIG/TIG Wire"));
    ("EXATON ER316SI 316LSI", ("Exaton ER316Si/316LSi", "Stainless MIG/TIG Wire"));
    ("EXATON ER309 309L", ("Exaton ER309/309L", "Stainless MIG/TIG Wire"));
    ("EXATON ER309LSI", ("Exaton ER309LSi", "Stainless MIG/TIG Wire"));
    ("EXATON ER2209", ("Exaton ER2209", "Duplex Stainless Wire/Rod"));
    ("EXATON ER2594", ("Exaton ER2594", "Super Duplex Stainless Wire/Rod"));
    ("EXATON ER25 22 2 LMN", ("Exaton ER25-22-2 LMn", "Super Duplex Stainless Wire/Rod"));
    ("EXATON ER317L", ("Exaton ER317L", "Stainless MIG/TIG Wire (317L)"));
    ("EXATON AXT", ("Exaton AXT", "Stainless Wire/Rod"));
    ("EXATON", ("Exaton", "Stainless Wire/Rod"));
    (* Stainless — Arcaloy stick *)
    ("AC 309L 16", ("Arcaloy 309L-16", "Stainless Stick Electrode (E309L-16)"));
    ("AC 309L 15", ("Arcaloy 309L-15", "Stainless Stick Electrode (E309L-15)"));
    ("AC 309 309H 16", ("Arcaloy 309/309H-16", "Stainless Stick Electrode (E309-16)"));
    ("AC 309NB 16", ("Arcaloy 309Nb-16", "Stainless Stick Electrode (E309Nb-16)"));
    ("AC 316LF5 16", ("Arcaloy 316LF5-16", "Stainless Stick Electrode (E316L-16)"));
    ("AC 308L", ("Arcaloy 308L", "Stainless Wire/Rod"));
    ("AC 309L", ("Arcaloy 309L", "Stainless Stick Electrode"));
    (* Stainless — Shield-Brite *)
    ("SB 308L", ("Shield-Brite 308L", "Stainless MIG Wire (ER308L)"));
    ("SB 308H", ("Shield-Brite 308H", "Stainless MIG Wire (ER308H)"));
    ("SB 309L", ("Shield-Brite 309L", "Stainless MIG Wire (ER309L)"));
    ("SB 316L", ("Shield-Brite 316L", "Stainless MIG Wire (ER316L)"));
    ("SB", ("Shield-Brite", "Stainless MIG Wire"));
    (* Nickel alloy *)
    ("NCU80SB2", ("Arcaloy NCU80SB2", "Nickel Alloy Wire/Rod"));
    ("NCU80SB6", ("Arcaloy NCU80SB6", "Nickel Alloy Wire/Rod"));
    ("NCU80SB8", ("Arcaloy NCU80SB8", "Nickel Alloy Wire/Rod"));
    ("NCU90SB3", ("Arcaloy NCU90SB3", "Nickel Alloy Wire/Rod"));
    ("NCU90SB9", ("Arcaloy NCU90SB9", "Nickel Alloy Wire/Rod"));
    ("TIG80SB2", ("Arcaloy TIG80SB2", "Nickel Alloy TIG Rod"));
    ("TIG90SB3", ("Arcaloy TIG90SB3", "Nickel Alloy TIG Rod"));
    ("NC 55", ("Arcaloy NC-55", "Nickel Alloy Wire/Rod"));
    (* Copper-coated / specialty MIG *)
    ("PURUS 42", ("Purus 42", "Copper-Free MIG Wire (ER70S-6)"));
    (* TIG rod *)
    ("WELD 70S 6 TIG", ("Spoolarc Weld 70S-6 TIG", "TIG Rod (ER70S-6)"));
    ("WELD 70S 3 TIG", ("Spoolarc Weld 70S-3 TIG", "TIG Rod (ER70S-3)"));
    (* Additional flux-cored *)
    ("DS 710", ("Dual Shield 710", "Flux-Cored Wire"));
    ("DS 7100 SR", ("Dual Shield 7100 SR", "Flux-Cored Wire"));
    ("DS T 75", ("Dual Shield T-75", "Flux-Cored Wire"));
    ("DS R 70", ("Dual Shield R 70", "Flux-Cored Wire"));
    ("CS 3", ("Coreshield 3", "Self-Shielded Flux-Cored Wire"));
    ("CS 6", ("Coreshield 6", "Self-Shielded Flux-Cored Wire"));
    ("ESAB 71", ("ESAB 71", "Flux-Cored Wire (E71T-1)"));
    ("WELD 71T 9", ("Weld 71T-9", "Flux-Cored Wire (E71T-9)"));
    (* More stick electrodes *)
    ("AA 6010", ("Atom Arc 6010", "Stick Electrode (E6010)"));
    ("AA 6011", ("Atom Arc 6011", "Stick Electrode (E6011)"));
    ("AA 7014", ("Atom Arc 7014", "Stick Electrode (E7014)"));
    ("AA 7024", ("Atom Arc 7024", "Stick Electrode (E7024)"));
    ("SW 10", ("Sureweld 10", "Stick Electrode (E6010)"));
    ("SW 11", ("Sureweld 11", "Stick Electrode (E6011)"));
    ("SW 14", ("Sureweld 14", "Stick Electrode (E7014)"));
    ("SW 18", ("Sureweld 18", "Stick Electrode (E7018)"));
    ("SW 24", ("Sureweld 24", "Stick Electrode (E7024)"));
    (* Additional MIG/submerged arc *)
    ("65 E", ("Spoolarc 65 E", "Submerged Arc Wire"));
    ("AS 70S", ("AutoShield 70S", "Submerged Arc Wire (ER70S)"));
    ("HELIX E WB", ("Helix E WB", "Submerged Arc Wire"));
    (* Hardfacing *)
    ("STOODY", ("Stoody", "Hardfacing Wire/Rod"));
    ("THERMACLAD", ("ThermaClad", "Hardfacing Wire"));
    (* ESAB gun/torch product lines *)
    ("SPRAY MASTER", ("SprayMaster", "MIG Gun"));
    ("SPRAYMASTER", ("SprayMaster", "MIG Gun"));
    ("TWECO ELITE", ("Tweco Elite", "MIG Gun"));
    ("CLASSIC", ("Classic", "MIG Gun"));
    ("WELDSKILL", ("WeldSkill", "MIG Gun"));
    ("SUPRAXT", ("SupraXT", "MIG Gun"));
    ("COMPACT ELIMINATOR", ("Compact Eliminator", "MIG Gun"));
    ("COMPACTELIMINATOR", ("Compact Eliminator", "MIG Gun"));
    ("ESAB HELIARC SR", ("ESAB Heliarc SR", "TIG Torch"));
    ("SL100", ("SL100", "Plasma Torch"));
    ("SL60", ("SL60", "Plasma Torch"));
    (* TBI automated torches *)
    ("TBI 511 AUT", ("TBI 511", "Automated MIG Torch"));
    ("TBI 360 AUT", ("TBI 360", "Automated MIG Torch"));
    ("TBI 6G AUT", ("TBI 6G", "Automated MIG Torch"));
    ("TBI 7G AUT", ("TBI 7G", "Automated MIG Torch"));
    ("TBI 8G AUT", ("TBI 8G", "Automated MIG Torch"));
    ("TBI", ("TBI", "MIG Torch"));
    (* Welding machines *)
    ("REBEL EMP 285IC", ("Rebel EMP 285ic", "Multi-Process Welder"));
    ("REBEL EMP 235IC", ("Rebel EMP 235ic", "Multi-Process Welder"));
    ("REBEL EMP 215IC", ("Rebel EMP 215ic", "Multi-Process Welder"));
    ("REBEL EMP 205IC", ("Rebel EMP 205ic", "Multi-Process Welder"));
    ("REBEL EMP", ("Rebel EMP", "Multi-Process Welder"));
    ("REBEL", ("Rebel", "Welding Machine"));
    (* Wire feeders *)
    ("ROBUST FEED PRO", ("Robust Feed PRO", "Wire Feeder"));
    ("ROBUST FEED PULSE", ("Robust Feed Pulse", "Wire Feeder"));
    ("ROBUST FEED U82", ("Robust Feed U82", "Wire Feeder"));
    ("ROBUST FEED U6", ("Robust Feed U6", "Wire Feeder"));
    ("ROBUST FEED U0", ("Robust Feed U0", "Wire Feeder"));
    ("ROBUST FEED", ("Robust Feed", "Wire Feeder"));
    (* Regulators — ETS Edge Two-Stage *)
    ("ETS42 200", ("ETS42-200", "Edge Two-Stage Regulator"));
    ("ETS4", ("ETS4", "Edge Two-Stage Regulator"));
    ("ETS", ("ETS", "Edge Regulator"));
    (* Airco-style tips *)
    ("AIRCO 138", ("Airco 138", "Airco-Style Cutting Tip"));
    ("AIRCO 144", ("Airco 144", "Airco-Style Cutting Tip"));
    ("AIRCO 164", ("Airco 164", "Airco-Style Welding Tip"));
    ("AIRCO", ("Airco", "Airco-Style Gas Tip"));
    (* TIG torches — SR series (ESAB Heliarc / WeldCraft) *)
    ("SR 26 RMT", ("SR-26 RMT", "TIG Torch (200A Gas Cooled)"));
    ("SR 26V FX", ("SR-26V FX", "TIG Torch (200A Gas Cooled)"));
    ("SR 26FV", ("SR-26FV", "TIG Torch (200A Gas Cooled)"));
    ("SR 26", ("SR-26", "TIG Torch (200A Gas Cooled)"));
    ("SR 21 FX", ("SR-21 FX", "TIG Torch (200A Gas Cooled)"));
    ("SR 18 RMT", ("SR-18 RMT", "TIG Torch (350A Water Cooled)"));
    ("SR 20 FX", ("SR-20 FX", "TIG Torch (250A Water Cooled)"));
    ("SR 9 RMT", ("SR-9 RMT", "TIG Torch (125A Gas Cooled)"));
    ("SR 17 RMT", ("SR-17 RMT", "TIG Torch (150A Gas Cooled)"));
    ("SR", ("SR Series", "TIG Torch"));
    (* HW = Heliarc/WeldCraft legacy TIG torch bodies *)
    ("HW 26FV", ("WeldCraft 26FV", "TIG Torch Body (200A, Flex w/Valve)"));
    ("HW 17FV", ("WeldCraft 17FV", "TIG Torch Body (150A, Flex w/Valve)"));
    ("HW 17RV", ("WeldCraft 17RV", "TIG Torch Body (150A, Rigid w/Valve)"));
    ("HW 20", ("WeldCraft 20", "TIG Torch Body (250A Water Cooled)"));
    ("HW 9", ("WeldCraft 9", "TIG Torch Body (125A Gas Cooled)"));
    ("HW 90180", ("WeldCraft 90/180", "TIG Torch Body"));
    ("HW", ("WeldCraft", "TIG Torch Body/Part"));
    (* PT = Plasma torch heads/bodies *)
    ("PT 27", ("PT-27", "Plasma Torch"));
    ("PT 25", ("PT-25", "Plasma Torch"));
    ("PT 31", ("PT-31", "Plasma Torch"));
    ("PT 36", ("PT-36", "Plasma Torch"));
    ("PT 38", ("PT-38", "Plasma Torch"));
    ("PT 121", ("PT-121", "Plasma Torch"));
    ("PT 26P", ("PT-26P", "Plasma Torch"));
    (* Cutmaster plasma systems *)
    ("CUTMASTER 120", ("Cutmaster 120", "Plasma Cutting System"));
    ("CUTMASTER 82", ("Cutmaster 82", "Plasma Cutting System"));
    ("CUTMASTER 60", ("Cutmaster 60", "Plasma Cutting System"));
    ("CUTMASTER 40", ("Cutmaster 40", "Plasma Cutting System"));
    ("CUTMASTER A120", ("Cutmaster A120", "Plasma Cutting System"));
    ("CUTMASTER A80", ("Cutmaster A80", "Plasma Cutting System"));
    ("CUTMASTER A40", ("Cutmaster A40", "Plasma Cutting System"));
    ("CUTMASTER", ("Cutmaster", "Plasma Cutting System"));
    (* Purox/Oxweld gas tips (Victor/ESAB) *)
    ("PUROX STYLE 4202", ("Purox Style 4202", "Oxy-Fuel Cutting Tip"));
    ("PUROX 4202", ("Purox 4202", "Oxy-Fuel Cutting Tip"));
    ("PUROX STYLE", ("Purox Style", "Oxy-Fuel Tip"));
    ("PUROX", ("Purox", "Oxy-Fuel Tip"));
    ("OXWELD 1502", ("Oxweld 1502", "Oxy-Fuel Cutting Tip"));
    ("OXWELD 150212", ("Oxweld 1502-12", "Oxy-Fuel Cutting Tip"));
    ("OXWELD", ("Oxweld", "Oxy-Fuel Tip"));
    (* ARC = Arcaloy metal-cored wire (MC prefix in description) *)
    ("ARC MC409TI", ("Arcaloy MC409Ti", "Stainless Metal-Cored Wire"));
    ("ARC MC439TI", ("Arcaloy MC439Ti", "Stainless Metal-Cored Wire"));
    ("ARC MC18CRCB", ("Arcaloy MC18CrCb", "Stainless Metal-Cored Wire"));
    ("ARC MC", ("Arcaloy Metal-Cored", "Stainless Metal-Cored Wire"));
    (* Additional Sureweld stainless stick *)
    ("SUREWELD 308L", ("Sureweld 308L-16", "Stainless Stick Electrode (E308L-16)"));
    ("SUREWELD 309L", ("Sureweld 309L-16", "Stainless Stick Electrode (E309L-16)"));
    ("SUREWELD 316L", ("Sureweld 316L-16", "Stainless Stick Electrode (E316L-16)"));
    (* Sentinel welding helmets *)
    ("SENTINEL A70PRO", ("Sentinel A70 PRO", "Auto-Darkening Welding Helmet"));
    ("SENTINEL A60", ("Sentinel A60", "Auto-Darkening Welding Helmet"));
    ("SENTINEL A50", ("Sentinel A50", "Auto-Darkening Welding Helmet"));
    ("SENTINEL", ("Sentinel", "Welding Helmet"));
    (* ESAB Autrod (European wire, number prefix) *)
    ("ESAB AUTROD 12", ("ESAB Autrod 12", "MIG Wire (ESAB Europe)"));
    ("ESAB AUTROD", ("ESAB Autrod", "MIG/TIG Wire (ESAB Europe)"));
    ("ESAB C6M", ("ESAB CoreWeld C6M", "Metal-Cored Wire"));
    (* Aluminum alloys — bare number (not ER-prefix, not R-prefix) *)
    ("1100 O", ("Alcotec 1100-O", "Aluminum Wire (1100)"));
    ("1100", ("Alcotec 1100", "Aluminum Wire (1100)"));
    ("1350 F", ("Alcotec 1350-F", "Aluminum Wire (1350)"));
    ("1350", ("Alcotec 1350", "Aluminum Wire (1350)"));
    ("4008 F", ("Alcotec 4008-F", "Aluminum Wire (4008)"));
    ("4008", ("Alcotec 4008", "Aluminum Wire (4008)"));
    ("4043A", ("Alcotec 4043A", "Aluminum Wire (4043A)"));
    ("4047 O", ("Alcotec 4047-O", "Aluminum Wire (4047)"));
    ("5183", ("Alcotec 5183", "Aluminum Wire (5183)"));
    ("5754", ("Alcotec 5754", "Aluminum Wire (5754)"));
    ("7050", ("Alcotec 7050", "Aluminum Wire (7050)"));
    (* TAM = Tweco Automatic/Manual MIG gun connections *)
    ("TAM SERIES AUTO", ("Tweco TAM Series", "Automatic MIG Gun Connection"));
    ("TAM BODY", ("Tweco TAM Body", "MIG Gun Connection Body"));
    ("TAM", ("Tweco TAM", "MIG Gun Connection Part"));
    (* Sandvik stainless stick electrodes *)
    ("SANDVIK E317L", ("Sandvik E317L-16", "Stainless Stick Electrode (E317L-16)"));
    ("SANDVIK E309L", ("Sandvik E309L-16", "Stainless Stick Electrode (E309L-16)"));
    ("SANDVIK E316L", ("Sandvik E316L-16", "Stainless Stick Electrode (E316L-16)"));
    ("SANDVIK E308L", ("Sandvik E308L-16", "Stainless Stick Electrode (E308L-16)"));
    ("SANDVIK", ("Sandvik", "Stainless Stick Electrode"));
    (* Additional ESAB products *)
    ("ESAB TEACH TOOL", ("ESAB Teach Tool", "Cobot Welding Teaching Pendant"));
    ("ESAB RC REMOTE", ("ESAB RC Remote Control", "Remote Control for Welding"));
    ("ESAB STANDARD", ("ESAB Standard Interface", "Welding System Interface"));
    ("ESAB 7018", ("ESAB 7018", "Stick Electrode (E7018)"));
    ("ESAB RUFFIAN", ("ESAB Ruffian", "Engine-Driven Welder"));
    ("ESAB", ("ESAB", "Welding Product"));
    (* Flux-related *)
    ("FLUX CORE SEFC", ("Flux Core SEFC", "Flux Core Seam Track Liner"));
    ("FLUX HOPPER", ("Flux Hopper", "Submerged Arc Flux Hopper"))
  ].

Definition PRODUCT_LINES : dict (string * string) :=
  dict_of_items PRODUCT_LINES_literal.

Definition DIAMETER_MAP : dict string :=
  [ ("023", "0.023" ++ dq); ("024", "0.024" ++ dq); ("030", "0.030" ++ dq);
    ("035", "0.035" ++ dq); ("040", "0.040" ++ dq); ("045", "0.045" ++ dq);
    ("047", "3/64" ++ dq); ("052", "0.052" ++ dq); ("062", "0.062" ++ dq);
    ("068", "0.068" ++ dq); ("078", "5/64" ++ dq); ("093", "3/32" ++ dq) ].

Definition FRACTION_DIAMETERS : dict string :=
  [ ("1 16", "1/16" ++ dq); ("5 64", "5/64" ++ dq); ("3 32", "3/32" ++ dq);
    ("7 64", "7/64" ++ dq); ("1 8", "1/8" ++ dq); ("9 64", "9/64" ++ dq);
    ("5 32", "5/32" ++ dq); ("3 16", "3/16" ++ dq); ("7 32", "7/32" ++ dq);
    ("1 4", "1/4" ++ dq); ("5 16", "5/16" ++ dq) ].

Definition METRIC_DIAMETERS : dict string :=
  [ ("0 6MM", "0.6mm"); ("0 8MM", "0.8mm"); ("0 9MM", "0.9mm");
    ("1 0MM", "1.0mm"); ("1 2MM", "1.2mm"); ("1 4MM", "1.4mm");
    ("1 6MM", "1.6mm"); ("2 0MM", "2.0mm"); ("2 4MM", "2.4mm");
    ("3 2MM", "3.2mm") ].

Definition PACKAGE_PATTERNS : list (string * (rmatch -> string)) :=
  [ (* Drums and large packages *)
    ("(\d+)F\s*DR(?:\s|$)", fun m => group m 1 ++ " lb Drum");
    ("(\d+)F\s*MP(?:\s|$)", fun m => group m 1 ++ " lb Pack");
    ("(\d+)F\s*OMP(?:\s|$)", fun m => group m 1 ++ " lb Pack");
    (* Spools *)
    ("(\d+)F\s*PSP(?:\s|$)", fun m => group m 1 ++ " lb Plastic Spool");
    ("(\d+)F\s*FSP(?:\s|$)", fun m => group m 1 ++ " lb Fiber Spool");
    ("(\d+)F\s*SP(?:\s|$)", fun m => group m 1 ++ " lb Spool");
    ("(\d+)F\s*AWS(?:\s|$)", fun m => group m 1 ++ " lb Spool");
    ("(\d+)F\s*WB(?:\s|$)", fun m => group m 1 ++ " lb Wire Basket");
    (* Coils *)
    ("(\d+)F\s*CL(?:\s|$)", fun m => group m 1 ++ " lb Coil");
    (* Stick electrode lengths *)
    ("(\d+)X(\d+)F\s*HS(?:\s|$)",
     fun m => group m 1 ++ dq ++ " x " ++ group m 2
              ++ " lb Hermetically Sealed");
    ("(\d+)X(\d+)F\s*CT(?:\s|$)",
     fun m => group m 1 ++ dq ++ " x " ++ group m 2 ++ " lb Carton");
    ("(\d+)X(\d+)FT",
     fun m => group m 1 ++ dq ++ " x " ++ group m 2 ++ " lb Tube");
    ("(\d+)X(\d+)F\s*VACPAK",
     fun m => group m 1 ++ dq ++ " x " ++ group m 2 ++ " lb Vacuum Pack");
    (* Kilogram packs *)
    ("(\d+)KG\s*CP", fun m => group m 1 ++ " kg Pack");
    ("(\d+)KG", fun m => group m 1 ++ " kg");
    (* Bare weight *)
    ("(\d+)F(?:\s+\d+F?\s*(?:PLT|CT))?$", fun m => group m 1 ++ " lb");
    (* Small spools *)
    ("X\s*1F\b", fun _ => "1 lb Spool") ].

(** Order matters: more specific entries first. *)
Definition HARDGOODS_CATEGORIES : list (list string * string) :=
  [
    (* Plasma consumables (must be before generic ELECTRODE/TIP) *)
    (["TIP TIP GOUGING"], "Plasma Gouging Tip");
    (["TIP TIP LONG"], "Plasma Cutting Tip (Long)");
    (["TIP TIP EXTENDED"], "Plasma Cutting Tip (Extended)");
    (["TIP TIP"], "Plasma Cutting Tip");
    (["ELECTRODE ELECTRODE AIR"; "ELECTRODE AIR"], "Air Carbon Arc Electrode");
    (["ELECTRODE ELECTRODE O2"; "ELECTRODE ELECTRODE NITROGEN";
      "ELECTRODE ELECTRODE AR"; "ELECTRODE ELECTRODE MULTI";
      "ELECTRODE ELECTRODE GOUGING"; "ELECTRODE ELECTRODE MG";
      "ELECTRODE ELECTRODE N2"; "ELECTRODE ELECTRODE WELDING";
      "ELECTRODE ELECTRODE LO AMP"], "Plasma Electrode");
    (["ELECTRODE PT"], "Plasma Electrode");
    (* TIG torch parts *)
    (["GAS LENS"], "TIG Gas Lens");
    (["CUP HI"; "CUP CER"; "SHIELD CUP"], "TIG Cup");
    (["COLLET BODY"], "TIG Collet Body");
    (["COLLET"], "TIG Collet");
    (["BACK CAP"], "TIG Back Cap");
    (["TIG TORCH"], "TIG Torch");
    (* MIG consumables *)
    (["CONTACT TIP"], "Contact Tip");
    (["CONTACT JAW"], "Contact Jaw");
    (["CONTACT TUBE"], "Contact Tube");
    (["CT HOLDER"], "Contact Tip Holder");
    (["NOZZLE"], "Nozzle");
    (["GAS DIFFUSER"], "Gas Diffuser");
    (["GAS DISTRIBUTOR"], "Gas Distributor");
    (["SHIELD CAP"], "Shield Cap");
    (["SHIELD RETAINER"], "Shield Retaining Cap");
    (["NOZ RETAIN"], "Nozzle Retaining Cup");
    (["DRIVE RL"; "DRIVE ROLL"], "Drive Roll");
    (["FEEDROLL"; "FEED ROLL"; "FEED ROLLER"], "Feed Roll");
    (["CONDUCTOR TUBE"], "Conductor Tube");
    (["LINER"], "MIG Liner");
    (["GUIDE TUBE"], "Wire Guide Tube");
    (["WIRE GUIDE"], "Wire Guide");
    (["WIRE OUTLET"; "OUTLET GUIDE"], "Wire Outlet Guide");
    (["INLET GUIDE"], "Wire Inlet Guide");
    (["CENTER GUIDE"], "Center Wire Guide");
    (["INSULATOR"], "Insulator");
    (* Torch / gun types *)
    (["TORCH BODY"; "TORCH ADAPTER"], "Torch");
    (["TORCH HEAD"], "Torch Head");
    (["TORCH HOLDER"], "Torch Holder");
    (["TORCH CARRIAGE"], "Torch Carriage");
    (["TORCH LEADS"], "Torch Leads Package");
    (["SPRAYMASTER"; "SPRAY MASTER"], "SprayMaster MIG Gun");
    (["TWECO ELITE"], "Tweco Elite MIG Gun");
    (["TWECO"], "Tweco MIG Gun Part");
    (["HELIARC"], "ESAB Heliarc TIG Torch");
    (["EXEOR MIG"], "Exeor MIG Gun");
    (["QRW ROBOTIC"; "QRA ROBOTIC"; "QRWA ROBOTIC"], "Robotic MIG Gun");
    (["PUSHPULL"; "PUSH PULL"], "Push-Pull MIG Gun");
    (["SWAN NECK"], "Robotic Swan Neck");
    (["WATER COOLED MIG"], "Water-Cooled MIG Gun");
    (* Cutting / gas apparatus *)
    (["CUTTING TIP"; "TIP TIP AIR"], "Cutting Tip");
    (["VICTOR STYLE"], "Victor-Style Gas Apparatus");
    (["SMITH STYLE"], "Smith-Style Gas Apparatus");
    (["HARRIS STYLE"], "Harris-Style Gas Apparatus");
    (["AIRCO STYLE"], "Airco-Style Gas Apparatus");
    (["SEAT STEM"], "Seat Stem Assembly");
    (["SWIVEL BRASS"], "Brass Swivel Fitting");
    (["INNER OXYGEN"], "Inner Oxygen Tube");
    (["MACHINE CUTTING TORCH"], "Machine Cutting Torch");
    (* Welding electrode types *)
    (["TUNG ELEC"; "TUNGSTEN"], "Tungsten Electrode");
    (["ELECTRODE HOLDER"], "Electrode Holder");
    (* Power equipment *)
    (["POWER SUPPLY"; "POWER SOURCE"], "Power Supply");
    (["WIRE FEEDER"; "WIREFEED"], "Wire Feeder");
    (["WARRIOR"], "Warrior Welding Machine");
    (["ARISTO"], "Aristo Welding Machine");
    (["ROGUE"], "Rogue Welding Machine");
    (["COOL MINI"], "Cool Mini Water Cooler");
    (* Regulators / gas *)
    (["REGULATOR"], "Regulator");
    (["RELIEF VALVE"], "Relief Valve");
    (["SOLENOID VALVE"], "Solenoid Valve");
    (["PRESSURE ROLL"; "PRESSURE ROLLER"], "Pressure Roll");
    (["PRESSURE DEVICE"], "Pressure Device");
    (["PRESSURE CONTROL"], "Pressure Control");
    (* Cables / connectors / hoses *)
    (["CABLE"], "Cable");
    (["WELDING CABLE"], "Welding Cable");
    (["EDGE INTERC"], "Edge Interconnection Cable");
    (["CONN SET"], "Connector Set");
    (["CONNECTOR"], "Connector");
    (["QUICK CONNECTOR"], "Quick Connector");
    (["HOSE ASSY"; "HOSE CONN"; "HOSE UNION"; "HOSE PACKAGE"], "Hose Assembly");
    (["FLEX CONDTUBE"; "CONDUIT"], "Conduit / Liner");
    (* Hardware / fasteners / misc parts *)
    (["HANDLE"], "Handle");
    (["KNOB"], "Knob");
    (["SWITCH"], "Switch");
    (["NUT BRASS"], "Brass Nut");
    (["NUT"], "Nut");
    (["SCREW"], "Screw");
    (["WASHER"], "Washer");
    (["O RING"], "O-Ring");
    (["SPRING"], "Spring");
    (["COVER"], "Cover");
    (["SHIELD"], "Shield");
    (["FRONT PANEL"; "FRONT DECORATIVE"], "Front Panel");
    (["FRONT COVER LENS"], "Front Cover Lens");
    (["FRONT WHEEL"], "Front Wheel Kit");
    (["FRONT"], "Front Part");
    (["HEAT SHIELD"], "Heat Shield");
    (* Electrical / electronics *)
    (["PCB CONTROL"; "PCB"], "Circuit Board (PCB)");
    (["PC BOARD"; "PFC BOARD"], "Circuit Board");
    (["CIRCUIT BREAKER"], "Circuit Breaker");
    (["MOTOR"], "Motor");
    (["FAN"], "Fan");
    (["FILTER"], "Filter");
    (["PANEL"], "Panel");
    (* Machine accessories *)
    (["REAMER"], "Nozzle Reamer");
    (["MIXER"], "Torch Mixer");
    (["GAUGE"], "Pressure Gauge");
    (["VALVE BODY"; "VALVE STEM"; "VALVE ASSY"], "Valve Assembly");
    (["DIAPHRAGM"], "Diaphragm");
    (["MAGNETIC EARTH CLAMP"], "Magnetic Earth Clamp");
    (["MAGNETIC TORCH HOLDER"], "Magnetic Torch Holder");
    (["COLLISION PROTECTION"; "COLLISION POTECTION"], "Collision Protection");
    (["LASER PROTECTION"], "Laser Protection Cover");
    (["SPARE PARTS KIT"], "Spare Parts Kit");
    (["REPAIR KIT"], "Repair Kit");
    (* Branded kits/packages *)
    (["PACK CUTSKILL"], "Cutskill Plasma Consumable");
    (["PLASMA"], "Plasma Torch Part");
    (["LABEL"], "Label");
    (["STOODY"], "Stoody Hardfacing");
    (["THERMACLAD"], "ThermaClad Hardfacing");
    (["CTD"; "VACPAK"], "TIG Rod / Cut Length");
    (* Wire/guide misc *)
    (["WIRE STRAIGHTENER"], "Wire Straightener");
    (["WIRE REEL"], "Wire Reel");
    (["CONTROL WIRE"], "Control Wire");
    (* Guide catch-all *)
    (["GUIDE PIN"], "Guide Pin");
    (["GUIDE WHEEL"], "Guide Wheel");
    (["GUIDE FINGER"], "Guide Finger");
    (* Gas apparatus / fittings *)
    (["GAS SEPARATOR"], "Gas Separator");
    (["GAS HOSE"], "Gas Hose");
    (["GAS COOLED"], "Gas-Cooled Torch Part");
    (["GAS SYSTEM"], "Gas System Component");
    (* Torch parts *)
    (["TORCH PB"; "TORCH PUSH"], "Push-Pull MIG Torch");
    (["TORCH NECK"], "Torch Neck");
    (["TORCH BODY"], "Torch Body");
    (["TORCH ADAPTER"], "Torch Adapter");
    (* Valve parts *)
    (["VALVE CONNECTION"], "Valve Connection");
    (["VALVE CAP"], "Valve Cap");
    (["VALVE"], "Valve");
    (* Machine parts *)
    (["SPACER"], "Spacer");
    (["TRIGGER ASSY"; "TRIGGER ASSEMBLY"], "Trigger Assembly");
    (["TRIGGER LEVER"], "Trigger Lever");
    (["TRIGGER"], "Trigger");
    (["HARNESS SIGNAL"], "Signal Harness");
    (["HARNESS SOLENOID"], "Solenoid Harness");
    (["HARNESS GAS"], "Gas System Harness");
    (["HARNESS"], "Wiring Harness");
    (["SLEEVE PLUG"], "Sleeve Plug");
    (["SLEEVE"], "Sleeve");
    (["HEAD REPAIR"], "Torch Head Repair Part");
    (["ARC CONTROL"], "Arc Control Box");
    (["REAR AXLE"], "Rear Axle");
    (["REAR CASE"], "Rear Case");
    (["REAR"], "Rear Part");
    (["BASE PLATE"], "Base Plate");
    (["FLUX CORE SEFC"], "Flux Core Seam Track Liner");
    (["FLUX HOPPER"], "Submerged Arc Flux Hopper");
    (["CLEAR PLASTIC"], "Clear Plastic Cover");
    (["WASTE BAG"], "Waste Bags");
    (["ACETYLENE TUBE"], "Acetylene Tube");
    (["OXYGEN TUBE"], "Oxygen Tube");
    (["ACETYLENE HOSE"], "Acetylene Hose");
    (* PSF = Binzel-style torch parts *)
    (["PSF 250"; "PSF 305"; "PSF 410"; "PSF 510"], "PSF MIG Torch Part");
    (["PSF"], "PSF MIG Torch Part");
    (* Victor cutting/heating tips (numeric prefixes) *)
    (["MFTN HEATING"; "MFTA HEATING"], "Victor Heating Tip");
    (["HDN CUT"], "Victor Heavy Duty Cutting Tip");
    (["GPP GUTTING"; "GPN CUTTING"], "Victor Cutting Tip");
    (["GTB GOUGING"], "Victor Gouging Tip");
    (* Slice plasma consumables *)
    (["SLICE TRH"], "Slice Plasma Torch Head");
    (["SLICE"], "Slice Plasma Consumable");
    (* Robotic welding *)
    (["FOOT SENSOR"], "Foot Sensor");
    (["MOUNTING BRACKET"], "Mounting Bracket");
    (["PRESSURE BOGEY"], "Pressure Bogey Kit");
    (["CASTING SHEAVE"], "Sheave Assembly");
    (["RUBBER HOSE"], "Rubber Hose");
    (["WELDING CURRENT"], "Welding Current Terminal");
    (["CTO CTF"], "Cutting Torch Outfit");
    (["LEADS PACK"], "Torch Leads Package")
  ].

(** Matched only at the start of the description. *)
Definition _STARTSWITH_CATEGORIES : list (string * string) :=
  [
    ("HOSE ", "Hose");
    ("FITTING ", "Fitting");
    ("ELECTRODE ", "Electrode Part");
    ("TIP ", "Tip");
    ("WIRE ", "Wire Part");
    ("GUIDE ", "Guide");
    ("SHIELD ", "Shield");
    ("ADAPT ", "Adapter");
    ("SENSOR ", "Sensor");
    ("CLAMP ", "Clamp");
    ("PLUG ", "Plug");
    ("BRACKET ", "Bracket");
    ("BEARING ", "Bearing");
    ("BUSHING ", "Bushing");
    ("SEAL ", "Seal");
    ("GASKET ", "Gasket");
    ("CABLE ASSY", "Cable Assembly");
    ("CABLE ", "Cable");
    ("BOARD ", "Board");
    ("GEAR ", "Gear");
    ("BELT ", "Belt");
    ("SPINDLE ", "Spindle");
    ("CAPACITOR ", "Capacitor");
    ("CAP ", "Cap");
    ("RELAY ", "Relay");
    ("TRANSFORMER ", "Transformer");
    ("CONTACTOR ", "Contactor");
    ("RESISTOR ", "Resistor");
    ("FUSE ", "Fuse");
    ("PUMP ", "Pump");
    ("WHEEL ", "Wheel");
    ("PIN ", "Pin");
    ("NIPPLE ", "Nipple");
    ("ADAPTOR ", "Adaptor");
    ("ADAPTER ", "Adapter");
    ("BOOT ", "Boot");
    ("END CAP", "End Cap");
    ("DECAL ", "Decal");
    ("STICKER ", "Label");
    ("TORCH ", "Torch Part");
    ("VALVE ", "Valve");
    ("BODY ", "Body Part");
    ("TUBE ", "Tube");
    ("HEAD ", "Head");
    ("SEAT ", "Seat");
    ("SPACER ", "Spacer");
    ("KIT ", "Kit");
    ("ASSY ", "Assembly");
    ("SCR ", "Screw/Fastener");
    ("SLEEVE ", "Sleeve");
    ("RUBBER ", "Rubber Part");
    ("WELDING ", "Welding Part");
    ("MOUNTING ", "Mounting Part");
    ("FOOT ", "Foot Part");
    ("PRESSURE ", "Pressure Part");
    ("CASTING ", "Casting");
    ("ROTOR ", "Rotor");
    ("FERRULE ", "Ferrule");
    ("CONE ", "Cone");
    ("RACK ", "Rack/Rail");
    ("STRIP ", "Strip Cutter");
    ("ROLLER ", "Roller");
    ("MESH ", "Mesh Screen");
    ("CENTRALIZER", "Centralizer");
    ("LEADS ", "Leads Package");
    ("SLICE ", "Slice Plasma Part")
  ].

(** ** Matchers *)

(** [sorted(PRODUCT_LINES.keys(), key=len, reverse=True)] *)
Definition codes_longest_first : list string :=
  sorted (fun y x => Nat.ltb (String.length x) (String.length y))
         (keys PRODUCT_LINES).

(** The loop test shared by [_match_product_line] and the short-code guard. *)
Definition code_matches (desc_upper code : string) : bool :=
  startswith desc_upper (code ++ " ") || String.eqb desc_upper code.

Definition _match_product_line (desc : string) : option (string * string) :=
  let desc_upper := strip (upper desc) in
  match find (code_matches desc_upper) codes_longest_first with
  | Some code => dict_get code PRODUCT_LINES
  | None => None
  end.

(** The first element of [xs] on which [f] gives a result. *)
Fixpoint first_some {A B : Type} (f : A -> option B) (xs : list A) : option B :=
  match xs with
  | [] => None
  | x :: rest => match f x with Some b => Some b | None => first_some f rest end
  end.

Definition is_some {A : Type} (o : option A) : bool :=
  match o with Some _ => true | None => false end.

(** [a or b] on optional results *)
Definition or_else {A : Type} (a b : option A) : option A :=
  match a with Some _ => a | None => b end.

Definition _extract_diameter (desc : string) : option string :=
  let d := upper desc in
  (* 3-digit decimal followed by X: the first one the table knows *)
  or_else
    (first_some (fun m => dict_get (group m 1) DIAMETER_MAP)
                (finditer_with false "(\d{3})\s*X" d))
  (* Fraction diameter followed by X *)
  (or_else
    (first_some (fun '(code, readable) =>
                   if is_some (search (replace_char " " "\s+" code ++ "\s*X") d)
                   then Some readable else None)
                FRACTION_DIAMETERS)
  (* Fraction diameter without X *)
  (or_else
    (first_some (fun '(code, readable) =>
                   if is_some (search ("\b" ++ replace_char " " "\s+" code
                                        ++ "\b") d)
                   then Some readable else None)
                FRACTION_DIAMETERS)
  (* Metric *)
    (first_some (fun '(code, readable) =>
                   if contains (replace_char " " "" d)
                               (replace_char " " "\s*" code)
                   then Some readable else None)
                METRIC_DIAMETERS))).

Definition _extract_package (desc : string) : option string :=
  let d := upper desc in
  let xpart := or_else (search "\d{3}X(.+)" d) (search "\d+\s+\d+X(.+)" d) in
  match xpart with
  | Some xm =>
      let suffix := group xm 1 in
      first_some (fun '(pattern, formatter) =>
                    option_map formatter (search pattern suffix))
                 PACKAGE_PATTERNS
  | None => None
  end.

Definition _categorize_hardgood (desc : string) : option string :=
  let d := upper desc in
  or_else
    (first_some (fun '(keywords, category) =>
                   if existsb (fun kw => contains d kw) keywords
                   then Some category else None)
                HARDGOODS_CATEGORIES)
    (first_some (fun '(prefix, category) =>
                   if startswith d prefix then Some category else None)
                _STARTSWITH_CATEGORIES).

(** [s.find(c)] for a one-character [c]; [None] is -1. *)
Fixpoint find_char (c : ascii) (s : string) : option nat :=
  match s with
  | EmptyString => None
  | String a s' =>
      if Ascii.eqb a c then Some O else option_map S (find_char c s')
  end.

(** [[x] if x else []] for an optional string: [None] and the empty string
    are false. *)
Definition if_nonempty (o : option string) : list string :=
  match o with
  | Some s => if String.eqb s "" then [] else [s]
  | None => []
  end.

Definition decode_description (desc : string) : string :=
  let desc := strip desc in
  if String.eqb desc "" then ""
  else
    match _match_product_line desc with
    | Some (full_name, prod_type) =>
        let desc_upper := upper desc in
        (* Guard: short product codes can false-match hardgoods parts *)
        let matched_code := find (code_matches desc_upper) codes_longest_first in
        let guard :=
          match matched_code with
          | Some code =>
              if negb (String.eqb code "") && Nat.leb (String.length code) 3
              then
                let remainder := strip (drop (String.length code) desc_upper) in
                let has_size_pattern :=
                  is_some (search "\d{3}\s*X|\d+\s+\d+\s*X" remainder) in
                if negb has_size_pattern
                then match _categorize_hardgood desc with
                     | Some hardgood =>
                         if String.eqb hardgood "" then None
                         else Some (hardgood ++ " | " ++ desc)
                     | None => None
                     end
                else None
              else None
          | None => None
          end in
        match guard with
        | Some early => early
        | None =>
            (* 36-inch cut lengths are TIG rods *)
            let prod_type :=
              if contains desc_upper "X36"
                 && negb (contains (upper prod_type) "TIG")
              then
                let alloy_info :=
                  match find_char "(" prod_type with
                  | Some paren => " " ++ drop paren prod_type
                  | None => ""
                  end in
                "TIG Rod" ++ alloy_info
              else prod_type in
            let parts :=
              ([full_name; prod_type]
               ++ if_nonempty (_extract_diameter desc)
               ++ if_nonempty (_extract_package desc))%list in
            join " | " parts
        end
    | None =>
        (* Try hardgoods *)
        match if_nonempty (_categorize_hardgood desc) with
        | category :: _ => category ++ " | " ++ desc
        | [] =>
        (* Items starting with a 3-digit diameter code *)
        let m := match_ "^(\d{3})\s+(.+)" (upper desc) in
        match m, option_map (fun m => dict_get (group m 1) DIAMETER_MAP) m with
        | Some m, Some (Some diam) =>
            let remainder := strip (group m 2) in
            let pkg := _extract_package desc in
            join " | " (["Hardfacing/Specialty Wire"; diam]
                        ++ if_nonempty pkg ++ [remainder])%list
        | _, _ =>
        (* Items starting with a fraction *)
        let m := match_ "^(\d+\s+\d+)\s+X\s+(.+)" (upper desc) in
        match m, option_map (fun m => dict_get (group m 1) FRACTION_DIAMETERS) m
        with
        | Some m, Some (Some diam) =>
            let remainder := strip (group m 2) in
            let prod_type :=
              if existsb (fun kw => contains remainder kw)
                         ["BARE"; "BOROD"; "ATB"; "CTS"; "BTS"]
              then "Bare Rod / Brazing Alloy"
              else if contains remainder "HORSESHOE" then "Horseshoe Bare Rod"
              else "Rod / Filler" in
            prod_type ++ " | " ++ diam ++ " | " ++ remainder
        | _, _ =>
        (* Gas apparatus parts with a numeric prefix *)
        let d_upper := upper desc in
        if is_some (match_ "^\d+\s+(DEG|DEGREE)\s+(HEAD|BODY)" d_upper)
        then "Victor/Gas Apparatus | Torch Head | " ++ desc
        else if is_some (match_ "^\d+\s+(AMP|AMPS)\s+" d_upper)
        then "Plasma Consumable | " ++ desc
        else if is_some (match_ "^\d+\s+(B\s+\d+\s+ELBOW|ELBOW)" d_upper)
        then "Victor/Gas Apparatus | Elbow | " ++ desc
        else if is_some (match_ "^\d+\s+(MFTN|MFTA|MFT)\s+HEATING" d_upper)
        then "Victor Heating Tip | " ++ desc
        else if is_some (match_ "^\d+\s+(HDN|HDA)\s+CUT" d_upper)
        then "Victor Cutting Tip | " ++ desc
        else if is_some (match_ "^\d+\s+(GPP|GPN|GTB|GTS)\s+" d_upper)
        then "Victor Gas Tip | " ++ desc
        else if is_some (match_ "^\d+\s+(LDS|LEADS)\s+" d_upper)
        then "Torch Leads Package | " ++ desc
        else if is_some (match_ "^\d+\s+M\s+\d+" d_upper)
                || is_some (match_ "^\d+\s+4M\s+" d_upper)
        then "MIG Gun | " ++ desc
        (* No match: the description as it is *)
        else desc
        end end end
    end.

(** ** Web enrichment cache *)

(** [get_enriched_description(part_number, raw_description, cache)]: the
    web cache first, then the pattern decoder, then the raw description.
    [cache] is [None] or a dict; an empty dict is false. *)
Definition get_enriched_description (part_number raw_description : string)
           (cache : option (dict string)) : string :=
  let pn := strip part_number in
  let hit :=
    match cache with
    | Some ((_ :: _) as c) => dict_get pn c
    | _ => None
    end in
  match hit with
  | Some cached => cached
  | None =>
      let decoded := decode_description raw_description in
      if negb (String.eqb decoded raw_description) then decoded
      else raw_description
  end.

End Enrichment.

(* ===================================================================== *)
(** * pricing.py *)
(* ===================================================================== *)

Module Pricing.
Import PyStr PyList PyNum.

Open Scope Q_scope.

(** [round(x)] to the nearest integer, halves to the even side. *)
Definition round_half_even (x : Q) : Z :=
  let f := Qfloor x in
  match Qcompare (x - inject_Z f) (1 # 2) with
  | Lt => f
  | Gt => (f + 1)%Z
  | Eq => if Z.even f then f else (f + 1)%Z
  end.

(** [round(x, 4)] *)
Definition round4 (x : Q) : Q := inject_Z (round_half_even (x * 10000)) / 10000.

Record PriceEntry : Type := mkPriceEntry {
  price       : Q;
  source      : string;   (* "Master List", "Master Tier", "End User",
                             "Location Special" *)
  surcharges  : Q;
  total       : Q;
  context     : string;
  source_file : string
}.

(** The dataclass constructor; [__post_init__] sets [total]. *)
Definition PriceEntry_new (price : Q) (source : string) (surcharges : Q)
           (context source_file : string) : PriceEntry :=
  mkPriceEntry price source surcharges (round4 (price + surcharges))
               context source_file.

Record ProductPricing : Type := mkProductPricing {
  part_number : string;
  description : string;
  uom         : string;
  package_qty : option Q;
  weight      : option Q;
  upc         : string;
  best_price  : option PriceEntry;
  all_prices  : list PriceEntry
}.

(** A row of a master frame.  A numeric cell that is NaN or absent is
    [None]. *)
Record MasterRow : Type := mkMasterRow {
  m_part_number : string;
  m_description : string;
  m_uom         : string;
  m_package_qty : option Q;
  m_weight      : option Q;
  m_upc         : string;
  m_list_price  : option Q;
  m_tier_price  : option Q;
  m_source_file : string
}.

(** A row of an end-user or location frame; the loader fills absent
    surcharges with 0. *)
Record SpecialRow : Type := mkSpecialRow {
  s_part_number      : string;
  s_description      : string;
  s_uom              : string;
  s_price            : option Q;
  s_alloy_surcharge  : Q;
  s_tariff_surcharge : Q;
  s_customer_name    : string;
  s_end_user_name    : string;
  s_city             : string;
  s_state            : string;
  s_source_file      : string
}.

(** [PriceData]: per distributor key, the three row sets. *)
Record PriceData : Type := mkPriceData {
  master   : dict (list MasterRow);
  end_user : dict (list SpecialRow);
  location : dict (list SpecialRow)
}.

(** [d.get(key, pd.DataFrame())] *)
Definition frame_get {R : Type} (key : string) (d : dict (list R)) : list R :=
  match dict_get key d with Some df => df | None => [] end.

(** [pd.notna(p) and float(p) > 0] *)
Definition positive (p : option Q) : bool :=
  match p with Some v => Qltb 0 v | None => false end.

Definition price_value (p : option Q) : Q :=
  match p with Some v => v | None => 0 end.

(** A non-empty string that is not ["nan"]. *)
Definition present (s : string) : bool :=
  negb (String.eqb s "") && negb (String.eqb s "nan").

(** [if selected:] on an optional string *)
Definition selected (o : option string) : option string :=
  match o with
  | Some s => if String.eqb s "" then None else Some s
  | None => None
  end.

Definition append_price (result : ProductPricing) (e : PriceEntry)
  : ProductPricing :=
  mkProductPricing (part_number result) (description result) (uom result)
                   (package_qty result) (weight result) (upc result)
                   (best_price result) (all_prices result ++ [e]).

(** One turn of the master loop. *)
Definition master_step (result : ProductPricing) (row : MasterRow)
  : ProductPricing :=
  let result :=
    if String.eqb (description result) "" then
      mkProductPricing (part_number result) (m_description row) (m_uom row)
                       (m_package_qty row) (m_weight row) (m_upc row)
                       (best_price result) (all_prices result)
    else result in
  let result :=
    if positive (m_list_price row) then
      append_price result
        (PriceEntry_new (price_value (m_list_price row)) "Master List" 0 ""
                        (m_source_file row))
    else result in
  if positive (m_tier_price row) then
    append_price result
      (PriceEntry_new (price_value (m_tier_price row)) "Master Tier" 0 ""
                      (m_source_file row))
  else result.

(** The part shared by the two special loops, after the filter. *)
Definition special_append (src : string) (context : string)
           (result : ProductPricing) (row : SpecialRow) : ProductPricing :=
  let result :=
    if String.eqb (description result) "" then
      mkProductPricing (part_number result) (s_description row) (s_uom row)
                       (package_qty result) (weight result) (upc result)
                       (best_price result) (all_prices result)
    else result in
  if positive (s_price row) then
    let alloy := s_alloy_surcharge row in
    let tariff := s_tariff_surcharge row in
    append_price result
      (PriceEntry_new (price_value (s_price row)) src (alloy + tariff) context
                      (s_source_file row))
  else result.

(** One turn of the end-user loop. *)
Definition end_user_step (selected_end_user : option string)
           (result : ProductPricing) (row : SpecialRow) : ProductPricing :=
  let eu_name := strip (s_end_user_name row) in
  let cust_name := strip (s_customer_name row) in
  let context := if present eu_name then eu_name else cust_name in
  let skip :=
    match selected selected_end_user with
    | Some sel =>
        negb (String.eqb context sel) && negb (String.eqb eu_name sel)
        && negb (String.eqb cust_name sel)
    | None => false
    end in
  if skip then result else special_append "End User" context result row.

(** One turn of the location loop. *)
Definition location_step (selected_location : option string)
           (result : ProductPricing) (row : SpecialRow) : ProductPricing :=
  let cust := strip (s_customer_name row) in
  let city := strip (s_city row) in
  let state := strip (s_state row) in
  let loc_parts :=
    List.app
      (if present cust then [cust] else [])
      (if present city && present state then [city ++ ", " ++ state]
       else if present city then [city] else []) in
  let context := join " -- " loc_parts in
  let skip :=
    match selected selected_location with
    | Some sel => negb (String.eqb context sel)
    | None => false
    end in
  if skip then result else special_append "Location Special" context result row.

(** [precedence.get(source, 99)] *)
Definition precedence : dict nat :=
  [ ("Location Special", 1%nat); ("End User", 2%nat); ("Master Tier", 3%nat);
    ("Master List", 4%nat) ].

Definition rank (p : PriceEntry) : nat :=
  match dict_get (source p) precedence with Some r => r | None => 99%nat end.

(** The sort key [(rank, total)] and the order of tuples. *)
Definition key_lt (a b : PriceEntry) : bool :=
  Nat.ltb (rank a) (rank b)
  || (Nat.eqb (rank a) (rank b) && Qltb (total a) (total b)).

(** [result.all_prices] sorted in place and [result.best_price] assigned. *)
Definition set_prices (result : ProductPricing) (best : option PriceEntry)
           (prices : list PriceEntry) : ProductPricing :=
  mkProductPricing (part_number result) (description result) (uom result)
                   (package_qty result) (weight result) (upc result)
                   best prices.

Definition get_pricing (part_number distributor_key : string)
           (price_data : PriceData)
           (selected_end_user selected_location : option string)
  : ProductPricing :=
  let result := mkProductPricing part_number "" "" None None "" None [] in
  let pn := strip part_number in
  (* 1. Master prices (a loop over an empty frame does nothing, which is
     all the [.empty] tests guard) *)
  let master_df := frame_get distributor_key (master price_data) in
  let result :=
    fold_left master_step
      (filter (fun row => String.eqb (m_part_number row) pn) master_df) result in
  (* 2. End-user prices *)
  let eu_df := frame_get distributor_key (end_user price_data) in
  let result :=
    fold_left (end_user_step selected_end_user)
      (filter (fun row => String.eqb (s_part_number row) pn) eu_df) result in
  (* 3. Location-specific prices *)
  let loc_df := frame_get distributor_key (location price_data) in
  let result :=
    fold_left (location_step selected_location)
      (filter (fun row => String.eqb (s_part_number row) pn) loc_df) result in
  (* Best price: highest precedence *)
  match all_prices result with
  | [] => result
  | _ :: _ =>
      let prices := sorted key_lt (all_prices result) in
      set_prices result (hd_error prices) prices
  end.

(** ** Variants *)

(** One entry of the list [find_variants] returns. *)
Record Variant : Type := mkVariant {
  v_part_number : string;
  v_description : string;
  v_uom         : string;
  v_package_qty : option Q;
  v_price       : option Q
}.

(** The display price of a sibling: tier over list, [None] without a
    positive one. *)
Definition variant_price (row : MasterRow) : option Q :=
  if positive (m_tier_price row) then m_tier_price row
  else if positive (m_list_price row) then m_list_price row
  else None.

Definition find_variants (part_number description distributor_key : string)
           (price_data : PriceData) : list Variant :=
  let master_df := frame_get distributor_key (master price_data) in
  match master_df with
  | [] => []
  | _ :: _ =>
      let pn := strip part_number in
      let prefix := take (Nat.min 6 (String.length pn)) pn in
      (* Also match by description identity (first 4 tokens) *)
      let desc_upper := upper description in
      let desc_tokens := split desc_upper in
      let identity :=
        if Nat.leb 4 (List.length desc_tokens)
        then join " " (firstn 4 desc_tokens) else desc_upper in
      let candidates :=
        filter (fun row =>
                  startswith (m_part_number row) prefix
                  || contains (upper (m_description row)) identity)
               master_df in
      let candidates :=
        filter (fun row => negb (String.eqb (m_part_number row) pn))
               candidates in
      map (fun row =>
             mkVariant (m_part_number row) (m_description row) (m_uom row)
                       (m_package_qty row) (variant_price row))
          (firstn 15 candidates)
  end.

End Pricing.

(* ===================================================================== *)
(** * loader.py: classification, column mapping and the names [PriceData] offers *)
(* ===================================================================== *)

Module Loader.
Import PyStr PyList Pricing.

(** [sorted(names)] for a set of strings: each name once, in ascending
    order. *)
Definition sorted_set (names : list string) : list string :=
  sorted String.ltb (nodup string_dec names).

(** [PriceData.distributor_keys] *)
Definition distributor_keys (data : PriceData) : list string :=
  sorted_set (keys (master data) ++ keys (end_user data)
              ++ keys (location data))%list.

(** [v for v in vals if v and v != "nan"] over a stripped column *)
Definition column_names (col : SpecialRow -> string) (df : list SpecialRow)
  : list string :=
  filter (fun v => negb (String.eqb v "") && negb (String.eqb v "nan"))
         (map (fun row => strip (col row)) df).

(** [PriceData.get_end_user_names(distributor_key)] *)
Definition get_end_user_names (data : PriceData) (distributor_key : string)
  : list string :=
  let eu_df := frame_get distributor_key (end_user data) in
  match eu_df with
  | [] => []
  | _ :: _ =>
      sorted_set (column_names s_end_user_name eu_df
                  ++ column_names s_customer_name eu_df)%list
  end.

(** The label of one location row, as the loop of [get_location_names]
    composes it. *)
Definition location_label (row : SpecialRow) : string :=
  let cust := strip (s_customer_name row) in
  let city := strip (s_city row) in
  let state := strip (s_state row) in
  let parts :=
    List.app
      (if negb (String.eqb cust "") && negb (String.eqb cust "nan")
       then [cust] else [])
      (if negb (String.eqb city "") && negb (String.eqb city "nan")
          && negb (String.eqb state "") && negb (String.eqb state "nan")
       then [city ++ ", " ++ state]
       else if negb (String.eqb city "") && negb (String.eqb city "nan")
       then [city] else []) in
  join " -- " parts.

(** [PriceData.get_location_names(distributor_key)] *)
Definition get_location_names (data : PriceData) (distributor_key : string)
  : list string :=
  let loc_df := frame_get distributor_key (location data) in
  match loc_df with
  | [] => []
  | _ :: _ =>
      sorted_set
        (filter (fun label => negb (String.eqb label ""))
                (map location_label loc_df))
  end.

(** ** File classification *)

(** What the rules give for a lookup [d[key]]: the value, or [KeyError]. *)
Inductive lookup (A : Type) : Type :=
| Found (a : A)
| KeyError (key : string).
Arguments Found {A} a.
Arguments KeyError {A} key.

(** The rules as loaded from the configuration: a key may be missing. *)
Record DistributorCfg : Type := mkDistributorCfg {
  d_filename_keywords : option (list string);
  d_payer_ids         : option (list string)
}.

Record ListTypeCfg : Type := mkListTypeCfg {
  lt_filename_keywords : option (list string)
}.

Record Rules : Type := mkRules {
  r_distributors : option (dict DistributorCfg);
  r_list_types   : option (dict ListTypeCfg)
}.

(** [any(kw in lower for kw in keywords)] *)
Definition keyword_hit (lower_name : string) (keywords : list string) : bool :=
  existsb (fun kw => contains lower_name kw) keywords.

(** The loop of [_classify_distributor] over the items of
    [rules["distributors"]]. *)
Fixpoint distributor_loop (lower_name : string)
         (items : list (string * DistributorCfg)) : lookup (option string) :=
  match items with
  | [] => Found None
  | (dist_key, dist_cfg) :: rest =>
      match d_filename_keywords dist_cfg with
      | None => KeyError "filename_keywords"
      | Some keywords =>
          if keyword_hit lower_name keywords then Found (Some dist_key)
          else distributor_loop lower_name rest
      end
  end.

(** [_classify_distributor(filename, rules)] *)
Definition _classify_distributor (filename : string) (rules : Rules)
  : lookup (option string) :=
  let lower_name := lower filename in
  match r_distributors rules with
  | None => KeyError "distributors"
  | Some items => distributor_loop lower_name items
  end.

(** The loop of [_classify_list_type] over the list types in priority
    order. *)
Fixpoint list_type_loop (lower_name : string) (rules : Rules)
         (order : list string) : lookup (option string) :=
  match order with
  | [] => Found None
  | lt :: rest =>
      match r_list_types rules with
      | None => KeyError "list_types"
      | Some list_types =>
          match dict_get lt list_types with
          | None => KeyError lt
          | Some lt_cfg =>
              match lt_filename_keywords lt_cfg with
              | None => KeyError "filename_keywords"
              | Some keywords =>
                  if keyword_hit lower_name keywords then Found (Some lt)
                  else list_type_loop lower_name rules rest
              end
          end
      end
  end.

(** [_classify_list_type(filename, rules)] *)
Definition _classify_list_type (filename : string) (rules : Rules)
  : lookup (option string) :=
  let lower_name := lower filename in
  list_type_loop lower_name rules ["location"; "end_user"; "master"].

(** ** Column normalization *)

(** The candidates of one field: [candidates.get("exact", [])] and
    [candidates.get("contains", [])]. *)
Record Candidates : Type := mkCandidates {
  c_exact    : list string;
  c_contains : list string
}.

(** [d.values()] *)
Definition values {V : Type} (d : dict V) : list V := map snd d.

(** The first result a loop with [break] finds. *)
Fixpoint first_found {A B : Type} (f : A -> option B) (xs : list A)
  : option B :=
  match xs with
  | [] => None
  | x :: rest =>
      match f x with
      | Some b => Some b
      | None => first_found f rest
      end
  end.

(** [{c.strip().lower(): c for c in df.columns}] *)
Definition df_cols_lower (columns : list string) : dict string :=
  dict_of_items (map (fun c => (lower (strip c), c)) columns).

(** Pass 1: the column of the first exact candidate that names one. *)
Definition exact_pass (cols_lower : dict string) (exact_list : list string)
  : option string :=
  first_found (fun cand => dict_get (lower (strip cand)) cols_lower)
              exact_list.

(** Pass 2: for the first candidate that has one, the first column whose
    name contains it and that no field has yet. *)
Definition contains_pass (cols_lower : dict string) (result : dict string)
           (contains_list : list string) : option string :=
  first_found
    (fun cand =>
       let cand_lower := lower (strip cand) in
       option_map snd
         (find (fun item =>
                  contains (fst item) cand_lower
                  && negb (mem (snd item) (values result)))
               cols_lower))
    contains_list.

(** The body of the loop over [mapping.items()]. *)
Definition map_field (cols_lower : dict string) (result : dict string)
           (field : string * Candidates) : dict string :=
  match exact_pass cols_lower (c_exact (snd field)) with
  | Some col => dict_set (fst field) col result
  | None =>
      match contains_pass cols_lower result (c_contains (snd field)) with
      | Some col => dict_set (fst field) col result
      | None => result
      end
  end.

(** [_map_columns(df, mapping)], from the column names of the frame. *)
Definition _map_columns (columns : list string) (mapping : dict Candidates)
  : dict string :=
  fold_left (map_field (df_cols_lower columns)) mapping [].

End Loader.

(* ===================================================================== *)
(** * app.py: the quote basket *)
(* ===================================================================== *)

Module App.

(** One line of [st.session_state.basket]. *)
Record Item : Type := mkItem {
  part_number : string;
  description : string;
  uom         : string;
  qty         : Z;
  unit_price  : Q;
  source      : string;
  source_file : string
}.

Definition bump (item : Item) : Item :=
  mkItem (part_number item) (description item) (uom item) (qty item + 1)%Z
         (unit_price item) (source item) (source_file item).

(** The loop of [_add_to_basket]: the first line with this part number gets
    one more; [None] when the loop ends without finding one. *)
Fixpoint bump_first (pn : string) (basket : list Item) : option (list Item) :=
  match basket with
  | [] => None
  | item :: rest =>
      if String.eqb (part_number item) pn then Some (bump item :: rest)
      else option_map (cons item) (bump_first pn rest)
  end.

(** [_add_to_basket(...)], from the basket before to the basket after. *)
Definition _add_to_basket (basket : list Item)
           (pn desc um : string) (price : Q) (src src_file : string)
  : list Item :=
  match bump_first pn basket with
  | Some basket' => basket'
  | None => (basket ++ [mkItem pn desc um 1 price src src_file])%list
  end.

(** [_remove_from_basket(part_number)] *)
Definition _remove_from_basket (basket : list Item) (pn : string)
  : list Item :=
  filter (fun i => negb (String.eqb (part_number i) pn)) basket.

End App.

(* ===================================================================== *)
(** * Facts about the stable sort *)
(* ===================================================================== *)

Module SortFacts.
Import PyList.

Section StableSortFacts.
Context {A : Type}.
Variable before : A -> A -> bool.

Lemma insert_perm (x : A) (l : list A) :
  Permutation (x :: l) (insert before x l).
Proof.
  induction l as [|y l IH]; simpl.
  - apply Permutation_refl.
  - destruct (before y x).
    + eapply perm_trans; [apply perm_swap|].
      apply perm_skip, IH.
    + apply Permutation_refl.
Qed.

Lemma sorted_perm (l : list A) : Permutation l (sorted before l).
Proof.
  induction l as [|x l IH]; simpl.
  - apply perm_nil.
  - eapply perm_trans; [apply perm_skip, IH|apply insert_perm].
Qed.

(** [ordered a b]: [b] is not strictly before [a], so [a] may come first. *)
Definition ordered (a b : A) : Prop := before b a = false.

Hypothesis before_asym : forall a b, before a b = true -> before b a = false.

Lemma insert_HdRel (a x : A) (l : list A) :
  ordered a x -> HdRel ordered a l -> HdRel ordered a (insert before x l).
Proof.
  intros Hax Hl. destruct l as [|y l]; simpl.
  - constructor. exact Hax.
  - destruct (before y x); constructor.
    + inversion Hl; assumption.
    + exact Hax.
Qed.

Lemma insert_Sorted (x : A) (l : list A) :
  Sorted ordered l -> Sorted ordered (insert before x l).
Proof.
  induction l as [|y l IH]; intros Hs; simpl.
  - repeat constructor.
  - inversion Hs as [|? ? Hs' Hhd]; subst.
    destruct (before y x) eqn:Hyx.
    + constructor.
      * apply IH, Hs'.
      * apply insert_HdRel; [|exact Hhd].
        unfold ordered. apply before_asym, Hyx.
    + constructor; [exact Hs|]. constructor. exact Hyx.
Qed.

Lemma sorted_Sorted (l : list A) : Sorted ordered (sorted before l).
Proof.
  induction l as [|x l IH]; simpl.
  - constructor.
  - apply insert_Sorted, IH.
Qed.

End StableSortFacts.

Lemma In_firstn {A : Type} (n : nat) (l : list A) (x : A) :
  In x (firstn n l) -> In x l.
Proof.
  intros H. rewrite <- (firstn_skipn n l). apply in_or_app. left. exact H.
Qed.

End SortFacts.

(* ===================================================================== *)
(** * The matcher on patterns of the program *)
(* ===================================================================== *)

Module ReFacts.
Import PyStr Re.

Example compile_decimal_diameter :
  compile "\b0?\.(\d{3})\b"
  = Seq WordB
      (Seq (Alt (Ch (CLit "0")) Eps)
         (Seq (Ch (CLit "."))
            (Seq (Grp 1 (Seq (Ch CDigit) (Seq (Ch CDigit)
                                            (Seq (Ch CDigit) Eps))))
               WordB))).
Proof. reflexivity. Qed.

Example compile_size_pattern :
  compile "\d{3}\s*X|\d+\s+\d+\s*X"
  = Alt (Seq (Seq (Ch CDigit) (Seq (Ch CDigit) (Seq (Ch CDigit) Eps)))
             (Seq (Star (Ch CSpace)) (Ch (CLit "X"))))
        (Seq (Seq (Ch CDigit) (Star (Ch CDigit)))
             (Seq (Seq (Ch CSpace) (Star (Ch CSpace)))
                  (Seq (Seq (Ch CDigit) (Star (Ch CDigit)))
                       (Seq (Star (Ch CSpace)) (Ch (CLit "X")))))).
Proof. reflexivity. Qed.

Example finditer_decimal_diameter :
  map (fun m => (m_start m, m_end m, group m 1))
      (finditer_with false "\b0?\.(\d{3})\b" "s6 wire 0.045")
  = [(8%nat, 13%nat, "045")].
Proof. reflexivity. Qed.

Example sub_ignores_case :
  psub (Pattern "\bs6\b" IGNORECASE) "70S 6" "S6 WIRE 0.045"
  = "70S 6 WIRE 0.045".
Proof. reflexivity. Qed.

Example word_boundary_inside_word :
  finditer_with true "\bs6\b" "XS6 S60" = [].
Proof. reflexivity. Qed.

Example search_backtracks :
  option_map (fun m => (m_start m, group m 1))
             (search "\d+\s+\d+X(.+)" "AA 7018 1 8X14X50FHS")
  = Some (8%nat, "14X50FHS").
Proof. reflexivity. Qed.

Example end_anchor_or_space :
  option_map (fun m => (group m 1, group m 2))
             (search "(\d+)X(\d+)F\s*HS(?:\s|$)" "14X50FHS")
  = Some ("14", "50").
Proof. reflexivity. Qed.

End ReFacts.

(* ===================================================================== *)
(** * Facts about comparisons of rationals *)
(* ===================================================================== *)

Module NumFacts.
Import PyNum.

Open Scope Q_scope.

Lemma Qle_bool_false (a b : Q) : Qle_bool a b = false -> b < a.
Proof.
  intros H. apply Qnot_le_lt. intros Hle.
  apply Qle_bool_iff in Hle. congruence.
Qed.

Lemma Qltb_true (a b : Q) : Qltb a b = true -> a < b.
Proof.
  unfold Qltb. intros H. apply Qle_bool_false.
  destruct (Qle_bool b a); simpl in H; congruence.
Qed.

Lemma Qltb_false (a b : Q) : Qltb a b = false -> b <= a.
Proof.
  unfold Qltb. intros H. apply Qle_bool_iff.
  destruct (Qle_bool b a); simpl in H; congruence.
Qed.

End NumFacts.

(* ===================================================================== *)
(** * Properties of the search *)
(* ===================================================================== *)

Module SearchFacts.
Import PyStr PyList PyNum Re Search SortFacts NumFacts.

Open Scope Q_scope.

(** ** Arithmetic of scores *)

(** The last line of [_score_item]. *)
Definition clamp (x : Q) : Q := py_max (py_min x 100) 0.

Lemma clamp_cases (x : Q) :
  (x < 0 /\ clamp x = 0) \/
  (0 <= x /\ x <= 100 /\ clamp x = x) \/
  (100 < x /\ clamp x = 100).
Proof.
  unfold clamp, py_max, py_min.
  destruct (Qltb 100 x) eqn:H1.
  - right; right. apply Qltb_true in H1. split; [exact H1|reflexivity].
  - apply Qltb_false in H1.
    destruct (Qltb x 0) eqn:H2.
    + left. apply Qltb_true in H2. split; [exact H2|reflexivity].
    + right; left. apply Qltb_false in H2. repeat split; assumption.
Qed.

Lemma ratio_zero (h n : nat) :
  (1 <= n)%nat -> Qnat h / Qnat n == 0 -> h = 0%nat.
Proof.
  intros Hn H.
  assert (Hpos : 0 < Qnat n).
  { unfold Qnat, Qlt. simpl. lia. }
  assert (Hh : Qnat h == 0).
  { rewrite <- (Qmult_div_r (Qnat h) (Qnat n)) by lra. rewrite H. ring. }
  unfold Qnat, Qeq in Hh. simpl in Hh. lia.
Qed.

(** ** The combined text of a row, as [_score_item] builds it *)

Definition combined_text (desc pn enriched : string) : string :=
  upper desc ++ " " ++ upper pn ++ " "
  ++ (if String.eqb enriched "" then "" else upper enriched).

(** The number of query tokens found in the combined text. *)
Definition token_hits (pq : ParsedQuery) (desc pn enriched : string) : nat :=
  List.length
    (filter (fun token => contains (combined_text desc pn enriched) token)
            (tokens pq)).

Lemma token_hits_positive (pq : ParsedQuery) (desc pn enriched t : string) :
  In t (tokens pq) ->
  contains (combined_text desc pn enriched) t = true ->
  (0 < token_hits pq desc pn enriched)%nat.
Proof.
  intros Hin Hc. unfold token_hits.
  assert (Hf : In t (filter (fun token =>
                 contains (combined_text desc pn enriched) token) (tokens pq))).
  { apply filter_In. split; assumption. }
  destruct (filter _ (tokens pq)); [destruct Hf|simpl; lia].
Qed.


(** ** Inhabitants of the library interfaces *)

Definition score_before (y x : Scored) : bool :=
  Qltb (match_score x) (match_score y).

Lemma score_before_asym (a b : Scored) :
  score_before a b = true -> score_before b a = false.
Proof.
  unfold score_before, Qltb. intros H.
  destruct (Qle_bool (match_score a) (match_score b)) eqn:E1; [discriminate|].
  apply Qle_bool_false in E1.
  destruct (Qle_bool (match_score b) (match_score a)) eqn:E2; [reflexivity|].
  apply Qle_bool_false in E2. lra.
Qed.

Lemma Sorted_weaken {A : Type} (R R' : A -> A -> Prop) (l : list A) :
  (forall a b, R a b -> R' a b) -> Sorted R l -> Sorted R' l.
Proof.
  intros HR Hs. induction Hs as [|a l Hs IH Hhd]; constructor.
  - exact IH.
  - destruct Hhd; constructor. apply HR. assumption.
Qed.

Lemma score_sorted_desc (l : list Scored) :
  Sorted (fun a b => match_score b <= match_score a) (sorted score_before l).
Proof.
  apply Sorted_weaken with (R := ordered score_before).
  - unfold ordered, score_before. intros a b H. apply Qltb_false, H.
  - apply sorted_Sorted, score_before_asym.
Qed.

(** A stable descending sort (pandas' [kind="stable"]). *)
Definition stable_sort_values : SortValues :=
  Build_SortValues (sorted score_before)
                   (sorted_perm score_before)
                   score_sorted_desc.

Definition equal_ratio (a b : string) : Q :=
  if String.eqb a b then 100 else 0.

Lemma equal_ratio_range (a b : string) :
  0 <= equal_ratio a b /\ equal_ratio a b <= 100.
Proof.
  unfold equal_ratio. destruct (String.eqb a b); lra.
Qed.

(** The crudest similarity with the documented range: 100 on equal strings
    and 0 otherwise. *)
Definition equality_fuzz : RapidFuzz :=
  Build_RapidFuzz equal_ratio equal_ratio equal_ratio_range equal_ratio_range.

(** ** The query parser on the specification's example *)

(** C9. [parse_query("s6 wire 0.045")] extracts the diameter ["045"]; its
    tokens carry the expansion ["70S"], ["6"] and not the stop word
    ["WIRE"]. *)
Theorem parse_query_s6_wire_045 :
  diameters (parse_query "s6 wire 0.045") = ["045"]
  /\ In "70S" (tokens (parse_query "s6 wire 0.045"))
  /\ In "6" (tokens (parse_query "s6 wire 0.045"))
  /\ ~ In "WIRE" (tokens (parse_query "s6 wire 0.045")).
Proof.
  assert (E : parse_query "s6 wire 0.045"
              = mkParsedQuery "s6 wire 0.045" ["045"] ["70S"; "045"] [] []
                              ["70S"; "6"; "045"] "70S 6 WIRE 045")
    by (vm_compute; reflexivity).
  rewrite E. simpl. repeat split; auto.
  intros [H|[H|[H|[]]]]; discriminate.
Qed.

(** ** [_score_item], step by step *)

Section ScoreSteps.
Context {fuzz : RapidFuzz}.

Definition token_ratio (pq : ParsedQuery) (desc pn enriched : string) : Q :=
  Qnat (token_hits pq desc pn enriched)
  / Qnat (Nat.max (List.length (tokens pq)) 1).

(** The weighted sum before any bonus. *)
Definition base_score (pq : ParsedQuery) (desc pn enriched : string) : Q :=
  let enriched_upper := if String.eqb enriched "" then "" else upper enriched in
  let fuzzy_best :=
    py_max (py_max (token_set_ratio (normalized pq) (upper desc))
                   (partial_ratio (normalized pq) (upper pn)))
           (if String.eqb enriched_upper "" then 0
            else token_set_ratio (normalized pq) enriched_upper) in
  let coverage :=
    py_min (Qnat (Nat.max (List.length (tokens pq)) 1)
            / Qnat (Nat.max (List.length (findall "[A-Z0-9]+" (upper desc))) 1))
           1 in
  token_ratio pq desc pn enriched * 45 + fuzzy_best / 100 * 30 + coverage * 15.

Definition diameter_step (ds : list string) (combined : string) (score : Q)
  : Q :=
  if truthy ds then
    if any (fun d => contains combined d) ds then score + 15 else score - 10
  else score.

(** The steps after the diameter step, from the alloy bonus to the bonus
    for hitting every token. *)
Definition later_steps (pq : ParsedQuery) (desc pn enriched : string)
           (score : Q) : Q :=
  let combined := combined_text desc pn enriched in
  let score :=
    if truthy (alloys pq) then
      if any (fun a => contains (replace_char "-" "" combined)
                                (replace_char "-" "" a)) (alloys pq)
      then score + 12 else score - 8
    else score in
  let score :=
    if truthy (pkg_weights pq) then
      if any (fun w => contains combined (w ++ "F")
                       || contains combined (w ++ "LB")
                       || contains combined (w ++ " LB"))
             (pkg_weights pq)
      then score + 8 else score
    else score in
  let score :=
    if truthy (pkg_types pq) then
      if any (fun t => contains combined t) (pkg_types pq)
      then score + 5 else score
    else score in
  if Qeq_bool (token_ratio pq desc pn enriched) 1 then score + 8 else score.

Definition exact_match (pq : ParsedQuery) (pn : string) : bool :=
  String.eqb (replace_char " " "" (normalized pq))
             (replace_char " " "" (upper pn)).

(** [_score_item] is these steps in sequence. *)
Lemma _score_item_steps (pq : ParsedQuery) (desc pn enriched : string) :
  _score_item pq desc pn enriched
  = if Qeq_bool (token_ratio pq desc pn enriched) 0 then 0
    else clamp (if exact_match pq pn then 100
                else later_steps pq desc pn enriched
                       (diameter_step (diameters pq)
                                      (combined_text desc pn enriched)
                                      (base_score pq desc pn enriched))).
Proof. reflexivity. Qed.

End ScoreSteps.

(** ** The exact part-number override *)

(** C1, as the code has it.  When the normalized query and the part number
    agree once spaces are removed and upper case is taken, and at least one
    query token occurs in the row's combined text, the score is exactly
    100. *)
Theorem exact_part_number_scores_100 {fuzz : RapidFuzz}
        (pq : ParsedQuery) (desc pn enriched : string) :
  replace_char " " "" (normalized pq) = replace_char " " "" (upper pn) ->
  (exists t, In t (tokens pq)
             /\ contains (combined_text desc pn enriched) t = true) ->
  _score_item pq desc pn enriched = 100.
Proof.
  intros Hflat [t [Hin Hc]].
  pose proof (token_hits_positive pq desc pn enriched t Hin Hc) as Hpos.
  rewrite _score_item_steps.
  destruct (Qeq_bool _ 0) eqn:Hz.
  - apply Qeq_bool_iff in Hz. apply ratio_zero in Hz; [lia|].
    apply Nat.le_max_r.
  - unfold exact_match. rewrite Hflat, String.eqb_refl. reflexivity.
Qed.

(** The override at work: the query ["ab 12"] against part number ["AB12"]. *)
Lemma exact_part_number_scores_100_witness :
  @_score_item equality_fuzz (parse_query "ab 12") "" "AB12" "" = 100.
Proof.
  apply (@exact_part_number_scores_100 equality_fuzz
           (parse_query "ab 12") "" "AB12" "").
  - vm_compute. reflexivity.
  - exists "AB". split; vm_compute; auto.
Defined.

(** C1 as stated fails: the query ["AB12"] equals the part number ["A B12"]
    once spaces are removed, but its only token is not a substring of the
    combined text, and the early return gives 0 whatever the similarity
    functions are. *)
Lemma exact_match_without_token_hit :
  replace_char " " "" (normalized (parse_query "AB12"))
  = replace_char " " "" (upper "A B12")
  /\ (forall fuzz : RapidFuzz,
        @_score_item fuzz (parse_query "AB12") "" "A B12" "" = 0)
  /\ ~ (0 == 100).
Proof.
  split; [vm_compute; reflexivity|]. split.
  - intros fuzz. vm_compute. reflexivity.
  - intros H. discriminate H.
Qed.

(** ** The search as a whole *)

Lemma head_length {A : Type} (n : Z) (l : list A) :
  (0 <= n)%Z -> (Z.of_nat (List.length (head n l)) <= n)%Z.
Proof.
  intros Hn. unfold head.
  destruct (Z.leb_spec 0 n) as [_|H]; [|lia].
  pose proof (firstn_le_length (Z.to_nat n) l) as Hl.
  rewrite length_firstn. lia.
Qed.

Lemma head_In {A : Type} (n : Z) (l : list A) (x : A) :
  In x (head n l) -> In x l.
Proof.
  unfold head. destruct (0 <=? n)%Z; apply In_firstn.
Qed.

Lemma search_products_shape {fuzz : RapidFuzz} {sorter : SortValues}
      (query : string) (master_df : DataFrame) (max_results : Z)
      (min_score : Q) (enriched_col : option string) :
  search_products query master_df max_results min_score enriched_col = []
  \/ exists scored : list Scored,
       search_products query master_df max_results min_score enriched_col
       = head max_results
              (sort_values_desc
                 (filter (fun x => Qle_bool min_score (match_score x)) scored)).
Proof.
  unfold search_products.
  destruct (negb (truthy (rows master_df)) || String.eqb (strip query) "");
    [left; reflexivity|].
  destruct (negb (truthy (tokens (parse_query query))));
    [left; reflexivity|].
  right. eexists. reflexivity.
Qed.

(** C5, as the code has it.  For a cap that is not negative the search
    returns at most [cap] rows, and every returned row scores at least the
    threshold (this part holds for every cap). *)
Theorem search_products_cap_and_threshold
        {fuzz : RapidFuzz} {sorter : SortValues}
        (query : string) (master_df : DataFrame) (max_results : Z)
        (min_score : Q) (enriched_col : option string) :
  Forall (fun x => min_score <= match_score x)
         (search_products query master_df max_results min_score enriched_col)
  /\ ((0 <= max_results)%Z ->
      (Z.of_nat (List.length (search_products query master_df max_results
                                              min_score enriched_col))
       <= max_results)%Z).
Proof.
  destruct (search_products_shape query master_df max_results min_score
                                  enriched_col) as [E|[scored E]];
    rewrite E.
  - split; [constructor|simpl; lia].
  - split.
    + apply Forall_forall. intros x Hx.
      apply head_In in Hx.
      apply (Permutation_in _ (Permutation_sym (sort_values_perm _))) in Hx.
      apply filter_In in Hx. destruct Hx as [_ Hx].
      apply Qle_bool_iff. exact Hx.
    + apply head_length.
Qed.

(** A partition of two rows that both match the query ["AB12"] exactly, the
    second through a part number written with a space. *)
Definition bracket_row : Row := mkRow (Some "AB12") (Some "BRACKET") [].
Definition spare_row : Row :=
  mkRow (Some "AB 12") (Some "BRACKET AB12 SPARE") [].
Definition two_brackets : DataFrame :=
  mkDataFrame [] [bracket_row; spare_row].

Lemma search_products_cap_and_threshold_witness :
  Forall (fun x => 30 <= match_score x)
         (@search_products equality_fuzz stable_sort_values
            "AB12" two_brackets 1 30 None)
  /\ (Z.of_nat (List.length (@search_products equality_fuzz stable_sort_values
                                "AB12" two_brackets 1 30 None)) <= 1)%Z.
Proof.
  destruct (@search_products_cap_and_threshold equality_fuzz stable_sort_values
              "AB12" two_brackets 1 30 None) as [Hthr Hcap].
  split; [exact Hthr|apply Hcap; lia].
Defined.

(** C5 as stated fails for a negative cap: [head(-1)] keeps all rows but the
    last, so with two matching rows the search returns one row, which is
    more than the cap of -1.  (Both rows score 100 by the exact-match
    override, whatever the similarity functions.) *)
Lemma search_products_negative_cap :
  List.length (@search_products equality_fuzz stable_sort_values
                 "AB12" two_brackets (-1) 30 None) = 1%nat
  /\ (-1 < Z.of_nat 1)%Z.
Proof.
  split; [vm_compute; reflexivity|lia].
Qed.

(** C10.  The search returns no row when the partition is empty, when the
    query is empty or blank, or when the parsed query has no token. *)
Theorem search_products_empty
        {fuzz : RapidFuzz} {sorter : SortValues}
        (query : string) (master_df : DataFrame) (max_results : Z)
        (min_score : Q) (enriched_col : option string) :
  rows master_df = [] \/ strip query = ""
  \/ tokens (parse_query query) = [] ->
  search_products query master_df max_results min_score enriched_col = [].
Proof.
  intros H. unfold search_products.
  destruct (rows master_df) as [|r rs] eqn:Hrows; [reflexivity|].
  cbn [truthy negb orb].
  destruct (String.eqb (strip query) "") eqn:Hq; [reflexivity|].
  destruct (tokens (parse_query query)) as [|t ts] eqn:Ht; [reflexivity|].
  exfalso. destruct H as [H|[H|H]].
  - discriminate H.
  - rewrite H in Hq. discriminate Hq.
  - discriminate H.
Qed.

(** A query of stop words only has no token, so it finds nothing, here in a
    partition whose row would score 100 for the query ["AB12"]. *)
Lemma search_products_empty_witness :
  tokens (parse_query "the wire rod") = []
  /\ @search_products equality_fuzz stable_sort_values
        "the wire rod" two_brackets 12 30 None = []
  /\ @search_products equality_fuzz stable_sort_values
        "   " two_brackets 12 30 None = []
  /\ @search_products equality_fuzz stable_sort_values
        "AB12" (mkDataFrame [] []) 12 30 None = [].
Proof.
  split; [vm_compute; reflexivity|].
  split; [|split];
    apply (@search_products_empty equality_fuzz stable_sort_values).
  - right; right. vm_compute. reflexivity.
  - right; left. vm_compute. reflexivity.
  - left. reflexivity.
Defined.

End SearchFacts.

(* ===================================================================== *)
(** * The diameter adjustment, in binary64 *)
(* ===================================================================== *)

Module DiameterFacts.
Import PrimFloat.
Import PyStr Re Search SearchFacts SearchFloat.

Local Open Scope float_scope.

(** Decimal literals stand for the nearest binary64 value, as in Python. *)
Local Set Warnings "-inexact-float".

(** ** [SearchFloat._score_item], step by step *)

Section FloatSteps.
Context {fuzz : RapidFuzz}.











End FloatSteps.





(** ** Where the claim as stated fails *)







End DiameterFacts.

(* ===================================================================== *)
(** * Properties of the decoder *)
(* ===================================================================== *)

Module EnrichmentFacts.
Import PyStr PyList Re Enrichment.

(** The last fallbacks of [decode_description], in the order tried. *)
Definition gas_apparatus_patterns : list string :=
  [ "^\d+\s+(DEG|DEGREE)\s+(HEAD|BODY)";
    "^\d+\s+(AMP|AMPS)\s+";
    "^\d+\s+(B\s+\d+\s+ELBOW|ELBOW)";
    "^\d+\s+(MFTN|MFTA|MFT)\s+HEATING";
    "^\d+\s+(HDN|HDA)\s+CUT";
    "^\d+\s+(GPP|GPN|GTB|GTS)\s+";
    "^\d+\s+(LDS|LEADS)\s+";
    "^\d+\s+M\s+\d+";
    "^\d+\s+4M\s+" ].

(** No regex fallback applies to [d]: a leading 3-digit code is not in the
    diameter table, a leading fraction before X is not in the fraction
    table, and no gas-apparatus pattern matches. *)
Definition no_regex_fallback (d : string) : Prop :=
  (forall m, match_ "^(\d{3})\s+(.+)" (upper d) = Some m ->
             dict_get (group m 1) DIAMETER_MAP = None)
  /\ (forall m, match_ "^(\d+\s+\d+)\s+X\s+(.+)" (upper d) = Some m ->
                dict_get (group m 1) FRACTION_DIAMETERS = None)
  /\ Forall (fun p => match_ p (upper d) = None) gas_apparatus_patterns.

(** C3, as the code has it.  A description that matches no product-line
    code, no hardgoods rule and no regex fallback is returned as it is but
    for the blanks around it, which [decode_description] strips first; and
    equal inputs give equal outputs. *)
Theorem decode_unmatched_is_stripped (x : string) :
  _match_product_line (strip x) = None ->
  _categorize_hardgood (strip x) = None ->
  no_regex_fallback (strip x) ->
  decode_description x = strip x
  /\ (forall y, x = y -> decode_description x = decode_description y).
Proof.
  intros Hline Hhard (H3 & Hfrac & Hgas).
  split; [|intros y ->; reflexivity].
  unfold decode_description. cbv zeta.
  destruct (String.eqb (strip x) "") eqn:He.
  { apply String.eqb_eq in He. symmetry. exact He. }
  rewrite Hline, Hhard. cbn [if_nonempty].
  assert (Hgas' : forall p, In p gas_apparatus_patterns ->
                            is_some (match_ p (upper (strip x))) = false).
  { intros p Hp. rewrite Forall_forall in Hgas. rewrite (Hgas p Hp).
    reflexivity. }
  assert (Hrest :
    (if is_some (match_ "^\d+\s+(DEG|DEGREE)\s+(HEAD|BODY)" (upper (strip x)))
     then "Victor/Gas Apparatus | Torch Head | " ++ strip x
     else if is_some (match_ "^\d+\s+(AMP|AMPS)\s+" (upper (strip x)))
     then "Plasma Consumable | " ++ strip x
     else if is_some (match_ "^\d+\s+(B\s+\d+\s+ELBOW|ELBOW)"
                             (upper (strip x)))
     then "Victor/Gas Apparatus | Elbow | " ++ strip x
     else if is_some (match_ "^\d+\s+(MFTN|MFTA|MFT)\s+HEATING"
                             (upper (strip x)))
     then "Victor Heating Tip | " ++ strip x
     else if is_some (match_ "^\d+\s+(HDN|HDA)\s+CUT" (upper (strip x)))
     then "Victor Cutting Tip | " ++ strip x
     else if is_some (match_ "^\d+\s+(GPP|GPN|GTB|GTS)\s+" (upper (strip x)))
     then "Victor Gas Tip | " ++ strip x
     else if is_some (match_ "^\d+\s+(LDS|LEADS)\s+" (upper (strip x)))
     then "Torch Leads Package | " ++ strip x
     else if is_some (match_ "^\d+\s+M\s+\d+" (upper (strip x)))
             || is_some (match_ "^\d+\s+4M\s+" (upper (strip x)))
     then "MIG Gun | " ++ strip x
     else strip x) = strip x).
  { rewrite !Hgas' by (unfold gas_apparatus_patterns; simpl; tauto).
    reflexivity. }
  destruct (match_ "^(\d{3})\s+(.+)" (upper (strip x))) as [m|] eqn:E3;
    cbn [option_map]; [rewrite (H3 m eq_refl)|];
    (destruct (match_ "^(\d+\s+\d+)\s+X\s+(.+)" (upper (strip x)))
       as [m'|] eqn:Ef;
     cbn [option_map]; [rewrite (Hfrac m' eq_refl)|]; exact Hrest).
Qed.

Ltac no_fallback :=
  split; [intros m H; vm_compute in H; discriminate H|];
  split; [intros m H; vm_compute in H; discriminate H|];
  repeat constructor; vm_compute; reflexivity.

(** An unmatched description comes back as it is. *)
Lemma decode_unmatched_is_stripped_witness :
  decode_description "ZQ BLUE 77" = "ZQ BLUE 77".
Proof.
  apply (decode_unmatched_is_stripped "ZQ BLUE 77").
  - vm_compute. reflexivity.
  - vm_compute. reflexivity.
  - no_fallback.
Defined.

(** C3 as stated fails on an input with blanks around it: [" ZQ BLUE 77 "]
    matches no product line, no hardgoods rule and no fallback, and the
    decoder returns it stripped, not unchanged. *)
Lemma decode_unmatched_loses_blanks :
  _match_product_line " ZQ BLUE 77 " = None
  /\ _categorize_hardgood " ZQ BLUE 77 " = None
  /\ no_regex_fallback " ZQ BLUE 77 "
  /\ decode_description " ZQ BLUE 77 " = "ZQ BLUE 77"
  /\ decode_description " ZQ BLUE 77 " <> " ZQ BLUE 77 ".
Proof.
  split; [vm_compute; reflexivity|].
  split; [vm_compute; reflexivity|].
  split; [no_fallback|].
  split; [vm_compute; reflexivity|].
  vm_compute. discriminate.
Qed.

(** The first example of the docstring, as the specification words it. *)
Example decode_weld_70s6 :
  decode_description "WELD 70S 6 045X44F"
  = "Spoolarc Weld 70S-6 | MIG Wire (ER70S-6) | 0.045" ++ dq ++ " | 44 lb".
Proof. vm_compute. reflexivity. Qed.

(** A short code gives way to a hardgoods name. *)
Example decode_short_code_guard :
  decode_description "DS NOZZLE 5" = "Nozzle | DS NOZZLE 5".
Proof. vm_compute. reflexivity. Qed.

(** ** The Atom Arc example *)

(** C4.  On ["AA 7018 1 8X14X50FHS"] the longest code that is a prefix is
    ["AA 7018 1"], not ["AA 7018"]: the decoder names the line
    Atom Arc 7018-1 and then reads the same ["1"] again as part of the
    diameter 1/8.  The docstring of [decode_description] gives
    Atom Arc 7018 for this input. *)
Theorem decode_atom_arc_7018 :
  _match_product_line "AA 7018 1 8X14X50FHS"
  = Some ("Atom Arc 7018-1", "Stick Electrode (E7018-1)")
  /\ decode_description "AA 7018 1 8X14X50FHS"
     = "Atom Arc 7018-1 | Stick Electrode (E7018-1) | 1/8" ++ dq
       ++ " | 14" ++ dq ++ " x 50 lb Hermetically Sealed"
  /\ decode_description "AA 7018 1 8X14X50FHS"
     <> "Atom Arc 7018 | Stick Electrode (E7018) | 1/8" ++ dq
        ++ " | 14" ++ dq ++ " x 50 lb Hermetically Sealed".
Proof.
  split; [vm_compute; reflexivity|].
  split; [vm_compute; reflexivity|].
  vm_compute. discriminate.
Qed.

End EnrichmentFacts.

(* ===================================================================== *)
(** * Properties of the price resolver *)
(* ===================================================================== *)

Module PricingFacts.
Import PyStr PyList PyNum Pricing SortFacts NumFacts.

Open Scope Q_scope.

(** ** The sort key *)

Lemma key_lt_asym (a b : PriceEntry) :
  key_lt a b = true -> key_lt b a = false.
Proof.
  unfold key_lt. intros H.
  apply orb_true_iff in H. apply orb_false_iff.
  destruct H as [H|H].
  - apply Nat.ltb_lt in H. split.
    + apply Nat.ltb_ge. lia.
    + apply andb_false_iff. left. apply Nat.eqb_neq. lia.
  - apply andb_true_iff in H. destruct H as [Hr Ht].
    apply Nat.eqb_eq in Hr. apply Qltb_true in Ht. split.
    + apply Nat.ltb_ge. lia.
    + apply andb_false_iff. right.
      destruct (Qltb (total b) (total a)) eqn:E; [|reflexivity].
      apply Qltb_true in E. lra.
Qed.

(** [b] may stand before [e]: its rank is no larger, and at equal rank its
    total is no larger. *)
Lemma key_ordered_iff (b e : PriceEntry) :
  ordered key_lt b e <->
  (rank b <= rank e)%nat /\ (rank e = rank b -> total b <= total e).
Proof.
  unfold ordered, key_lt. rewrite orb_false_iff, andb_false_iff.
  rewrite Nat.ltb_ge, Nat.eqb_neq. split.
  - intros [Hr [Hn|Ht]]; split; try assumption; intros He.
    + contradiction.
    + apply Qltb_false, Ht.
  - intros [Hr Ht]. split; [exact Hr|].
    destruct (Nat.eq_dec (rank e) (rank b)) as [He|Hn]; [right|left; exact Hn].
    specialize (Ht He).
    destruct (Qltb (total e) (total b)) eqn:E; [|reflexivity].
    apply Qltb_true in E. lra.
Qed.

Lemma key_ordered_trans (a b c : PriceEntry) :
  ordered key_lt a b -> ordered key_lt b c -> ordered key_lt a c.
Proof.
  rewrite !key_ordered_iff. intros [Hab Tab] [Hbc Tbc]. split; [lia|].
  intros Hca.
  assert (Hba : rank b = rank a) by lia.
  assert (Hcb : rank c = rank b) by lia.
  specialize (Tab Hba). specialize (Tbc Hcb). lra.
Qed.

Lemma sorted_prices_StronglySorted (l : list PriceEntry) :
  StronglySorted (ordered key_lt) (sorted key_lt l).
Proof.
  apply Sorted_StronglySorted.
  - intros a b c. apply key_ordered_trans.
  - apply sorted_Sorted, key_lt_asym.
Qed.

(** ** The entries collected by the three loops *)

(** [get_pricing] up to the sort. *)
Definition collect (part_number distributor_key : string)
           (price_data : PriceData)
           (selected_end_user selected_location : option string)
  : ProductPricing :=
  let pn := strip part_number in
  fold_left (location_step selected_location)
    (filter (fun row => String.eqb (s_part_number row) pn)
            (frame_get distributor_key (location price_data)))
    (fold_left (end_user_step selected_end_user)
       (filter (fun row => String.eqb (s_part_number row) pn)
               (frame_get distributor_key (end_user price_data)))
       (fold_left master_step
          (filter (fun row => String.eqb (m_part_number row) pn)
                  (frame_get distributor_key (master price_data)))
          (mkProductPricing part_number "" "" None None "" None []))).

Lemma get_pricing_collect (pn dk : string) (pd : PriceData)
      (eu loc : option string) :
  get_pricing pn dk pd eu loc
  = match all_prices (collect pn dk pd eu loc) with
    | [] => collect pn dk pd eu loc
    | _ :: _ =>
        let prices := sorted key_lt (all_prices (collect pn dk pd eu loc)) in
        set_prices (collect pn dk pd eu loc) (hd_error prices) prices
    end.
Proof. reflexivity. Qed.

Lemma fold_left_preserves {A B : Type} (P : A -> Prop) (f : A -> B -> A)
      (l : list B) (a : A) :
  (forall a x, In x l -> P a -> P (f a x)) -> P a -> P (fold_left f l a).
Proof.
  revert a. induction l as [|x l IH]; intros a Hstep Ha; simpl.
  - exact Ha.
  - apply IH.
    + intros a' y Hy. apply Hstep. right. exact Hy.
    + apply Hstep; [left; reflexivity|exact Ha].
Qed.

(** No best price chosen yet, and only positive prices collected. *)
Definition sound (result : ProductPricing) : Prop :=
  best_price result = None
  /\ Forall (fun e => 0 < price e) (all_prices result).

Lemma positive_price_value (p : option Q) :
  positive p = true -> 0 < price_value p.
Proof.
  destruct p as [v|]; simpl; [apply Qltb_true|discriminate].
Qed.

Lemma append_price_sound (result : ProductPricing) (e : PriceEntry) :
  sound result -> 0 < price e -> sound (append_price result e).
Proof.
  intros [Hb Hall] He. split; simpl; [exact Hb|].
  apply Forall_app. split; [exact Hall|]. constructor; [exact He|constructor].
Qed.

Lemma master_step_sound (result : ProductPricing) (row : MasterRow) :
  sound result -> sound (master_step result row).
Proof.
  intros Hs. unfold master_step.
  assert (H1 : sound (if String.eqb (description result) "" then
      mkProductPricing (part_number result) (m_description row) (m_uom row)
                       (m_package_qty row) (m_weight row) (m_upc row)
                       (best_price result) (all_prices result)
    else result)).
  { destruct (String.eqb (description result) ""); [exact Hs|exact Hs]. }
  cbv zeta.
  destruct (positive (m_list_price row)) eqn:El;
    destruct (positive (m_tier_price row)) eqn:Et;
    repeat (apply append_price_sound;
            [|simpl; apply positive_price_value; assumption]);
    exact H1.
Qed.

Lemma special_append_sound (src context : string) (result : ProductPricing)
      (row : SpecialRow) :
  sound result -> sound (special_append src context result row).
Proof.
  intros Hs. unfold special_append. cbv zeta.
  assert (H1 : sound (if String.eqb (description result) "" then
      mkProductPricing (part_number result) (s_description row) (s_uom row)
                       (package_qty result) (weight result) (upc result)
                       (best_price result) (all_prices result)
    else result)).
  { destruct (String.eqb (description result) ""); [exact Hs|exact Hs]. }
  destruct (positive (s_price row)) eqn:Ep; [|exact H1].
  apply append_price_sound; [exact H1|].
  simpl. apply positive_price_value, Ep.
Qed.

Lemma end_user_step_sound (sel : option string) (result : ProductPricing)
      (row : SpecialRow) :
  sound result -> sound (end_user_step sel result row).
Proof.
  intros Hs. unfold end_user_step. cbv zeta.
  match goal with |- sound (if ?c then _ else _) => destruct c end;
    [exact Hs|apply special_append_sound, Hs].
Qed.

Lemma location_step_sound (sel : option string) (result : ProductPricing)
      (row : SpecialRow) :
  sound result -> sound (location_step sel result row).
Proof.
  intros Hs. unfold location_step. cbv zeta.
  match goal with |- sound (if ?c then _ else _) => destruct c end;
    [exact Hs|apply special_append_sound, Hs].
Qed.

Lemma collect_sound (pn dk : string) (pd : PriceData) (eu loc : option string) :
  sound (collect pn dk pd eu loc).
Proof.
  unfold collect. cbv zeta.
  apply fold_left_preserves;
    [intros a x _; apply location_step_sound|].
  apply fold_left_preserves;
    [intros a x _; apply end_user_step_sound|].
  apply fold_left_preserves;
    [intros a x _; apply master_step_sound|].
  split; [reflexivity|constructor].
Qed.

Lemma get_pricing_prices (pn dk : string) (pd : PriceData)
      (eu loc : option string) :
  all_prices (get_pricing pn dk pd eu loc)
  = sorted key_lt (all_prices (collect pn dk pd eu loc))
  /\ best_price (get_pricing pn dk pd eu loc)
     = hd_error (sorted key_lt (all_prices (collect pn dk pd eu loc))).
Proof.
  rewrite get_pricing_collect.
  destruct (all_prices (collect pn dk pd eu loc)) as [|p l] eqn:E.
  - rewrite E. simpl. split; [reflexivity|].
    apply (proj1 (collect_sound pn dk pd eu loc)).
  - cbv zeta. split; reflexivity.
Qed.

(** ** Precedence of the best price *)

(** The specification's example: one master row with list price 10 and tier
    price 9, and an end-user row for Acme at 8.50. *)
Definition acme_prices : PriceData :=
  mkPriceData
    [("D1", [mkMasterRow "P1" "WELD 70S 6 045X44F" "LB" None None ""
                         (Some 10) (Some 9) "master.xlsx"])]
    [("D1", [mkSpecialRow "P1" "WELD 70S 6 045X44F" "LB" (Some (17 # 2)) 0 0
                          "" "Acme" "" "" "special.xlsx"])]
    [].

(** ** No positive price, no best price *)

(** No row of the part, in any of the distributor's three row sets, has a
    positive price. *)
Definition no_positive_row (part_number distributor_key : string)
           (price_data : PriceData) : Prop :=
  (forall row, In row (frame_get distributor_key (master price_data)) ->
               m_part_number row = strip part_number ->
               positive (m_list_price row) = false
               /\ positive (m_tier_price row) = false)
  /\ (forall row, In row (frame_get distributor_key (end_user price_data)) ->
                  s_part_number row = strip part_number ->
                  positive (s_price row) = false)
  /\ (forall row, In row (frame_get distributor_key (location price_data)) ->
                  s_part_number row = strip part_number ->
                  positive (s_price row) = false).

Lemma master_step_no_price (result : ProductPricing) (row : MasterRow) :
  positive (m_list_price row) = false ->
  positive (m_tier_price row) = false ->
  all_prices result = [] -> all_prices (master_step result row) = [].
Proof.
  intros Hl Ht He. unfold master_step. cbv zeta. rewrite Hl, Ht.
  destruct (String.eqb (description result) ""); exact He.
Qed.

Lemma special_append_no_price (src context : string)
      (result : ProductPricing) (row : SpecialRow) :
  positive (s_price row) = false ->
  all_prices result = [] ->
  all_prices (special_append src context result row) = [].
Proof.
  intros Hp He. unfold special_append. cbv zeta. rewrite Hp.
  destruct (String.eqb (description result) ""); exact He.
Qed.

Lemma collect_no_price (pn dk : string) (pd : PriceData)
      (eu loc : option string) :
  no_positive_row pn dk pd -> all_prices (collect pn dk pd eu loc) = [].
Proof.
  intros (Hm & He & Hl). unfold collect. cbv zeta.
  apply (fold_left_preserves (fun r => all_prices r = [])).
  { intros a row Hin Ha. apply filter_In in Hin. destruct Hin as [Hin Hpn].
    apply String.eqb_eq in Hpn. unfold location_step. cbv zeta.
    match goal with |- all_prices (if ?c then _ else _) = _ => destruct c end;
      [exact Ha|].
    apply special_append_no_price; [apply Hl; assumption|exact Ha]. }
  apply (fold_left_preserves (fun r => all_prices r = [])).
  { intros a row Hin Ha. apply filter_In in Hin. destruct Hin as [Hin Hpn].
    apply String.eqb_eq in Hpn. unfold end_user_step. cbv zeta.
    match goal with |- all_prices (if ?c then _ else _) = _ => destruct c end;
      [exact Ha|].
    apply special_append_no_price; [apply He; assumption|exact Ha]. }
  apply (fold_left_preserves (fun r => all_prices r = [])).
  { intros a row Hin Ha. apply filter_In in Hin. destruct Hin as [Hin Hpn].
    apply String.eqb_eq in Hpn.
    destruct (Hm row Hin Hpn) as [H1 H2].
    apply master_step_no_price; assumption. }
  reflexivity.
Qed.

(** C6.  When no row of the part has a strictly positive price,
    [get_pricing] returns no best entry and an empty list; and in every
    result, each entry has a price above 0. *)
Theorem no_positive_price_no_best (pn dk : string) (pd : PriceData)
        (eu loc : option string) :
  (no_positive_row pn dk pd ->
   best_price (get_pricing pn dk pd eu loc) = None
   /\ all_prices (get_pricing pn dk pd eu loc) = [])
  /\ Forall (fun e => 0 < price e) (all_prices (get_pricing pn dk pd eu loc)).
Proof.
  destruct (get_pricing_prices pn dk pd eu loc) as [Hall Hbest].
  rewrite Hall, Hbest. split.
  - intros Hno. rewrite (collect_no_price pn dk pd eu loc Hno).
    split; reflexivity.
  - apply Forall_forall. intros e He.
    apply (Permutation_in _ (Permutation_sym (sorted_perm key_lt _))) in He.
    pose proof (proj2 (collect_sound pn dk pd eu loc)) as Hs.
    rewrite Forall_forall in Hs. apply Hs, He.
Qed.

(** A part whose only rows carry a zero list price, an absent tier price and
    a negative special price. *)
Definition unpriced : PriceData :=
  mkPriceData
    [("D1", [mkMasterRow "P9" "CONTACT TIP HD 035" "EA" None None ""
                         (Some 0) None "master.xlsx"])]
    [("D1", [mkSpecialRow "P9" "CONTACT TIP HD 035" "EA" (Some (- (1))) 0 0
                          "" "Acme" "" "" "special.xlsx"])]
    [].

Lemma no_positive_price_no_best_witness :
  best_price (get_pricing "P9" "D1" unpriced None None) = None
  /\ all_prices (get_pricing "P9" "D1" unpriced None None) = [].
Proof.
  apply (proj1 (no_positive_price_no_best "P9" "D1" unpriced None None)).
  split; [|split]; intros row Hin Hpn; vm_compute in Hin.
  - destruct Hin as [<-|[]]. split; reflexivity.
  - destruct Hin as [<-|[]]. reflexivity.
  - destruct Hin.
Defined.

End PricingFacts.

(* ===================================================================== *)
(** * Matches of a run of one character class *)
(* ===================================================================== *)

Module ReRuns.
Import PyStr Re.

Open Scope nat_scope.

(** Every character of [s] satisfies [p]. *)
Fixpoint all_chars (p : ascii -> bool) (s : string) : bool :=
  match s with
  | EmptyString => true
  | String a s' => p a && all_chars p s'
  end.

Lemma drop_step (n : nat) (whole : string) (a : ascii) (s : string) :
  drop n whole = String a s -> drop (S n) whole = s.
Proof.
  revert whole. induction n as [|n IH]; intros whole H.
  - simpl in H. subst whole. reflexivity.
  - destruct whole as [|b whole]; [discriminate H|].
    simpl in H. apply IH in H. exact H.
Qed.

Lemma drop_append (n : nat) (whole w t : string) :
  drop n whole = w ++ t -> drop (n + String.length w) whole = t.
Proof.
  revert n. induction w as [|a w IH]; intros n H.
  - simpl. rewrite Nat.add_0_r. exact H.
  - simpl in H. apply drop_step in H.
    simpl. rewrite Nat.add_succ_r. apply (IH (S n)), H.
Qed.

Lemma substring_prefix (w t : string) :
  substring 0 (String.length w) (w ++ t) = w.
Proof.
  induction w as [|a w IH]; simpl.
  - destruct t; reflexivity.
  - rewrite IH. reflexivity.
Qed.

Lemma substring_drop (n m : nat) (whole : string) :
  substring n m whole = substring 0 m (drop n whole).
Proof.
  revert whole. induction n as [|n IH]; intros whole.
  - reflexivity.
  - destruct whole as [|a whole]; simpl.
    + destruct m; reflexivity.
    + apply IH.
Qed.

Lemma slice_of_drop (n : nat) (whole w t : string) :
  drop n whole = w ++ t -> slice n (n + String.length w) whole = w.
Proof.
  intros H. unfold slice.
  replace (n + String.length w - n) with (String.length w) by lia.
  rewrite substring_drop, H. apply substring_prefix.
Qed.

(** The loop that [exec] runs for [Star a]. *)
Definition star_loop (ic : bool) (a : regex) (k : cursor -> option cursor)
  : nat -> cursor -> option cursor :=
  fix loop (fuel : nat) (cu0 : cursor) {struct fuel} : option cursor :=
    match fuel with
    | O => k cu0
    | S f =>
        match exec ic a cu0
                (fun cu' => if Nat.eqb (c_pos cu') (c_pos cu0) then None
                            else loop f cu') with
        | Some x => Some x
        | None => k cu0
        end
    end.

Lemma exec_Star (ic : bool) (a : regex) (cu : cursor)
      (k : cursor -> option cursor) :
  exec ic (Star a) cu k = star_loop ic a k (S (String.length (c_rest cu))) cu.
Proof. reflexivity. Qed.

(** What a successful match of one character consumed. *)
Lemma exec_Ch_inv (ic : bool) (cs : cset) (cu : cursor)
      (k : cursor -> option cursor) (res : cursor) :
  exec ic (Ch cs) cu k = Some res ->
  exists a s',
    c_rest cu = String a s' /\ cset_match ic cs a = true
    /\ k (Cursor (Some a) s' (S (c_pos cu)) (c_caps cu)) = Some res.
Proof.
  simpl. destruct (c_rest cu) as [|a s']; [discriminate|].
  destruct (cset_match ic cs a) eqn:E; [|discriminate].
  intros H. exists a, s'. repeat split; assumption.
Qed.

(** What a successful greedy run of one class consumed. *)
Lemma star_loop_Ch_inv (ic : bool) (cs : cset) (k : cursor -> option cursor)
      (res : cursor) (fuel : nat) :
  forall cu,
    star_loop ic (Ch cs) k fuel cu = Some res ->
    exists w cu',
      c_rest cu = w ++ c_rest cu'
      /\ c_pos cu' = c_pos cu + String.length w
      /\ all_chars (cset_match ic cs) w = true
      /\ k cu' = Some res.
Proof.
  induction fuel as [|f IH]; intros cu H.
  - simpl in H. exists EmptyString, cu. simpl.
    rewrite Nat.add_0_r. repeat split; assumption.
  - change (star_loop ic (Ch cs) k (S f) cu)
      with (match exec ic (Ch cs) cu
                    (fun cu' => if Nat.eqb (c_pos cu') (c_pos cu) then None
                                else star_loop ic (Ch cs) k f cu') with
            | Some x => Some x
            | None => k cu
            end) in H.
    destruct (exec ic (Ch cs) cu _) as [x|] eqn:E.
    + inversion H; subst x. clear H.
      apply exec_Ch_inv in E. destruct E as (a & s' & Hrest & Hm & Hk).
      cbn [c_pos] in Hk.
      destruct (Nat.eqb (S (c_pos cu)) (c_pos cu)); [discriminate Hk|].
      apply IH in Hk. destruct Hk as (w & cu' & Hw & Hp & Ha & Hk).
      cbn [c_rest c_pos] in Hw, Hp.
      exists (String a w), cu'.
      split; [rewrite Hrest, Hw; reflexivity|].
      split; [rewrite Hp; simpl; lia|].
      split; [simpl; rewrite Hm, Ha; reflexivity|exact Hk].
    + exists EmptyString, cu. simpl. rewrite Nat.add_0_r.
      repeat split; assumption.
Qed.

(** A pattern that, whenever it matches, consumes a non-empty run of
    characters satisfying [ok]. *)
Definition consumes_run (ic : bool) (r : regex) (ok : ascii -> bool) : Prop :=
  forall prev s pos cu,
    exec ic r (Cursor prev s pos []) Some = Some cu ->
    exists w,
      w <> EmptyString /\ all_chars ok w = true
      /\ s = w ++ c_rest cu /\ c_pos cu = pos + String.length w.

Lemma plus_class_consumes_run (ic : bool) (cs : cset) :
  consumes_run ic (Seq (Ch cs) (Star (Ch cs))) (cset_match ic cs).
Proof.
  intros prev s pos cu H.
  change (exec ic (Seq (Ch cs) (Star (Ch cs))) (Cursor prev s pos []) Some)
    with (exec ic (Ch cs) (Cursor prev s pos [])
               (fun cu' => exec ic (Star (Ch cs)) cu' Some)) in H.
  apply exec_Ch_inv in H. destruct H as (a & s' & Hrest & Hm & Hk).
  cbn [c_rest c_pos c_caps] in *.
  rewrite exec_Star in Hk. apply star_loop_Ch_inv in Hk.
  destruct Hk as (w & cu' & Hw & Hp & Ha & Hk).
  inversion Hk; subst cu'. clear Hk.
  cbn [c_rest c_pos] in Hw, Hp.
  exists (String a w).
  split; [discriminate|].
  split; [simpl; rewrite Hm, Ha; reflexivity|].
  split; [rewrite Hrest, Hw; reflexivity|rewrite Hp; simpl; lia].
Qed.

Section Runs.
Variables (ic : bool) (r : regex) (ok : ascii -> bool) (whole : string).
Hypothesis Hrun : consumes_run ic r ok.

(** A match of such a pattern in [whole]: its text is a non-empty run. *)
Definition run_match (m : rmatch) : Prop :=
  group m 0 <> EmptyString /\ all_chars ok (group m 0) = true.

Lemma scan_run (s : string) :
  forall prev pos m cu,
    drop pos whole = s ->
    scan ic r whole prev s pos = Some (m, cu) ->
    run_match m /\ drop (c_pos cu) whole = c_rest cu
    /\ m_end m <> m_start m.
Proof.
  induction s as [|a s IH]; intros prev pos m cu Hd H; simpl in H.
  - destruct (exec ic r (Cursor prev EmptyString pos []) Some) as [cu0|] eqn:E;
      [|discriminate H].
    inversion H; subst m cu. clear H.
    destruct (Hrun _ _ _ _ E) as (w & Hne & Hok & Hs & Hp).
    destruct w; [congruence|discriminate Hs].
  - destruct (exec ic r (Cursor prev (String a s) pos []) Some) as [cu0|] eqn:E.
    + inversion H; subst m cu. clear H.
      destruct (Hrun _ _ _ _ E) as (w & Hne & Hok & Hs & Hp).
      rewrite Hs in Hd.
      unfold run_match, group. cbn [m_start m_end m_string].
      rewrite Hp, (slice_of_drop pos whole w (c_rest cu0) Hd).
      repeat split; try assumption.
      * apply drop_append, Hd.
      * destruct w; [congruence|]. simpl. lia.
    + apply (IH (Some a) (S pos) m cu); [|exact H].
      apply drop_step with (a := a), Hd.
Qed.

Lemma finditer_from_runs (fuel : nat) :
  forall prev s pos,
    drop pos whole = s ->
    Forall run_match (finditer_from fuel ic r whole prev s pos).
Proof.
  induction fuel as [|f IH]; intros prev s pos Hd; simpl; [constructor|].
  destruct (scan ic r whole prev s pos) as [[m cu]|] eqn:E; [|constructor].
  destruct (scan_run s prev pos m cu Hd E) as (Hm & Hd' & Hne).
  apply Nat.eqb_neq in Hne. rewrite Hne.
  constructor; [exact Hm|]. apply IH, Hd'.
Qed.

End Runs.

(** [re.findall] with a pattern [[class]+] returns non-empty runs of the
    class. *)
Lemma findall_plus_class (p : string) (cs : cset) (s t : string) :
  compile p = Seq (Ch cs) (Star (Ch cs)) ->
  In t (findall p s) ->
  t <> EmptyString /\ all_chars (cset_match false cs) t = true.
Proof.
  intros Hc Hin. unfold findall, finditer_with in Hin. rewrite Hc in Hin.
  apply in_map_iff in Hin. destruct Hin as [m [<- Hm]].
  pose proof (finditer_from_runs false _ _ s (plus_class_consumes_run false cs)
                (S (String.length s)) None s 0 eq_refl) as Hall.
  rewrite Forall_forall in Hall. apply Hall, Hm.
Qed.

Lemma all_chars_weaken (p q : ascii -> bool) (s : string) :
  (forall a, p a = true -> q a = true) ->
  all_chars p s = true -> all_chars q s = true.
Proof.
  intros Hpq. induction s as [|a s IH]; simpl; [reflexivity|].
  intros H. apply andb_true_iff in H. destruct H as [Ha Hs].
  rewrite (Hpq a Ha), (IH Hs). reflexivity.
Qed.

End ReRuns.

(* ===================================================================== *)
(** * More properties of the search *)
(* ===================================================================== *)

Module SearchMore.
Import PyStr PyList PyNum Re Search SortFacts NumFacts SearchFacts ReRuns.

Open Scope Q_scope.

(** Whatever the query, the row and the similarity functions, the score of
    [_score_item] lies between 0 and 100. *)
Theorem score_item_between_0_and_100 {fuzz : RapidFuzz}
        (pq : ParsedQuery) (desc pn enriched : string) :
  0 <= _score_item pq desc pn enriched
  /\ _score_item pq desc pn enriched <= 100.
Proof.
  rewrite _score_item_steps.
  destruct (Qeq_bool _ 0); [split; lra|].
  match goal with |- context [clamp ?x] =>
    destruct (clamp_cases x) as [[? E]|[[? [? E]]|[? E]]]; rewrite E
  end; split; lra.
Qed.

(** A row in which no query token occurs scores 0. *)
Lemma score_zero_without_hit {fuzz : RapidFuzz}
      (pq : ParsedQuery) (desc pn enriched : string) :
  token_hits pq desc pn enriched = 0%nat ->
  _score_item pq desc pn enriched = 0.
Proof.
  intros H. rewrite _score_item_steps. unfold token_ratio. rewrite H.
  reflexivity.
Qed.

Lemma token_hits_zero_or_hit (pq : ParsedQuery) (desc pn enriched : string) :
  token_hits pq desc pn enriched = 0%nat
  \/ exists t, In t (tokens pq)
               /\ contains (combined_text desc pn enriched) t = true.
Proof.
  unfold token_hits.
  destruct (filter _ (tokens pq)) as [|t l] eqn:E; [left; reflexivity|].
  right. exists t.
  assert (H : In t (t :: l)) by (left; reflexivity).
  rewrite <- E in H. apply filter_In in H. exact H.
Qed.

(** ** Rows and their scores *)

(** The enriched text [search_products] scores a row with. *)
Definition enriched_text (df : DataFrame) (enriched_col : option string)
           (r : Row) : string :=
  match enriched_col with
  | Some c =>
      if negb (String.eqb c "") && mem c (columns df)
      then fillna_str (row_get r c) else ""
  | None => ""
  end.

(** The score [search_products] gives a row of the partition. *)
Definition row_score {fuzz : RapidFuzz} (pq : ParsedQuery) (df : DataFrame)
           (enriched_col : option string) (r : Row) : Q :=
  _score_item pq (fillna_str (description r)) (fillna_str (part_number r))
              (enriched_text df enriched_col r).

Definition scored_rows {fuzz : RapidFuzz} (pq : ParsedQuery) (df : DataFrame)
           (enriched_col : option string) : list Scored :=
  map (fun r => (r, row_score pq df enriched_col r)) (rows df).

Lemma combine_scores {A B C D E : Type} (F : B * (C * D) -> E)
      (a : A -> B) (b : A -> C) (c : A -> D) (l : list A) :
  combine l (map F (combine (map a l) (combine (map b l) (map c l))))
  = map (fun r => (r, F (a r, (b r, c r)))) l.
Proof.
  induction l as [|x l IH]; simpl; [reflexivity|]. rewrite IH. reflexivity.
Qed.

(** Past its guards, [search_products] is: score every row, keep those at
    or above the threshold, sort, cut at the cap. *)
Lemma search_products_passed {fuzz : RapidFuzz} {sorter : SortValues}
      (query : string) (df : DataFrame) (cap : Z) (thr : Q)
      (ecol : option string) :
  rows df <> [] -> strip query <> "" -> tokens (parse_query query) <> [] ->
  search_products query df cap thr ecol
  = head cap
      (sort_values_desc
         (filter (fun x => Qle_bool thr (match_score x))
                 (scored_rows (parse_query query) df ecol))).
Proof.
  intros Hr Hq Ht. unfold search_products.
  destruct (rows df) as [|r0 rs] eqn:Er; [congruence|].
  cbn [truthy negb orb].
  destruct (String.eqb (strip query) "") eqn:Eq;
    [apply String.eqb_eq in Eq; congruence|].
  destruct (tokens (parse_query query)) as [|t ts] eqn:Et; [congruence|].
  cbn [truthy negb]. cbv zeta.
  unfold scored_rows, row_score, enriched_text, column_strings.
  rewrite Er.
  do 3 f_equal.
  destruct ecol as [c|].
  - destruct (negb (String.eqb c "") && mem c (columns df)).
    + rewrite (combine_scores
                 (fun '(d, (p, e)) => _score_item (parse_query query) d p e)
                 (fun r => fillna_str (row_get r "description"))
                 (fun r => fillna_str (row_get r "part_number"))
                 (fun r => fillna_str (row_get r c))).
      reflexivity.
    + rewrite (combine_scores
                 (fun '(d, (p, e)) => _score_item (parse_query query) d p e)
                 (fun r => fillna_str (row_get r "description"))
                 (fun r => fillna_str (row_get r "part_number"))
                 (fun _ => "")).
      reflexivity.
  - rewrite (combine_scores
               (fun '(d, (p, e)) => _score_item (parse_query query) d p e)
               (fun r => fillna_str (row_get r "description"))
               (fun r => fillna_str (row_get r "part_number"))
               (fun _ => "")).
    reflexivity.
Qed.

(** A search that returns a row has passed both guards. *)
Lemma search_products_guards {fuzz : RapidFuzz} {sorter : SortValues}
      (query : string) (df : DataFrame) (cap : Z) (thr : Q)
      (ecol : option string) (x : Scored) :
  In x (search_products query df cap thr ecol) ->
  rows df <> [] /\ strip query <> ""
  /\ tokens (parse_query query) <> [].
Proof.
  unfold search_products. intros Hin.
  destruct (rows df) as [|r0 rs]; [destruct Hin|].
  cbn [truthy negb orb] in Hin.
  destruct (String.eqb (strip query) "") eqn:Eq; [destruct Hin|].
  destruct (tokens (parse_query query)) as [|t ts]; [destruct Hin|].
  repeat split; try discriminate.
  intros E. rewrite E in Eq. discriminate Eq.
Qed.

(** Every row the search returns is a row of the partition and carries the
    score [_score_item] gives it; and when the threshold is positive, at
    least one query token occurs in the row's combined text. *)
Theorem search_products_returns_scored_rows
        {fuzz : RapidFuzz} {sorter : SortValues}
        (query : string) (df : DataFrame) (cap : Z) (thr : Q)
        (ecol : option string) (r : Row) (score : Q) :
  In (r, score) (search_products query df cap thr ecol) ->
  In r (rows df)
  /\ score = row_score (parse_query query) df ecol r
  /\ (0 < thr ->
      exists t, In t (tokens (parse_query query))
                /\ contains (combined_text (fillna_str (description r))
                                           (fillna_str (part_number r))
                                           (enriched_text df ecol r)) t
                   = true).
Proof.
  intros Hin.
  destruct (search_products_guards query df cap thr ecol (r, score) Hin)
    as (Hr & Hq & Ht).
  rewrite (search_products_passed query df cap thr ecol Hr Hq Ht) in Hin.
  apply head_In in Hin.
  apply (Permutation_in _ (Permutation_sym (sort_values_perm _))) in Hin.
  apply filter_In in Hin. destruct Hin as [Hin Hthr].
  unfold scored_rows in Hin. apply in_map_iff in Hin.
  destruct Hin as [r' [E Hr']]. inversion E; subst r' score. clear E.
  split; [exact Hr'|]. split; [reflexivity|].
  intros Hpos.
  destruct (token_hits_zero_or_hit (parse_query query)
              (fillna_str (description r)) (fillna_str (part_number r))
              (enriched_text df ecol r)) as [Hz|Hhit]; [|exact Hhit].
  exfalso. apply Qle_bool_iff in Hthr. unfold match_score in Hthr.
  cbn [snd] in Hthr. unfold row_score in Hthr.
  rewrite (score_zero_without_hit _ _ _ _ Hz) in Hthr. lra.
Qed.

Lemma search_products_returns_scored_rows_witness :
  In bracket_row (rows two_brackets)
  /\ 100 = @row_score equality_fuzz (parse_query "AB12") two_brackets None
                      bracket_row
  /\ (0 < 30 ->
      exists t, In t (tokens (parse_query "AB12"))
                /\ contains (combined_text
                               (fillna_str (description bracket_row))
                               (fillna_str (part_number bracket_row))
                               (enriched_text two_brackets None bracket_row))
                            t = true).
Proof.
  apply (@search_products_returns_scored_rows equality_fuzz
           stable_sort_values "AB12" two_brackets 12 30 None bracket_row 100).
  vm_compute. left. reflexivity.
Defined.

(** When the cap is not below the number of rows of the partition, nothing
    is cut: the search returns, in some order, exactly the rows whose score
    reaches the threshold, each once per occurrence in the partition. *)
Theorem search_products_complete_under_cap
        {fuzz : RapidFuzz} {sorter : SortValues}
        (query : string) (df : DataFrame) (cap : Z) (thr : Q)
        (ecol : option string) :
  rows df <> [] -> strip query <> "" -> tokens (parse_query query) <> [] ->
  (Z.of_nat (List.length (rows df)) <= cap)%Z ->
  Permutation
    (search_products query df cap thr ecol)
    (filter (fun x => Qle_bool thr (match_score x))
            (scored_rows (parse_query query) df ecol)).
Proof.
  intros Hr Hq Ht Hcap.
  rewrite (search_products_passed query df cap thr ecol Hr Hq Ht).
  set (kept := filter _ (scored_rows (parse_query query) df ecol)).
  assert (Hlen : (List.length (sort_values_desc kept)
                  <= List.length (rows df))%nat).
  { rewrite <- (Permutation_length (sort_values_perm kept)).
    unfold kept.
    eapply Nat.le_trans; [apply filter_length_le|].
    unfold scored_rows. rewrite length_map. apply Nat.le_refl. }
  unfold head. destruct (Z.leb_spec 0 cap) as [_|Hneg]; [|lia].
  rewrite firstn_all2 by lia.
  apply Permutation_sym, sort_values_perm.
Qed.

Lemma search_products_complete_under_cap_witness :
  Permutation
    (@search_products equality_fuzz stable_sort_values
       "AB12" two_brackets 12 30 None)
    (filter (fun x => Qle_bool 30 (match_score x))
            (@scored_rows equality_fuzz (parse_query "AB12") two_brackets
                          None)).
Proof.
  apply (@search_products_complete_under_cap equality_fuzz stable_sort_values
           "AB12" two_brackets 12 30 None).
  - discriminate.
  - vm_compute. discriminate.
  - vm_compute. discriminate.
  - vm_compute. discriminate.
Defined.

(** ** The tokens of a parsed query *)

(** Every token [parse_query] produces is a non-empty run of upper-case
    letters and digits, and is not a stop word. *)
Theorem parse_query_tokens_clean (text t : string) :
  In t (tokens (parse_query text)) ->
  t <> ""
  /\ all_chars (fun a => is_upper a || is_digit a) t = true
  /\ ~ In t _STOP_WORDS.
Proof.
  unfold parse_query. cbv zeta.
  destruct (String.eqb (strip text) ""); cbn [tokens ParsedQuery_init];
    [intros []|].
  intros Hin. apply filter_In in Hin. destruct Hin as [Hin Hkeep].
  apply andb_true_iff in Hkeep. destruct Hkeep as [Hstop _].
  apply (findall_plus_class "[A-Z0-9]+"
           (COr (CRange "A" "Z") (COr (CRange "0" "9") CNone))) in Hin;
    [|reflexivity].
  destruct Hin as [Hne Hall]. split; [exact Hne|]. split.
  - revert Hall. apply all_chars_weaken. intros a.
    unfold cset_match. cbn [cset_has andb].
    rewrite !orb_false_r. unfold is_upper, is_digit.
    intros H. exact H.
  - intros Hs. apply negb_true_iff in Hstop.
    assert (Hm : mem t _STOP_WORDS = true).
    { unfold mem. apply existsb_exists. exists t. split; [exact Hs|].
      apply String.eqb_refl. }
    congruence.
Qed.

Lemma parse_query_tokens_clean_witness :
  "70S" <> ""
  /\ all_chars (fun a => is_upper a || is_digit a) "70S" = true
  /\ ~ In "70S" _STOP_WORDS.
Proof.
  apply (parse_query_tokens_clean "s6 wire 0.045" "70S").
  vm_compute. left. reflexivity.
Defined.

End SearchMore.

(* ===================================================================== *)
(** * More properties of the decoder *)
(* ===================================================================== *)

Module EnrichmentMore.
Import PyStr PyList Re Enrichment SortFacts.

Open Scope nat_scope.

(** ** The product-line match *)

Definition longer_first (y x : string) : bool :=
  Nat.ltb (String.length x) (String.length y).

Lemma longer_first_ordered (a b : string) :
  ordered longer_first a b <-> String.length b <= String.length a.
Proof.
  unfold ordered, longer_first. rewrite Nat.ltb_ge. reflexivity.
Qed.

Lemma codes_sorted_by_length (l : list string) :
  StronglySorted (ordered longer_first) (sorted longer_first l).
Proof.
  apply Sorted_StronglySorted.
  - intros a b c. rewrite !longer_first_ordered. lia.
  - apply sorted_Sorted. intros a b. unfold longer_first.
    rewrite Nat.ltb_lt, Nat.ltb_ge. lia.
Qed.

(** In a sorted list, [find] returns an element that no other match
    precedes in the order. *)
Lemma find_sorted_first {A : Type} (R : A -> A -> Prop) (f : A -> bool)
      (l : list A) (x : A) :
  StronglySorted R l -> find f l = Some x ->
  In x l /\ f x = true /\ forall y, In y l -> f y = true -> y = x \/ R x y.
Proof.
  induction l as [|a l IH]; intros Hs Hf; [discriminate Hf|].
  inversion Hs as [|? ? Hl Hall]; subst. simpl in Hf.
  destruct (f a) eqn:Ea.
  - inversion Hf; subst a. clear Hf.
    split; [left; reflexivity|]. split; [exact Ea|].
    intros y [Hy|Hy] _; [left; symmetry; exact Hy|right].
    rewrite Forall_forall in Hall. apply Hall, Hy.
  - destruct (IH Hl Hf) as (Hin & Hfx & Hrest).
    split; [right; exact Hin|]. split; [exact Hfx|].
    intros y [Hy|Hy] Hfy.
    + subst y. congruence.
    + apply Hrest; assumption.
Qed.

Lemma find_none_all {A : Type} (f : A -> bool) (l : list A) :
  find f l = None -> forall y, In y l -> f y = false.
Proof.
  intros H y Hy. apply (find_none f l H y Hy).
Qed.

Lemma dict_get_of_key {V : Type} (k : string) (d : dict V) :
  In k (keys d) -> exists v, dict_get k d = Some v.
Proof.
  induction d as [|[k' v'] d IH]; intros Hin; [destruct Hin|].
  simpl. destruct (String.eqb k k') eqn:E; [exists v'; reflexivity|].
  destruct Hin as [Hk|Hin]; [|apply IH, Hin].
  simpl in Hk. subst k'. rewrite String.eqb_refl in E. discriminate E.
Qed.

(** [_match_product_line] returns the entry of a code that matches the
    description and is as long as any code that matches; it returns nothing
    only when no code of the table matches. *)
Theorem match_product_line_is_longest (desc : string) :
  match _match_product_line desc with
  | Some entry =>
      exists code,
        In code (keys PRODUCT_LINES)
        /\ code_matches (strip (upper desc)) code = true
        /\ dict_get code PRODUCT_LINES = Some entry
        /\ forall code',
            In code' (keys PRODUCT_LINES) ->
            code_matches (strip (upper desc)) code' = true ->
            String.length code' <= String.length code
  | None =>
      forall code',
        In code' (keys PRODUCT_LINES) ->
        code_matches (strip (upper desc)) code' = false
  end.
Proof.
  unfold _match_product_line, codes_longest_first. cbv zeta.
  fold longer_first.
  pose proof (sorted_perm longer_first (keys PRODUCT_LINES)) as Hperm.
  destruct (find (code_matches (strip (upper desc)))
                 (sorted longer_first (keys PRODUCT_LINES)))
    as [code|] eqn:Ef.
  - destruct (find_sorted_first _ _ _ _
                (codes_sorted_by_length (keys PRODUCT_LINES)) Ef)
      as (Hin & Hm & Hfirst).
    apply (Permutation_in _ (Permutation_sym Hperm)) in Hin.
    destruct (dict_get_of_key code PRODUCT_LINES Hin) as [entry He].
    rewrite He. exists code. repeat split; try assumption.
    intros code' Hin' Hm'.
    apply (Permutation_in _ Hperm) in Hin'.
    destruct (Hfirst code' Hin' Hm') as [->|Hord]; [lia|].
    apply longer_first_ordered, Hord.
  - intros code' Hin'. apply (find_none_all _ _ Ef).
    apply (Permutation_in _ Hperm), Hin'.
Qed.

(** ** Diameters *)

(** [c] occurs in [s]. *)
Fixpoint has_char (c : ascii) (s : string) : bool :=
  match s with
  | EmptyString => false
  | String a s' => Ascii.eqb a c || has_char c s'
  end.

Lemma startswith_has_char (c : ascii) (p s : string) :
  startswith s p = true -> has_char c p = true -> has_char c s = true.
Proof.
  revert s. induction p as [|b p IH]; intros s Hs Hc; [discriminate Hc|].
  destruct s as [|a s]; [discriminate Hs|].
  simpl in Hs, Hc |- *.
  apply andb_true_iff in Hs. destruct Hs as [Hab Hs].
  apply Ascii.eqb_eq in Hab. subst b.
  apply orb_true_iff in Hc. apply orb_true_iff.
  destruct Hc as [Hc|Hc]; [left; exact Hc|right; apply IH; assumption].
Qed.

Lemma contains_has_char (c : ascii) (s sub : string) :
  contains s sub = true -> has_char c sub = true -> has_char c s = true.
Proof.
  intros Hs Hc. induction s as [|a s IH].
  - simpl in Hs. rewrite orb_false_r in Hs.
    apply (startswith_has_char c sub EmptyString Hs Hc).
  - simpl in Hs. apply orb_true_iff in Hs. destruct Hs as [Hs|Hs].
    + apply (startswith_has_char c sub (String a s) Hs Hc).
    + simpl. rewrite (IH Hs). apply orb_true_r.
Qed.

Lemma has_char_remove (c x : ascii) (s : string) :
  has_char c (replace_char x "" s) = true -> has_char c s = true.
Proof.
  induction s as [|a s IH]; simpl; [intros H; exact H|].
  destruct (Ascii.eqb a x); simpl; intros H.
  - rewrite (IH H). apply orb_true_r.
  - apply orb_true_iff in H. apply orb_true_iff.
    destruct H as [H|H]; [left; exact H|right; apply IH, H].
Qed.

Lemma upper_char_not_lower (a : ascii) : is_lower (upper_char a) = false.
Proof.
  destruct a as [[] [] [] [] [] [] [] []]; reflexivity.
Qed.

Lemma upper_has_no_lower (c : ascii) (s : string) :
  has_char c (upper s) = true -> is_lower c = false.
Proof.
  induction s as [|a s IH]; simpl; [discriminate|].
  intros H. apply orb_true_iff in H. destruct H as [H|H]; [|apply IH, H].
  apply Ascii.eqb_eq in H. subst c. apply upper_char_not_lower.
Qed.

Lemma first_some_In {A B : Type} (f : A -> option B) (l : list A) (b : B) :
  first_some f l = Some b -> exists x, In x l /\ f x = Some b.
Proof.
  induction l as [|x l IH]; simpl; [discriminate|].
  destruct (f x) as [b'|] eqn:E.
  - intros H. inversion H; subst b'. exists x. split; [left; reflexivity|].
    exact E.
  - intros H. destruct (IH H) as [y [Hy Hf]]. exists y.
    split; [right; exact Hy|exact Hf].
Qed.

Lemma dict_get_value {V : Type} (k : string) (d : dict V) (v : V) :
  dict_get k d = Some v -> In v (map snd d).
Proof.
  induction d as [|[k' v'] d IH]; simpl; [discriminate|].
  destruct (String.eqb k k').
  - intros H. inversion H. left. reflexivity.
  - intros H. right. apply IH, H.
Qed.

(** The metric step of [_extract_diameter] never succeeds: it looks for the
    text of a pattern, backslash and lower-case s included, in the
    upper-cased description. *)
Lemma metric_step_never_matches (desc : string) :
  first_some (fun '(code, readable) =>
                if contains (replace_char " " "" (upper desc))
                            (replace_char " " "\s*" code)
                then Some readable else None)
             METRIC_DIAMETERS = None.
Proof.
  destruct (first_some _ METRIC_DIAMETERS) as [v|] eqn:E; [|reflexivity].
  exfalso. apply first_some_In in E. destruct E as [[code readable] [Hin Hf]].
  destruct (contains _ (replace_char " " "\s*" code)) eqn:Hc;
    [|discriminate Hf].
  assert (Hs : has_char "s" (replace_char " " "\s*" code) = true).
  { unfold METRIC_DIAMETERS in Hin. simpl in Hin.
    repeat (destruct Hin as [Hin|Hin];
            [inversion Hin; subst; reflexivity|]).
    destruct Hin. }
  pose proof (contains_has_char "s" _ _ Hc Hs) as H1.
  apply has_char_remove in H1. apply upper_has_no_lower in H1.
  discriminate H1.
Qed.

(** A diameter [_extract_diameter] returns is a reading of the 3-digit
    table or of the fraction table; the metric table is never used. *)
Theorem extract_diameter_never_metric (desc v : string) :
  _extract_diameter desc = Some v ->
  (In v (map snd DIAMETER_MAP) \/ In v (map snd FRACTION_DIAMETERS))
  /\ ~ In v (map snd METRIC_DIAMETERS).
Proof.
  intros H.
  assert (Hv : In v (map snd DIAMETER_MAP)
               \/ In v (map snd FRACTION_DIAMETERS)).
  { unfold _extract_diameter in H. cbv zeta in H.
    rewrite metric_step_never_matches in H.
    unfold or_else in H.
    destruct (first_some (fun m => dict_get (group m 1) DIAMETER_MAP) _)
      as [v1|] eqn:E1.
    { inversion H; subst v1. apply first_some_In in E1.
      destruct E1 as [m [_ Hm]]. left. apply (dict_get_value _ _ _ Hm). }
    right.
    assert (Hfrac : forall f : string -> bool,
               first_some (fun '(code, readable) =>
                             if f code then Some readable else None)
                          FRACTION_DIAMETERS = Some v ->
               In v (map snd FRACTION_DIAMETERS)).
    { intros f E. apply first_some_In in E.
      destruct E as [[code readable] [Hin Hf]].
      destruct (f code); [|discriminate Hf].
      inversion Hf; subst readable.
      apply in_map_iff. exists (code, v). split; [reflexivity|exact Hin]. }
    match type of H with
    | match ?x with _ => _ end = _ => destruct x as [v2|] eqn:E2
    end.
    { inversion H; subst v2.
      exact (Hfrac (fun code =>
                      is_some (search (replace_char " " "\s+" code ++ "\s*X")
                                      (upper desc))) E2). }
    match type of H with
    | match ?x with _ => _ end = _ => destruct x as [v3|] eqn:E3
    end; [|discriminate H].
    inversion H; subst v3.
    exact (Hfrac (fun code =>
                    is_some (search ("\b" ++ replace_char " " "\s+" code
                                      ++ "\b") (upper desc))) E3). }
  split; [exact Hv|].
  intros Hm. vm_compute in Hv, Hm.
  destruct Hv as [Hv|Hv];
    repeat (destruct Hv as [Hv|Hv];
            [subst v;
             repeat (destruct Hm as [Hm|Hm]; [try discriminate Hm|]);
             try destruct Hm|]);
    destruct Hv.
Qed.

Lemma extract_diameter_never_metric_witness :
  (In ("1/8" ++ dq) (map snd DIAMETER_MAP)
   \/ In ("1/8" ++ dq) (map snd FRACTION_DIAMETERS))
  /\ ~ In ("1/8" ++ dq) (map snd METRIC_DIAMETERS).
Proof.
  apply (extract_diameter_never_metric "AA 7018 1 8X14X50FHS").
  vm_compute. reflexivity.
Defined.

(** A description written with a metric size gets no diameter. *)
Example extract_diameter_metric_input :
  _extract_diameter "OK AUTROD 12 51 1 2MM 15KG" = None.
Proof. vm_compute. reflexivity. Qed.

(** ** The cache before the decoder *)

(** [get_enriched_description] returns the cached text when the stripped
    part number is a key of the cache, and in every other case exactly what
    [decode_description] returns. *)
Theorem get_enriched_description_cache_or_decode
        (part_number raw : string) (cache : option (dict string)) :
  get_enriched_description part_number raw cache
  = match cache with
    | Some c =>
        match dict_get (strip part_number) c with
        | Some cached => cached
        | None => decode_description raw
        end
    | None => decode_description raw
    end.
Proof.
  unfold get_enriched_description. cbv zeta.
  assert (Hd : (if negb (String.eqb (decode_description raw) raw)
                then decode_description raw else raw)
               = decode_description raw).
  { destruct (String.eqb (decode_description raw) raw) eqn:E; simpl;
      [|reflexivity].
    apply String.eqb_eq in E. symmetry. exact E. }
  destruct cache as [[|kv c]|].
  - simpl. exact Hd.
  - destruct (dict_get (strip part_number) (kv :: c)); [reflexivity|exact Hd].
  - exact Hd.
Qed.

(** ** The decoder never blanks a description *)

Lemma append_nonempty (a t : string) : t <> "" -> a ++ t <> "".
Proof.
  intros Ht. destruct a; simpl; [exact Ht|discriminate].
Qed.

Lemma sep_append_nonempty (a b : string) : a ++ " | " ++ b <> "".
Proof.
  apply append_nonempty. simpl. discriminate.
Qed.

Lemma join_two_nonempty (a b : string) (l : list string) :
  join " | " (a :: b :: l) <> "".
Proof.
  change (join " | " (a :: b :: l)) with (a ++ " | " ++ join " | " (b :: l)).
  apply sep_append_nonempty.
Qed.

(** [decode_description] returns the empty string exactly on blank input. *)
Theorem decode_description_empty_iff_blank (x : string) :
  decode_description x = "" <-> strip x = "".
Proof.
  split.
  - intros H. destruct (String.eqb (strip x) "") eqn:E;
      [apply String.eqb_eq, E|].
    exfalso. apply String.eqb_neq in E. revert H.
    unfold decode_description. cbv zeta.
    apply String.eqb_neq in E. rewrite E.
    repeat match goal with
           | |- context [match ?c with _ => _ end] =>
               lazymatch c with
               | context [match _ with _ => _ end] => fail
               | _ => destruct c
               end
           end;
      first [ apply join_two_nonempty
            | apply sep_append_nonempty
            | apply String.eqb_neq; exact E
            | simpl; discriminate ].
  - intros H. unfold decode_description. cbv zeta. rewrite H. reflexivity.
Qed.

End EnrichmentMore.

(* ===================================================================== *)
(** * More properties of the price resolver *)
(* ===================================================================== *)

Module PricingMore.
Import PyStr PyList PyNum Pricing SortFacts NumFacts PricingFacts.

Open Scope Q_scope.

(** ** The entries each row contributes *)

Definition master_entries (row : MasterRow) : list PriceEntry :=
  List.app
    (if positive (m_list_price row)
     then [PriceEntry_new (price_value (m_list_price row)) "Master List" 0 ""
                          (m_source_file row)]
     else [])
    (if positive (m_tier_price row)
     then [PriceEntry_new (price_value (m_tier_price row)) "Master Tier" 0 ""
                          (m_source_file row)]
     else []).

Definition special_entries (src context : string) (row : SpecialRow)
  : list PriceEntry :=
  if positive (s_price row)
  then [PriceEntry_new (price_value (s_price row)) src
                       (s_alloy_surcharge row + s_tariff_surcharge row)
                       context (s_source_file row)]
  else [].

(** The context label of an end-user row. *)
Definition end_user_context (row : SpecialRow) : string :=
  if present (strip (s_end_user_name row)) then strip (s_end_user_name row)
  else strip (s_customer_name row).

(** The end-user filter lets the row through. *)
Definition end_user_kept (sel : option string) (row : SpecialRow) : bool :=
  match selected sel with
  | Some s =>
      negb (negb (String.eqb (end_user_context row) s)
            && negb (String.eqb (strip (s_end_user_name row)) s)
            && negb (String.eqb (strip (s_customer_name row)) s))
  | None => true
  end.

(** The context label of a location row. *)
Definition location_context (row : SpecialRow) : string :=
  join " -- "
    (List.app
       (if present (strip (s_customer_name row))
        then [strip (s_customer_name row)] else [])
       (if present (strip (s_city row)) && present (strip (s_state row))
        then [strip (s_city row) ++ ", " ++ strip (s_state row)]
        else if present (strip (s_city row)) then [strip (s_city row)]
        else [])).

Definition location_kept (sel : option string) (row : SpecialRow) : bool :=
  match selected sel with
  | Some s => String.eqb (location_context row) s
  | None => true
  end.

Definition end_user_entries (sel : option string) (row : SpecialRow)
  : list PriceEntry :=
  if end_user_kept sel row
  then special_entries "End User" (end_user_context row) row else [].

Definition location_entries (sel : option string) (row : SpecialRow)
  : list PriceEntry :=
  if location_kept sel row
  then special_entries "Location Special" (location_context row) row else [].

Lemma master_step_prices (result : ProductPricing) (row : MasterRow) :
  all_prices (master_step result row)
  = (all_prices result ++ master_entries row)%list.
Proof.
  unfold master_step, master_entries. cbv zeta.
  destruct (String.eqb (description result) "");
    destruct (positive (m_list_price row));
    destruct (positive (m_tier_price row)); simpl;
    rewrite <- ?app_assoc, ?app_nil_r; reflexivity.
Qed.

Lemma special_append_prices (src context : string) (result : ProductPricing)
      (row : SpecialRow) :
  all_prices (special_append src context result row)
  = (all_prices result ++ special_entries src context row)%list.
Proof.
  unfold special_append, special_entries. cbv zeta.
  destruct (String.eqb (description result) "");
    destruct (positive (s_price row)); simpl;
    rewrite ?app_nil_r; reflexivity.
Qed.

Lemma end_user_step_prices (sel : option string) (result : ProductPricing)
      (row : SpecialRow) :
  all_prices (end_user_step sel result row)
  = (all_prices result ++ end_user_entries sel row)%list.
Proof.
  unfold end_user_step, end_user_entries, end_user_kept, end_user_context.
  cbv zeta.
  destruct (selected sel) as [s|].
  - destruct (negb _ && negb _ && negb _); simpl.
    + rewrite app_nil_r. reflexivity.
    + apply special_append_prices.
  - apply special_append_prices.
Qed.

Lemma location_step_prices (sel : option string) (result : ProductPricing)
      (row : SpecialRow) :
  all_prices (location_step sel result row)
  = (all_prices result ++ location_entries sel row)%list.
Proof.
  unfold location_step, location_entries, location_kept, location_context.
  cbv zeta.
  destruct (selected sel) as [s|].
  - destruct (String.eqb _ s); simpl.
    + apply special_append_prices.
    + rewrite app_nil_r. reflexivity.
  - apply special_append_prices.
Qed.

Lemma fold_left_prices {R : Type} (step : ProductPricing -> R -> ProductPricing)
      (entries : R -> list PriceEntry) (rows : list R) :
  (forall result row,
      all_prices (step result row)
      = (all_prices result ++ entries row)%list) ->
  forall result,
    all_prices (fold_left step rows result)
    = (all_prices result ++ flat_map entries rows)%list.
Proof.
  intros Hstep. induction rows as [|row rows IH]; intros result; simpl.
  - rewrite app_nil_r. reflexivity.
  - rewrite IH, Hstep, <- app_assoc. reflexivity.
Qed.

(** The rows of one part in the three frames of a distributor. *)
Definition master_rows (pn dk : string) (pd : PriceData) : list MasterRow :=
  filter (fun row => String.eqb (m_part_number row) (strip pn))
         (frame_get dk (master pd)).

Definition end_user_rows (pn dk : string) (pd : PriceData)
  : list SpecialRow :=
  filter (fun row => String.eqb (s_part_number row) (strip pn))
         (frame_get dk (end_user pd)).

Definition location_rows (pn dk : string) (pd : PriceData)
  : list SpecialRow :=
  filter (fun row => String.eqb (s_part_number row) (strip pn))
         (frame_get dk (location pd)).

(** The entries before the sort: master rows first, then end-user rows,
    then location rows, each in frame order. *)
Lemma collect_prices (pn dk : string) (pd : PriceData)
      (eu loc : option string) :
  all_prices (collect pn dk pd eu loc)
  = (flat_map master_entries (master_rows pn dk pd)
     ++ flat_map (end_user_entries eu) (end_user_rows pn dk pd)
     ++ flat_map (location_entries loc) (location_rows pn dk pd))%list.
Proof.
  unfold collect. cbv zeta.
  rewrite (fold_left_prices _ _ _ (location_step_prices loc)).
  rewrite (fold_left_prices _ _ _ (end_user_step_prices eu)).
  rewrite (fold_left_prices _ _ _ master_step_prices).
  simpl. rewrite <- app_assoc. reflexivity.
Qed.

Lemma get_pricing_In (pn dk : string) (pd : PriceData)
      (eu loc : option string) (e : PriceEntry) :
  In e (all_prices (get_pricing pn dk pd eu loc))
  <-> In e (flat_map master_entries (master_rows pn dk pd))
      \/ In e (flat_map (end_user_entries eu) (end_user_rows pn dk pd))
      \/ In e (flat_map (location_entries loc) (location_rows pn dk pd)).
Proof.
  rewrite (proj1 (get_pricing_prices pn dk pd eu loc)).
  rewrite <- !in_app_iff, <- collect_prices.
  split; intros H.
  - apply (Permutation_in _ (Permutation_sym (sorted_perm key_lt _))), H.
  - apply (Permutation_in _ (sorted_perm key_lt _)), H.
Qed.

Lemma StronglySorted_weaken {A : Type} (R R' : A -> A -> Prop) (l : list A) :
  (forall a b, R a b -> R' a b) -> StronglySorted R l -> StronglySorted R' l.
Proof.
  intros HR Hs. induction Hs as [|a l Hs IH Hall]; constructor.
  - exact IH.
  - rewrite Forall_forall in *. intros b Hb. apply HR, Hall, Hb.
Qed.

(** ** Where an entry comes from *)

Lemma positive_some (p : option Q) :
  positive p = true -> p = Some (price_value p) /\ 0 < price_value p.
Proof.
  destruct p as [v|]; simpl; [|discriminate].
  intros H. split; [reflexivity|apply Qltb_true, H].
Qed.

Lemma selected_kept_end_user (sel : option string) (row : SpecialRow)
      (s : string) :
  end_user_kept sel row = true -> selected sel = Some s ->
  strip (s_end_user_name row) = s \/ strip (s_customer_name row) = s.
Proof.
  unfold end_user_kept, end_user_context. intros Hk Hs. rewrite Hs in Hk.
  destruct (String.eqb (strip (s_end_user_name row)) s) eqn:E1;
    [left; apply String.eqb_eq, E1|].
  destruct (String.eqb (strip (s_customer_name row)) s) eqn:E2;
    [right; apply String.eqb_eq, E2|].
  destruct (present (strip (s_end_user_name row)));
    rewrite ?E1, ?E2 in Hk; discriminate Hk.
Qed.

(** Every entry of the result is the price cell of a row of this part in
    this distributor's frames: a positive list or tier price of a master
    row, without surcharges; or the positive price of an end-user row that
    the end-user filter, when one is selected, names by its end-user or
    customer name; or the positive price of a location row whose label is
    the selected location, when one is selected.  The surcharges of a
    special entry are the row's alloy and tariff surcharges. *)
Theorem price_entry_comes_from_a_row
        (pn dk : string) (pd : PriceData) (eu loc : option string)
        (e : PriceEntry) :
  In e (all_prices (get_pricing pn dk pd eu loc)) ->
  0 < price e
  /\ ((exists row,
         In row (frame_get dk (master pd))
         /\ m_part_number row = strip pn
         /\ ((source e = "Master List" /\ m_list_price row = Some (price e))
             \/ (source e = "Master Tier"
                 /\ m_tier_price row = Some (price e)))
         /\ surcharges e = 0)
      \/ (exists row,
            In row (frame_get dk (end_user pd))
            /\ s_part_number row = strip pn
            /\ source e = "End User"
            /\ s_price row = Some (price e)
            /\ surcharges e = s_alloy_surcharge row + s_tariff_surcharge row
            /\ forall s, selected eu = Some s ->
                         strip (s_end_user_name row) = s
                         \/ strip (s_customer_name row) = s)
      \/ (exists row,
            In row (frame_get dk (location pd))
            /\ s_part_number row = strip pn
            /\ source e = "Location Special"
            /\ s_price row = Some (price e)
            /\ surcharges e = s_alloy_surcharge row + s_tariff_surcharge row
            /\ context e = location_context row
            /\ forall s, selected loc = Some s -> context e = s)).
Proof.
  intros Hin. apply get_pricing_In in Hin.
  destruct Hin as [Hin|[Hin|Hin]]; apply in_flat_map in Hin;
    destruct Hin as [row [Hrow He]]; apply filter_In in Hrow;
    destruct Hrow as [Hrow Hpn]; apply String.eqb_eq in Hpn.
  - unfold master_entries in He. apply in_app_iff in He.
    destruct He as [He|He].
    + destruct (positive (m_list_price row)) eqn:Ep; [|destruct He].
      destruct He as [<-|[]]. destruct (positive_some _ Ep) as [Hs Hp].
      split; [exact Hp|]. left. exists row.
      repeat split; try assumption. left. split; [reflexivity|exact Hs].
    + destruct (positive (m_tier_price row)) eqn:Ep; [|destruct He].
      destruct He as [<-|[]]. destruct (positive_some _ Ep) as [Hs Hp].
      split; [exact Hp|]. left. exists row.
      repeat split; try assumption. right. split; [reflexivity|exact Hs].
  - unfold end_user_entries, special_entries in He.
    destruct (end_user_kept eu row) eqn:Ek; [|destruct He].
    destruct (positive (s_price row)) eqn:Ep; [|destruct He].
    destruct He as [<-|[]]. destruct (positive_some _ Ep) as [Hs Hp].
    split; [exact Hp|]. right; left. exists row.
    repeat split; try assumption.
    intros s Hsel. apply (selected_kept_end_user eu row s Ek Hsel).
  - unfold location_entries, special_entries in He.
    destruct (location_kept loc row) eqn:Ek; [|destruct He].
    destruct (positive (s_price row)) eqn:Ep; [|destruct He].
    destruct He as [<-|[]]. destruct (positive_some _ Ep) as [Hs Hp].
    split; [exact Hp|]. right; right. exists row.
    repeat split; try assumption.
    intros s Hsel. unfold location_kept in Ek. rewrite Hsel in Ek.
    apply String.eqb_eq in Ek. exact Ek.
Qed.

Lemma price_entry_comes_from_a_row_witness :
  0 < price (PriceEntry_new (17 # 2) "End User" (0 + 0) "Acme" "special.xlsx").
Proof.
  apply (proj1 (price_entry_comes_from_a_row "P1" "D1" acme_prices None None
                  (PriceEntry_new (17 # 2) "End User" (0 + 0) "Acme"
                                  "special.xlsx")
                  ltac:(vm_compute; left; reflexivity))).
Defined.

(** ** Master prices and the filters *)

Lemma positive_of_lt (p : Q) : 0 < p -> positive (Some p) = true.
Proof.
  intros H. simpl. destruct (Qltb 0 p) eqn:E; [reflexivity|].
  apply Qltb_false in E. lra.
Qed.

(** Whatever end user or location is selected, every positive list price
    and every positive tier price of a master row of the part is among the
    entries. *)
Theorem master_prices_survive_filters
        (pn dk : string) (pd : PriceData) (eu loc : option string)
        (row : MasterRow) (p : Q) :
  In row (frame_get dk (master pd)) ->
  m_part_number row = strip pn ->
  0 < p ->
  (m_list_price row = Some p ->
   In (PriceEntry_new p "Master List" 0 "" (m_source_file row))
      (all_prices (get_pricing pn dk pd eu loc)))
  /\ (m_tier_price row = Some p ->
      In (PriceEntry_new p "Master Tier" 0 "" (m_source_file row))
         (all_prices (get_pricing pn dk pd eu loc))).
Proof.
  intros Hrow Hpn Hp.
  assert (Hm : In row (master_rows pn dk pd)).
  { apply filter_In. split; [exact Hrow|]. apply String.eqb_eq, Hpn. }
  split; intros Hprice; apply get_pricing_In; left; apply in_flat_map;
    exists row; (split; [exact Hm|]); unfold master_entries;
    apply in_app_iff; [left|right]; rewrite Hprice;
    rewrite (positive_of_lt p Hp); left; reflexivity.
Qed.

Lemma master_prices_survive_filters_witness :
  In (PriceEntry_new 10 "Master List" 0 "" "master.xlsx")
     (all_prices (get_pricing "P1" "D1" acme_prices (Some "Nobody")
                              (Some "Nowhere"))).
Proof.
  apply (proj1 (master_prices_survive_filters "P1" "D1" acme_prices
                  (Some "Nobody") (Some "Nowhere")
                  (mkMasterRow "P1" "WELD 70S 6 045X44F" "LB" None None ""
                               (Some 10) (Some 9) "master.xlsx")
                  10
                  ltac:(vm_compute; left; reflexivity)
                  ltac:(vm_compute; reflexivity)
                  ltac:(reflexivity))).
  reflexivity.
Defined.

(** ** The best price, layer by layer *)

Lemma rank_of_source (e : PriceEntry) :
  (source e = "Location Special" -> rank e = 1%nat)
  /\ (source e = "End User" -> rank e = 2%nat)
  /\ (source e = "Master Tier" -> rank e = 3%nat)
  /\ (source e = "Master List" -> rank e = 4%nat).
Proof.
  unfold rank. repeat split; intros ->; reflexivity.
Qed.

Lemma entry_source (pn dk : string) (pd : PriceData) (eu loc : option string)
      (e : PriceEntry) :
  In e (all_prices (get_pricing pn dk pd eu loc)) ->
  source e = "Location Special" \/ source e = "End User"
  \/ source e = "Master Tier" \/ source e = "Master List".
Proof.
  intros Hin. apply get_pricing_In in Hin.
  destruct Hin as [Hin|[Hin|Hin]]; apply in_flat_map in Hin;
    destruct Hin as [row [_ He]].
  - unfold master_entries in He. apply in_app_iff in He.
    destruct He as [He|He];
      [destruct (positive (m_list_price row))
      |destruct (positive (m_tier_price row))];
      try destruct He as [<-|[]]; try destruct He; auto.
  - unfold end_user_entries, special_entries in He.
    destruct (end_user_kept eu row); [|destruct He].
    destruct (positive (s_price row)); [|destruct He].
    destruct He as [<-|[]]. auto.
  - unfold location_entries, special_entries in He.
    destruct (location_kept loc row); [|destruct He].
    destruct (positive (s_price row)); [|destruct He].
    destruct He as [<-|[]]. auto.
Qed.

Lemma best_price_least_rank (pn dk : string) (pd : PriceData)
      (eu loc : option string) (b : PriceEntry) :
  best_price (get_pricing pn dk pd eu loc) = Some b ->
  In b (all_prices (get_pricing pn dk pd eu loc))
  /\ forall e, In e (all_prices (get_pricing pn dk pd eu loc)) ->
               (rank b <= rank e)%nat.
Proof.
  destruct (get_pricing_prices pn dk pd eu loc) as [Hall Hbest].
  rewrite Hall, Hbest.
  pose proof (sorted_prices_StronglySorted
                (all_prices (collect pn dk pd eu loc))) as Hs.
  destruct (sorted key_lt (all_prices (collect pn dk pd eu loc)))
    as [|b' rest]; [discriminate|].
  intros H. inversion H; subst b'. split; [left; reflexivity|].
  intros e [He|He]; [subst e; lia|].
  inversion Hs as [|? ? _ Hfa]; subst.
  rewrite Forall_forall in Hfa.
  apply (proj1 (proj1 (key_ordered_iff b e) (Hfa e He))).
Qed.

(** The source of every entry is one of the four layers, so the default
    rank is never used; and the best price falls back layer by layer: it is
    a Location Special unless there is none, then an End User price unless
    there is none, then a Master Tier price unless there is none, and only
    then a Master List price. *)
Theorem best_price_falls_back_by_layer
        (pn dk : string) (pd : PriceData) (eu loc : option string)
        (b : PriceEntry) :
  best_price (get_pricing pn dk pd eu loc) = Some b ->
  source b = "Location Special"
  \/ (source b = "End User"
      /\ forall e, In e (all_prices (get_pricing pn dk pd eu loc)) ->
                   source e <> "Location Special")
  \/ (source b = "Master Tier"
      /\ forall e, In e (all_prices (get_pricing pn dk pd eu loc)) ->
                   source e <> "Location Special"
                   /\ source e <> "End User")
  \/ (source b = "Master List"
      /\ forall e, In e (all_prices (get_pricing pn dk pd eu loc)) ->
                   source e = "Master List").
Proof.
  intros Hb. destruct (best_price_least_rank pn dk pd eu loc b Hb)
    as [Hin Hleast].
  destruct (entry_source pn dk pd eu loc b Hin) as [Hs|[Hs|[Hs|Hs]]].
  - left. exact Hs.
  - right; left. split; [exact Hs|]. intros e He Hse.
    specialize (Hleast e He).
    rewrite (proj1 (proj2 (rank_of_source b)) Hs) in Hleast.
    rewrite (proj1 (rank_of_source e) Hse) in Hleast. lia.
  - right; right; left. split; [exact Hs|]. intros e He.
    specialize (Hleast e He).
    rewrite (proj1 (proj2 (proj2 (rank_of_source b))) Hs) in Hleast.
    split; intros Hse.
    + rewrite (proj1 (rank_of_source e) Hse) in Hleast. lia.
    + rewrite (proj1 (proj2 (rank_of_source e)) Hse) in Hleast. lia.
  - right; right; right. split; [exact Hs|]. intros e He.
    specialize (Hleast e He).
    rewrite (proj2 (proj2 (proj2 (rank_of_source b))) Hs) in Hleast.
    destruct (entry_source pn dk pd eu loc e He) as [Hse|[Hse|[Hse|Hse]]];
      [rewrite (proj1 (rank_of_source e) Hse) in Hleast; lia
      |rewrite (proj1 (proj2 (rank_of_source e)) Hse) in Hleast; lia
      |rewrite (proj1 (proj2 (proj2 (rank_of_source e))) Hse) in Hleast; lia
      |exact Hse].
Qed.

Lemma best_price_falls_back_by_layer_witness :
  let r := get_pricing "P1" "D1" acme_prices None None in
  let b := PriceEntry_new (17 # 2) "End User" (0 + 0) "Acme" "special.xlsx" in
  source b = "Location Special"
  \/ (source b = "End User"
      /\ forall e, In e (all_prices r) -> source e <> "Location Special")
  \/ (source b = "Master Tier"
      /\ forall e, In e (all_prices r) ->
                   source e <> "Location Special" /\ source e <> "End User")
  \/ (source b = "Master List"
      /\ forall e, In e (all_prices r) -> source e = "Master List").
Proof.
  apply (best_price_falls_back_by_layer "P1" "D1" acme_prices None None).
  vm_compute. reflexivity.
Defined.

(** ** Variants *)

(** The part-number prefix and the description identity [find_variants]
    compares with. *)
Definition variant_prefix (part_number : string) : string :=
  take (Nat.min 6 (String.length (strip part_number))) (strip part_number).

Definition variant_identity (description : string) : string :=
  if Nat.leb 4 (List.length (split (upper description)))
  then join " " (firstn 4 (split (upper description)))
  else upper description.

Definition variant_of (row : MasterRow) : Variant :=
  mkVariant (m_part_number row) (m_description row) (m_uom row)
            (m_package_qty row) (variant_price row).

Lemma find_variants_eq (pn desc dk : string) (pd : PriceData) :
  find_variants pn desc dk pd
  = map variant_of
        (firstn 15
           (filter (fun row => negb (String.eqb (m_part_number row)
                                                (strip pn)))
              (filter (fun row =>
                         startswith (m_part_number row) (variant_prefix pn)
                         || contains (upper (m_description row))
                                     (variant_identity desc))
                      (frame_get dk (master pd))))).
Proof.
  unfold find_variants. destruct (frame_get dk (master pd)); reflexivity.
Qed.

Lemma variant_price_positive (row : MasterRow) (p : Q) :
  variant_price row = Some p -> 0 < p.
Proof.
  unfold variant_price.
  destruct (positive (m_tier_price row)) eqn:Et.
  - intros H. rewrite H in Et. apply Qltb_true, Et.
  - destruct (positive (m_list_price row)) eqn:El; [|discriminate].
    intros H. rewrite H in El. apply Qltb_true, El.
Qed.

(** [find_variants] returns at most 15 siblings.  Each is a master row of
    the distributor with a part number other than the part's own, sharing
    the first six characters of the part number or containing the
    description identity; and its price, when it has one, is positive. *)
Theorem find_variants_are_siblings (pn desc dk : string) (pd : PriceData) :
  (List.length (find_variants pn desc dk pd) <= 15)%nat
  /\ forall v,
      In v (find_variants pn desc dk pd) ->
      v_part_number v <> strip pn
      /\ (exists row,
            In row (frame_get dk (master pd))
            /\ v = variant_of row
            /\ (startswith (m_part_number row) (variant_prefix pn) = true
                \/ contains (upper (m_description row))
                            (variant_identity desc) = true))
      /\ forall p, v_price v = Some p -> 0 < p.
Proof.
  rewrite find_variants_eq. split.
  - rewrite length_map. apply firstn_le_length.
  - intros v Hv. apply in_map_iff in Hv. destruct Hv as [row [<- Hrow]].
    apply In_firstn in Hrow. apply filter_In in Hrow.
    destruct Hrow as [Hrow Hne]. apply filter_In in Hrow.
    destruct Hrow as [Hrow Hmatch].
    split.
    { simpl. apply negb_true_iff in Hne. apply String.eqb_neq, Hne. }
    split.
    { exists row. split; [exact Hrow|]. split; [reflexivity|].
      apply orb_true_iff, Hmatch. }
    intros p. simpl. apply variant_price_positive.
Qed.

Lemma contains_empty (s : string) : contains s "" = true.
Proof. destruct s; reflexivity. Qed.

Lemma startswith_empty (s : string) : startswith s "" = true.
Proof. destruct s; reflexivity. Qed.

Lemma filter_all {A : Type} (f : A -> bool) (l : list A) :
  (forall x, f x = true) -> filter f l = l.
Proof.
  intros Hf. induction l as [|x l IH]; simpl; [reflexivity|].
  rewrite Hf, IH. reflexivity.
Qed.

(** With an empty description, or a blank part number, nothing is compared:
    the variants are simply the first 15 master rows of the distributor
    whose part number differs from the part's. *)
Theorem find_variants_without_description
        (pn desc dk : string) (pd : PriceData) :
  desc = "" \/ strip pn = "" ->
  find_variants pn desc dk pd
  = map variant_of
        (firstn 15
           (filter (fun row => negb (String.eqb (m_part_number row)
                                                (strip pn)))
                   (frame_get dk (master pd)))).
Proof.
  intros H. rewrite find_variants_eq. do 3 f_equal.
  apply filter_all. intros row. apply orb_true_iff.
  destruct H as [->|H].
  - right. apply contains_empty.
  - left. unfold variant_prefix. rewrite H. apply startswith_empty.
Qed.

(** Two unrelated rows: with no description to compare, the second is
    listed as a variant of the first. *)
Definition unrelated_rows : PriceData :=
  mkPriceData
    [("D1", [mkMasterRow "0558001" "CONTACT TIP HD 035" "EA" None None ""
                         (Some 2) None "master.xlsx";
             mkMasterRow "W7004312" "REGULATOR ARGON" "EA" None None ""
                         (Some 90) (Some 80) "master.xlsx"])]
    [] [].

Lemma find_variants_without_description_witness :
  find_variants "0558001" "" "D1" unrelated_rows
  = [mkVariant "W7004312" "REGULATOR ARGON" "EA" None (Some 80)].
Proof.
  rewrite (find_variants_without_description "0558001" "" "D1" unrelated_rows)
    by (left; reflexivity).
  reflexivity.
Defined.

End PricingMore.

(* ===================================================================== *)
(** * Precedence of the layers *)
(* ===================================================================== *)

Module PrecedenceFacts.
Import PyStr PyList PyNum Pricing SortFacts NumFacts PricingFacts PricingMore.

Open Scope Q_scope.

(** The rank of a source as the specification numbers the layers: Location
    Special 1, End User 2, Master Tier 3, Master List 4.  Any other text has
    no rank, written 0. *)
Definition layer_rank (source : string) : nat :=
  if String.eqb source "Location Special" then 1
  else if String.eqb source "End User" then 2
  else if String.eqb source "Master Tier" then 3
  else if String.eqb source "Master List" then 4
  else 0.

(** The sort key of an entry of a result is the rank of its layer. *)
Lemma rank_is_layer_rank (pn dk : string) (pd : PriceData)
      (eu loc : option string) (e : PriceEntry) :
  In e (all_prices (get_pricing pn dk pd eu loc)) ->
  rank e = layer_rank (source e)
  /\ (1 <= layer_rank (source e) <= 4)%nat.
Proof.
  intros Hin.
  destruct (entry_source pn dk pd eu loc e Hin) as [Hs|[Hs|[Hs|Hs]]].
  - rewrite (proj1 (rank_of_source e) Hs), Hs.
    change (layer_rank "Location Special") with 1%nat. lia.
  - rewrite (proj1 (proj2 (rank_of_source e)) Hs), Hs.
    change (layer_rank "End User") with 2%nat. lia.
  - rewrite (proj1 (proj2 (proj2 (rank_of_source e))) Hs), Hs.
    change (layer_rank "Master Tier") with 3%nat. lia.
  - rewrite (proj2 (proj2 (proj2 (rank_of_source e))) Hs), Hs.
    change (layer_rank "Master List") with 4%nat. lia.
Qed.

(** One master row with list price 10, and a location row for the same part
    at 12: the more specific layer costs more. *)
Definition dear_branch : PriceData :=
  mkPriceData
    [("D1", [mkMasterRow "P1" "WELD 70S 6 045X44F" "LB" None None ""
                         (Some 10) None "master.xlsx"])]
    []
    [("D1", [mkSpecialRow "P1" "WELD 70S 6 045X44F" "LB" (Some 12) 0 0
                          "Acme" "" "Tulsa" "OK" "branch.xlsx"])].

(** C2.  When the result of [get_pricing] has an entry, it has a best entry,
    the first of the list.  Every entry belongs to one of the four layers;
    with the layers ranked Location Special 1, End User 2, Master Tier 3,
    Master List 4, the rank of the best entry's source is at most the rank
    of every entry's source, and among the entries of its layer its total is
    the least.  On the specification's example, without filters, the best
    entry is the End User price 8.50 and the list reads End User 8.50,
    Master Tier 9, Master List 10; and a Location Special at 12 comes
    before a Master List price of 10. *)
Theorem best_price_has_precedence :
  (forall (pn dk : string) (pd : PriceData) (eu loc : option string),
      all_prices (get_pricing pn dk pd eu loc) <> [] ->
      exists b,
        best_price (get_pricing pn dk pd eu loc) = Some b
        /\ hd_error (all_prices (get_pricing pn dk pd eu loc)) = Some b
        /\ forall e, In e (all_prices (get_pricing pn dk pd eu loc)) ->
                     (1 <= layer_rank (source e) <= 4)%nat
                     /\ (layer_rank (source b) <= layer_rank (source e))%nat
                     /\ (layer_rank (source e) = layer_rank (source b) ->
                         total b <= total e))
  /\ map (fun e => (source e, price e, Qred (total e)))
         (all_prices (get_pricing "P1" "D1" acme_prices None None))
     = [("End User", 17 # 2, 17 # 2); ("Master Tier", 9, 9);
        ("Master List", 10, 10)]
  /\ option_map (fun e => (source e, price e, context e))
                (best_price (get_pricing "P1" "D1" acme_prices None None))
     = Some ("End User", 17 # 2, "Acme")
  /\ map (fun e => (source e, Qred (total e)))
         (all_prices (get_pricing "P1" "D1" dear_branch None None))
     = [("Location Special", 12); ("Master List", 10)].
Proof.
  split; [|repeat split; vm_compute; reflexivity].
  intros pn dk pd eu loc Hne.
  pose proof (rank_is_layer_rank pn dk pd eu loc) as Hrank.
  destruct (get_pricing_prices pn dk pd eu loc) as [Hall Hbest].
  rewrite Hall in *. rewrite Hbest.
  pose proof (sorted_prices_StronglySorted
                (all_prices (collect pn dk pd eu loc))) as Hs.
  destruct (sorted key_lt (all_prices (collect pn dk pd eu loc)))
    as [|b rest]; [congruence|].
  exists b. split; [reflexivity|]. split; [reflexivity|].
  destruct (Hrank b (or_introl eq_refl)) as [Hb _].
  intros e He. destruct (Hrank e He) as [Hre Hrange].
  split; [exact Hrange|]. rewrite <- Hb, <- Hre.
  destruct He as [He|He].
  - subst e. split; [lia|]. intros _. apply Qle_refl.
  - inversion Hs as [|? ? _ Hfa]; subst.
    rewrite Forall_forall in Hfa.
    apply key_ordered_iff, Hfa, He.
Qed.

Lemma best_price_has_precedence_witness :
  exists b,
    best_price (get_pricing "P1" "D1" dear_branch None None) = Some b
    /\ hd_error (all_prices (get_pricing "P1" "D1" dear_branch None None))
       = Some b
    /\ forall e,
         In e (all_prices (get_pricing "P1" "D1" dear_branch None None)) ->
         (1 <= layer_rank (source e) <= 4)%nat
         /\ (layer_rank (source b) <= layer_rank (source e))%nat
         /\ (layer_rank (source e) = layer_rank (source b) ->
             total b <= total e).
Proof.
  apply (proj1 best_price_has_precedence "P1" "D1" dear_branch None None).
  vm_compute. discriminate.
Defined.



End PrecedenceFacts.

(* ===================================================================== *)
(** * The names offered for the filters, and what selecting one does *)
(* ===================================================================== *)

Module LoaderFacts.
Import PyStr PyList PyNum Pricing Loader SortFacts NumFacts PricingFacts
       EnrichmentMore PricingMore.

Open Scope Q_scope.

Lemma sorted_set_In (x : string) (l : list string) :
  In x (sorted_set l) <-> In x l.
Proof.
  unfold sorted_set. rewrite <- (nodup_In string_dec l x). split; intros H.
  - apply (Permutation_in _ (Permutation_sym (sorted_perm String.ltb _))), H.
  - apply (Permutation_in _ (sorted_perm String.ltb _)), H.
Qed.

(** The loader composes a location label as the resolver composes the
    context of a location row. *)
Lemma location_label_is_context (row : SpecialRow) :
  location_label row = location_context row.
Proof.
  unfold location_label, location_context, present. cbv zeta.
  destruct (String.eqb (strip (s_customer_name row)) "");
    destruct (String.eqb (strip (s_customer_name row)) "nan");
    destruct (String.eqb (strip (s_city row)) "");
    destruct (String.eqb (strip (s_city row)) "nan");
    destruct (String.eqb (strip (s_state row)) "");
    destruct (String.eqb (strip (s_state row)) "nan"); reflexivity.
Qed.

Lemma location_label_offered (data : PriceData) (dk : string)
      (row : SpecialRow) :
  In row (frame_get dk (location data)) ->
  location_label row <> "" ->
  In (location_label row) (get_location_names data dk).
Proof.
  intros Hrow Hne. unfold get_location_names. cbv zeta.
  destruct (frame_get dk (location data)) as [|r0 rs] eqn:Ef;
    [destruct Hrow|].
  rewrite sorted_set_In, filter_In, in_map_iff. split.
  - exists row. split; [reflexivity|exact Hrow].
  - apply negb_true_iff. apply String.eqb_neq, Hne.
Qed.

(** The location names offered for a distributor are exactly the non-empty
    labels of its location rows. *)
Theorem location_names_are_row_labels (data : PriceData) (dk label : string) :
  In label (get_location_names data dk)
  <-> label <> ""
      /\ exists row, In row (frame_get dk (location data))
                     /\ location_label row = label.
Proof.
  unfold get_location_names. cbv zeta.
  destruct (frame_get dk (location data)) as [|r0 rs] eqn:Ef.
  - split; [intros []|]. intros [_ [row [[] _]]].
  - rewrite sorted_set_In, filter_In, in_map_iff. split.
    + intros [[row [Hl Hrow]] Hne]. split.
      * apply negb_true_iff in Hne. apply String.eqb_neq, Hne.
      * exists row. split; assumption.
    + intros [Hne [row [Hrow Hl]]]. split.
      * exists row. split; assumption.
      * apply negb_true_iff. apply String.eqb_neq, Hne.
Qed.

Lemma selected_nonempty (s : string) : s <> "" -> selected (Some s) = Some s.
Proof.
  intros H. simpl. apply String.eqb_neq in H. rewrite H. reflexivity.
Qed.

(** Selecting the label of a location row keeps the row: when the row is a
    row of the part with a positive price, its price is among the entries,
    as a Location Special under that label, and the best price is a
    Location Special. *)
Theorem selecting_a_location_label_keeps_its_row
        (pn dk : string) (pd : PriceData) (eu : option string)
        (row : SpecialRow) (p : Q) :
  In row (frame_get dk (location pd)) ->
  location_label row <> "" ->
  s_part_number row = strip pn ->
  s_price row = Some p ->
  0 < p ->
  In (location_label row) (get_location_names pd dk)
  /\ In (PriceEntry_new p "Location Special"
                       (s_alloy_surcharge row + s_tariff_surcharge row)
                       (location_label row) (s_source_file row))
       (all_prices (get_pricing pn dk pd eu (Some (location_label row))))
  /\ exists b,
      best_price (get_pricing pn dk pd eu (Some (location_label row)))
      = Some b
      /\ source b = "Location Special".
Proof.
  intros Hrow Hne Hpn Hprice Hp.
  set (sel := Some (location_label row)).
  assert (Hin : In (PriceEntry_new p "Location Special"
                      (s_alloy_surcharge row + s_tariff_surcharge row)
                      (location_label row) (s_source_file row))
                   (all_prices (get_pricing pn dk pd eu sel))).
  { apply get_pricing_In. right; right. apply in_flat_map. exists row. split.
    - apply filter_In. split; [exact Hrow|]. apply String.eqb_eq, Hpn.
    - unfold location_entries, location_kept, sel.
      rewrite (selected_nonempty _ Hne), <- location_label_is_context.
      rewrite String.eqb_refl. unfold special_entries.
      rewrite Hprice, (positive_of_lt p Hp). left. reflexivity. }
  split.
  { apply location_label_offered; assumption. }
  split; [exact Hin|].
  destruct (best_price (get_pricing pn dk pd eu sel)) as [b|] eqn:Eb.
  - exists b. split; [reflexivity|].
    destruct (best_price_least_rank pn dk pd eu sel b Eb) as [Hb Hleast].
    specialize (Hleast _ Hin).
    change (rank (PriceEntry_new p "Location Special"
                    (s_alloy_surcharge row + s_tariff_surcharge row)
                    (location_label row) (s_source_file row)))
      with 1%nat in Hleast.
    destruct (entry_source pn dk pd eu sel b Hb) as [Hs|[Hs|[Hs|Hs]]];
      [exact Hs
      |rewrite (proj1 (proj2 (rank_of_source b)) Hs) in Hleast; lia
      |rewrite (proj1 (proj2 (proj2 (rank_of_source b))) Hs) in Hleast; lia
      |rewrite (proj2 (proj2 (proj2 (rank_of_source b))) Hs) in Hleast; lia].
  - exfalso.
    rewrite (proj2 (get_pricing_prices pn dk pd eu sel)) in Eb.
    rewrite (proj1 (get_pricing_prices pn dk pd eu sel)) in Hin.
    destruct (sorted key_lt (all_prices (collect pn dk pd eu sel)));
      [destruct Hin|discriminate Eb].
Qed.

Definition branch_row : SpecialRow :=
  mkSpecialRow "P1" "WELD 70S 6 045X44F" "LB" (Some 8) 0 (1 # 2)
               "Acme" "" "Tulsa" "OK" "branch.xlsx".

Definition branch_prices : PriceData :=
  mkPriceData
    [("D1", [mkMasterRow "P1" "WELD 70S 6 045X44F" "LB" None None ""
                         (Some 10) (Some 9) "master.xlsx"])]
    [("D1", [mkSpecialRow "P1" "WELD 70S 6 045X44F" "LB" (Some (17 # 2)) 0 0
                          "Acme" "Acme Fab" "" "" "special.xlsx"])]
    [("D1", [branch_row;
             mkSpecialRow "P1" "WELD 70S 6 045X44F" "LB" (Some 7) 0 0
                          "Acme" "" "Dallas" "nan" "branch.xlsx"])].

Lemma selecting_a_location_label_keeps_its_row_witness :
  location_label branch_row = "Acme -- Tulsa, OK"
  /\ In "Acme -- Tulsa, OK" (get_location_names branch_prices "D1")
  /\ In (PriceEntry_new 8 "Location Special" (0 + (1 # 2))
                        "Acme -- Tulsa, OK" "branch.xlsx")
        (all_prices (get_pricing "P1" "D1" branch_prices None
                                 (Some "Acme -- Tulsa, OK")))
  /\ exists b,
      best_price (get_pricing "P1" "D1" branch_prices None
                              (Some "Acme -- Tulsa, OK")) = Some b
      /\ source b = "Location Special".
Proof.
  assert (Hl : location_label branch_row = "Acme -- Tulsa, OK")
    by (vm_compute; reflexivity).
  split; [exact Hl|]. rewrite <- Hl.
  apply (selecting_a_location_label_keeps_its_row
           "P1" "D1" branch_prices None branch_row 8).
  - vm_compute. left. reflexivity.
  - vm_compute. discriminate.
  - reflexivity.
  - reflexivity.
  - reflexivity.
Defined.

(** ** End-user names *)

Lemma column_names_In (col : SpecialRow -> string) (df : list SpecialRow)
      (n : string) :
  In n (column_names col df)
  <-> (n <> "" /\ n <> "nan") /\ exists row, In row df /\ strip (col row) = n.
Proof.
  unfold column_names. rewrite filter_In, in_map_iff, andb_true_iff.
  rewrite !negb_true_iff, !String.eqb_neq. split.
  - intros [[row [Hs Hrow]] Hn]. split; [exact Hn|].
    exists row. split; assumption.
  - intros [Hn [row [Hrow Hs]]]. split; [|exact Hn].
    exists row. split; assumption.
Qed.

Lemma end_user_name_offered (data : PriceData) (dk n : string)
      (row : SpecialRow) :
  In row (frame_get dk (end_user data)) ->
  strip (s_end_user_name row) = n \/ strip (s_customer_name row) = n ->
  n <> "" ->
  n <> "nan" ->
  In n (get_end_user_names data dk).
Proof.
  intros Hrow Hname Hne Hnan. unfold get_end_user_names. cbv zeta.
  destruct (frame_get dk (end_user data)) as [|r0 rs] eqn:Ef;
    [destruct Hrow|].
  rewrite sorted_set_In, in_app_iff, !column_names_In.
  destruct Hname as [Hs|Hs]; [left|right];
    (split; [split; assumption|]); exists row; split; assumption.
Qed.

(** The end-user names offered for a distributor are exactly the stripped
    end-user names and customer names of its end-user rows, the empty name
    and the name nan left out. *)
Theorem end_user_names_are_row_names (data : PriceData) (dk n : string) :
  In n (get_end_user_names data dk)
  <-> (n <> "" /\ n <> "nan")
      /\ exists row, In row (frame_get dk (end_user data))
                     /\ (strip (s_end_user_name row) = n
                         \/ strip (s_customer_name row) = n).
Proof.
  unfold get_end_user_names. cbv zeta.
  destruct (frame_get dk (end_user data)) as [|r0 rs] eqn:Ef.
  - split; [intros []|]. intros [_ [row [[] _]]].
  - rewrite sorted_set_In, in_app_iff, !column_names_In. split.
    + intros [[Hn [row [Hrow Hs]]]|[Hn [row [Hrow Hs]]]];
        (split; [exact Hn|]); exists row; (split; [exact Hrow|]);
        [left|right]; exact Hs.
    + intros [Hn [row [Hrow [Hs|Hs]]]]; [left|right];
        (split; [exact Hn|]); exists row; split; assumption.
Qed.

(** Selecting a name that an end-user row carries, as its end-user name or
    as its customer name, keeps the row: the name is among the names
    offered, and when the row is a row of the part with a positive price,
    its price is among the entries as an End User price.  The context of
    the entry is the context of the row, which is the end-user name of the
    row when it has one, also when the name selected is its customer
    name. *)
Theorem selecting_an_end_user_name_keeps_its_rows
        (pn dk : string) (pd : PriceData) (loc : option string)
        (row : SpecialRow) (n : string) (p : Q) :
  In row (frame_get dk (end_user pd)) ->
  strip (s_end_user_name row) = n \/ strip (s_customer_name row) = n ->
  n <> "" ->
  n <> "nan" ->
  s_part_number row = strip pn ->
  s_price row = Some p ->
  0 < p ->
  In n (get_end_user_names pd dk)
  /\ In (PriceEntry_new p "End User"
                       (s_alloy_surcharge row + s_tariff_surcharge row)
                       (end_user_context row) (s_source_file row))
       (all_prices (get_pricing pn dk pd (Some n) loc)).
Proof.
  intros Hrow Hname Hne Hnan Hpn Hprice Hp. split.
  - apply (end_user_name_offered pd dk n row); assumption.
  - apply get_pricing_In. right; left. apply in_flat_map. exists row. split.
    + apply filter_In. split; [exact Hrow|]. apply String.eqb_eq, Hpn.
    + unfold end_user_entries, end_user_kept.
      rewrite (selected_nonempty _ Hne).
      replace (negb (negb (String.eqb (end_user_context row) n)
                     && negb (String.eqb (strip (s_end_user_name row)) n)
                     && negb (String.eqb (strip (s_customer_name row)) n)))
        with true.
      * unfold special_entries. rewrite Hprice, (positive_of_lt p Hp).
        left. reflexivity.
      * destruct Hname as [<-|<-]; rewrite String.eqb_refl;
          rewrite ?andb_false_r; reflexivity.
Qed.

Lemma selecting_an_end_user_name_keeps_its_rows_witness :
  In "Acme" (get_end_user_names branch_prices "D1")
  /\ In (PriceEntry_new (17 # 2) "End User" (0 + 0) "Acme Fab" "special.xlsx")
        (all_prices (get_pricing "P1" "D1" branch_prices (Some "Acme") None)).
Proof.
  apply (selecting_an_end_user_name_keeps_its_rows
           "P1" "D1" branch_prices None
           (mkSpecialRow "P1" "WELD 70S 6 045X44F" "LB" (Some (17 # 2)) 0 0
                         "Acme" "Acme Fab" "" "" "special.xlsx")
           "Acme" (17 # 2)).
  - vm_compute. left. reflexivity.
  - right. reflexivity.
  - discriminate.
  - discriminate.
  - reflexivity.
  - reflexivity.
  - reflexivity.
Defined.

(** ** Distributor keys *)

(** The distributor keys are the keys of the three price tables, each one
    once. *)
Theorem distributor_keys_are_table_keys (data : PriceData) :
  NoDup (distributor_keys data)
  /\ forall dk, In dk (distributor_keys data)
                <-> In dk (keys (master data))
                    \/ In dk (keys (end_user data))
                    \/ In dk (keys (location data)).
Proof.
  unfold distributor_keys, sorted_set. split.
  - apply (Permutation_NoDup (sorted_perm String.ltb _)), NoDup_nodup.
  - intros dk. fold (sorted_set (keys (master data) ++ keys (end_user data)
                                 ++ keys (location data))%list).
    rewrite sorted_set_In, !in_app_iff. tauto.
Qed.

(** ** File classification *)

Lemma lower_char_not_upper (a : ascii) : is_upper (lower_char a) = false.
Proof.
  destruct a as [[] [] [] [] [] [] [] []]; reflexivity.
Qed.

Lemma lower_has_no_upper (c : ascii) (s : string) :
  has_char c (lower s) = true -> is_upper c = false.
Proof.
  induction s as [|a s IH]; simpl; [discriminate|].
  intros H. apply orb_true_iff in H. destruct H as [H|H]; [|apply IH, H].
  apply Ascii.eqb_eq in H. subst c. apply lower_char_not_upper.
Qed.

Lemma keyword_hit_In (lower_name : string) (keywords : list string) :
  keyword_hit lower_name keywords = true
  <-> exists kw, In kw keywords /\ contains lower_name kw = true.
Proof.
  unfold keyword_hit. apply existsb_exists.
Qed.

Lemma distributor_loop_sound (lower_name : string)
      (items : list (string * DistributorCfg)) (dk : string) :
  distributor_loop lower_name items = Found (Some dk) ->
  exists cfg kws,
    In (dk, cfg) items /\ d_filename_keywords cfg = Some kws
    /\ keyword_hit lower_name kws = true.
Proof.
  induction items as [|[k cfg] rest IH]; simpl; [discriminate|].
  destruct (d_filename_keywords cfg) as [kws|] eqn:Ek; [|discriminate].
  destruct (keyword_hit lower_name kws) eqn:Eh.
  - intros H. injection H as <-. exists cfg, kws.
    split; [left; reflexivity|]. split; assumption.
  - intros H. destruct (IH H) as [cfg' [kws' [Hin Hrest]]].
    exists cfg', kws'. split; [right; exact Hin|exact Hrest].
Qed.

(** A distributor key that [_classify_distributor] returns is a key of the
    rules with a keyword that occurs in the file name in lower case; such a
    keyword has no upper-case letter, so a keyword written with one never
    classifies a file. *)
Theorem classify_distributor_by_lowercase_keyword
        (filename : string) (rules : Rules) (dk : string) :
  _classify_distributor filename rules = Found (Some dk) ->
  exists items cfg kws kw,
    r_distributors rules = Some items
    /\ In (dk, cfg) items
    /\ d_filename_keywords cfg = Some kws
    /\ In kw kws
    /\ contains (lower filename) kw = true
    /\ forall c, has_char c kw = true -> is_upper c = false.
Proof.
  unfold _classify_distributor. cbv zeta.
  destruct (r_distributors rules) as [items|]; [|discriminate].
  intros H. destruct (distributor_loop_sound _ _ _ H) as [cfg [kws [Hin [Hk Hh]]]].
  apply keyword_hit_In in Hh. destruct Hh as [kw [Hkw Hc]].
  exists items, cfg, kws, kw. repeat (split; [assumption || reflexivity|]).
  intros c Hc'. apply (lower_has_no_upper c filename).
  apply (contains_has_char c _ kw Hc Hc').
Qed.

Definition sample_rules : Rules :=
  mkRules
    (Some [("airgas", mkDistributorCfg (Some ["AIRGAS"; "airgas"]) (Some []));
           ("linde", mkDistributorCfg (Some ["linde"; "praxair"]) None)])
    (Some [("master", mkListTypeCfg (Some ["master"; "list"]));
           ("end_user", mkListTypeCfg (Some ["end user"; "eu"]));
           ("location", mkListTypeCfg (Some ["location"; "branch"]))]).

Lemma classify_distributor_by_lowercase_keyword_witness :
  _classify_distributor "Linde Master List.xlsx" sample_rules
  = Found (Some "linde")
  /\ exists items cfg kws kw,
      r_distributors sample_rules = Some items
      /\ In ("linde", cfg) items
      /\ d_filename_keywords cfg = Some kws
      /\ In kw kws
      /\ contains (lower "Linde Master List.xlsx") kw = true
      /\ forall c, has_char c kw = true -> is_upper c = false.
Proof.
  split; [reflexivity|].
  apply (classify_distributor_by_lowercase_keyword
           "Linde Master List.xlsx" sample_rules "linde").
  reflexivity.
Defined.

(** A keyword of a list type occurs in the file name in lower case. *)
Definition hits (filename : string) (rules : Rules) (lt : string) : bool :=
  match r_list_types rules with
  | Some list_types =>
      match dict_get lt list_types with
      | Some lt_cfg =>
          match lt_filename_keywords lt_cfg with
          | Some keywords => keyword_hit (lower filename) keywords
          | None => false
          end
      | None => false
      end
  | None => false
  end.

(** The list type that [_classify_list_type] returns has a keyword in the
    file name, and no list type of higher priority has one: location comes
    before end_user, end_user before master. *)
Theorem classify_list_type_by_priority
        (filename : string) (rules : Rules) (lt : string) :
  _classify_list_type filename rules = Found (Some lt) ->
  hits filename rules lt = true
  /\ (lt = "location"
      \/ (lt = "end_user" /\ hits filename rules "location" = false)
      \/ (lt = "master" /\ hits filename rules "location" = false
          /\ hits filename rules "end_user" = false)).
Proof.
  unfold _classify_list_type, hits. cbv zeta. simpl.
  destruct (r_list_types rules) as [lts|]; [|discriminate].
  destruct (dict_get "location" lts) as [c1|] eqn:D1; [|discriminate].
  destruct (lt_filename_keywords c1) as [k1|] eqn:K1; [|discriminate].
  destruct (keyword_hit (lower filename) k1) eqn:E1.
  { intros H. injection H as <-. rewrite D1, K1, E1.
    split; [reflexivity|]. left. reflexivity. }
  destruct (dict_get "end_user" lts) as [c2|] eqn:D2; [|discriminate].
  destruct (lt_filename_keywords c2) as [k2|] eqn:K2; [|discriminate].
  destruct (keyword_hit (lower filename) k2) eqn:E2.
  { intros H. injection H as <-. rewrite D2, K2, E2.
    split; [reflexivity|]. right. left. split; reflexivity. }
  destruct (dict_get "master" lts) as [c3|] eqn:D3; [|discriminate].
  destruct (lt_filename_keywords c3) as [k3|] eqn:K3; [|discriminate].
  destruct (keyword_hit (lower filename) k3) eqn:E3; [|discriminate].
  intros H. injection H as <-. rewrite D3, K3, E3.
  split; [reflexivity|]. right. right. repeat split; reflexivity.
Qed.

Lemma classify_list_type_by_priority_witness :
  _classify_list_type "Linde Branch Master List.xlsx" sample_rules
  = Found (Some "location")
  /\ hits "Linde Branch Master List.xlsx" sample_rules "master" = true
  /\ hits "Linde Branch Master List.xlsx" sample_rules "location" = true.
Proof.
  split; [reflexivity|]. split; [reflexivity|].
  apply (classify_list_type_by_priority
           "Linde Branch Master List.xlsx" sample_rules "location").
  reflexivity.
Defined.

(** ** Column mapping *)

Lemma dict_set_In {V : Type} (k k' : string) (v v' : V) (d : dict V) :
  In (k, v) (dict_set k' v' d) -> (k = k' /\ v = v') \/ In (k, v) d.
Proof.
  induction d as [|[k0 v0] d IH]; simpl.
  - intros [H|[]]. inversion H. left. split; reflexivity.
  - destruct (String.eqb k' k0).
    + intros [H|H]; [inversion H; left; split; reflexivity|right; right; exact H].
    + intros [H|H]; [right; left; exact H|].
      destruct (IH H) as [Heq|Hin]; [left; exact Heq|right; right; exact Hin].
Qed.

Lemma dict_of_items_In {V : Type} (items : list (string * V))
      (k : string) (v : V) :
  In (k, v) (dict_of_items items) -> In (k, v) items.
Proof.
  unfold dict_of_items.
  assert (H : forall d, In (k, v) (fold_left (fun d '(k, v) => dict_set k v d)
                                             items d) ->
                        In (k, v) items \/ In (k, v) d).
  { induction items as [|[k0 v0] items IH]; intros d; simpl;
      [intros H; right; exact H|].
    intros H. destruct (IH _ H) as [Hin|Hin]; [left; right; exact Hin|].
    destruct (dict_set_In _ _ _ _ _ Hin) as [[-> ->]|Hd];
      [left; left; reflexivity|right; exact Hd]. }
  intros Hin. destruct (H [] Hin) as [Hi|[]]. exact Hi.
Qed.

Lemma dict_get_In {V : Type} (k : string) (v : V) (d : dict V) :
  dict_get k d = Some v -> In (k, v) d.
Proof.
  induction d as [|[k0 v0] d IH]; simpl; [discriminate|].
  destruct (String.eqb k k0) eqn:E.
  - apply String.eqb_eq in E. subst k0. intros H. inversion H.
    left. reflexivity.
  - intros H. right. apply IH, H.
Qed.

Lemma dict_get_set {V : Type} (f k : string) (v : V) (d : dict V) :
  dict_get f (dict_set k v d)
  = if String.eqb f k then Some v else dict_get f d.
Proof.
  induction d as [|[k0 v0] d IH]; simpl.
  - destruct (String.eqb f k); reflexivity.
  - destruct (String.eqb k k0) eqn:E; simpl.
    + apply String.eqb_eq in E. subst k0.
      destruct (String.eqb f k); reflexivity.
    + destruct (String.eqb f k0) eqn:E0.
      * apply String.eqb_eq in E0. subst k0.
        rewrite String.eqb_sym, E. reflexivity.
      * exact IH.
Qed.

Lemma keys_dict_set {V : Type} (k x : string) (v : V) (d : dict V) :
  In x (keys (dict_set k v d)) <-> x = k \/ In x (keys d).
Proof.
  unfold keys. induction d as [|[k0 v0] d IH]; simpl.
  - split; [intros [H|[]]; left; symmetry; exact H|].
    intros [H|[]]. left. symmetry. exact H.
  - destruct (String.eqb k k0) eqn:E; simpl.
    + apply String.eqb_eq in E. subst k0. split.
      * intros [H|H]; [left; symmetry; exact H|right; right; exact H].
      * intros [H|[H|H]]; [left; symmetry; exact H|left; exact H
                          |right; exact H].
    + rewrite IH. split.
      * intros [H|[H|H]]; [right; left; exact H|left; exact H
                          |right; right; exact H].
      * intros [H|[H|H]]; [right; left; exact H|left; exact H
                          |right; right; exact H].
Qed.

Lemma dict_of_items_keys {V : Type} (items : list (string * V)) (k : string) :
  In k (map fst items) -> In k (keys (dict_of_items items)).
Proof.
  unfold dict_of_items.
  assert (H : forall d, In k (map fst items) \/ In k (keys d) ->
                        In k (keys (fold_left
                                      (fun d '(k, v) => dict_set k v d)
                                      items d))).
  { induction items as [|[k0 v0] items IH]; intros d; simpl.
    - intros [[]|H]. exact H.
    - intros H. apply IH. rewrite keys_dict_set.
      destruct H as [[H|H]|H];
        [right; left; symmetry; exact H|left; exact H|right; right; exact H]. }
  intros Hin. apply H. left. exact Hin.
Qed.

Lemma cols_lower_item (columns : list string) (k c : string) :
  In (k, c) (df_cols_lower columns) -> In c columns /\ k = lower (strip c).
Proof.
  intros H. apply dict_of_items_In, in_map_iff in H.
  destruct H as [c' [Heq Hin]]. inversion Heq. subst. split; [exact Hin|].
  reflexivity.
Qed.

Lemma first_found_In {A B : Type} (f : A -> option B) (xs : list A) (b : B) :
  first_found f xs = Some b -> exists x, In x xs /\ f x = Some b.
Proof.
  induction xs as [|x xs IH]; simpl; [discriminate|].
  destruct (f x) as [b'|] eqn:E.
  - intros H. inversion H. subst b'. exists x. split; [left; reflexivity|].
    exact E.
  - intros H. destruct (IH H) as [y [Hy Hf]]. exists y.
    split; [right; exact Hy|exact Hf].
Qed.

Lemma first_found_some {A B : Type} (f : A -> option B) (xs : list A)
      (x : A) (b : B) :
  In x xs -> f x = Some b -> exists b', first_found f xs = Some b'.
Proof.
  induction xs as [|y xs IH]; simpl; [intros []|].
  intros [->|Hin] Hf.
  - rewrite Hf. exists b. reflexivity.
  - destruct (f y) as [b'|]; [exists b'; reflexivity|]. apply IH; assumption.
Qed.

(** A field is mapped on account of one of its candidates. *)
Definition by_exact (cands : Candidates) (col : string) : Prop :=
  exists cand, In cand (c_exact cands)
               /\ lower (strip col) = lower (strip cand).

Definition by_contains (cands : Candidates) (col : string) : Prop :=
  exists cand, In cand (c_contains cands)
               /\ contains (lower (strip col)) (lower (strip cand)) = true.

Lemma exact_pass_sound (columns : list string) (cands : Candidates)
      (col : string) :
  exact_pass (df_cols_lower columns) (c_exact cands) = Some col ->
  In col columns /\ by_exact cands col.
Proof.
  unfold exact_pass. intros H. apply first_found_In in H.
  destruct H as [cand [Hin Hget]]. apply dict_get_In, cols_lower_item in Hget.
  destruct Hget as [Hcol Hk]. split; [exact Hcol|].
  exists cand. split; [exact Hin|]. symmetry. exact Hk.
Qed.

Lemma contains_pass_sound (columns : list string) (result : dict string)
      (cands : Candidates) (col : string) :
  contains_pass (df_cols_lower columns) result (c_contains cands) = Some col ->
  In col columns /\ by_contains cands col /\ ~ In col (values result).
Proof.
  unfold contains_pass. intros H. apply first_found_In in H.
  destruct H as [cand [Hin Hfind]].
  destruct (find _ (df_cols_lower columns)) as [[k c]|] eqn:Ef;
    [|discriminate]. simpl in Hfind. inversion Hfind. subst c.
  apply find_some in Ef. destruct Ef as [Hitem Hcond]. simpl in Hcond.
  apply andb_true_iff in Hcond. destruct Hcond as [Hc Hfree].
  apply cols_lower_item in Hitem. destruct Hitem as [Hcol ->].
  split; [exact Hcol|]. split.
  - exists cand. split; [exact Hin|exact Hc].
  - apply negb_true_iff in Hfree. intros Hv.
    assert (Hm : mem col (values result) = true).
    { unfold mem. apply existsb_exists. exists col. split; [exact Hv|].
      apply String.eqb_refl. }
    congruence.
Qed.

(** Every column in the result of [_map_columns] is a column of the frame,
    mapped to a field of the mapping on account of one of the candidates of
    the field: its name, stripped and in lower case, is an exact candidate
    or contains a contains candidate, stripped and in lower case. *)
Theorem map_columns_sound
        (columns : list string) (mapping : dict Candidates)
        (field col : string) :
  dict_get field (_map_columns columns mapping) = Some col ->
  In col columns
  /\ exists cands, In (field, cands) mapping
                   /\ (by_exact cands col \/ by_contains cands col).
Proof.
  unfold _map_columns.
  assert (H : forall fields result,
             (forall x, In x fields -> In x mapping) ->
             (dict_get field result = Some col ->
              In col columns
              /\ exists cands, In (field, cands) mapping
                               /\ (by_exact cands col \/ by_contains cands col)) ->
             dict_get field (fold_left (map_field (df_cols_lower columns))
                                       fields result) = Some col ->
             In col columns
             /\ exists cands, In (field, cands) mapping
                              /\ (by_exact cands col \/ by_contains cands col)).
  { induction fields as [|[f cands] fields IH]; intros result Hsub Hinv;
      simpl; [exact Hinv|].
    apply IH; [intros x Hx; apply Hsub; right; exact Hx|].
    unfold map_field. simpl.
    destruct (exact_pass (df_cols_lower columns) (c_exact cands))
      as [c|] eqn:E1.
    - rewrite dict_get_set. destruct (String.eqb field f) eqn:Ef; [|exact Hinv].
      apply String.eqb_eq in Ef. subst f. intros Hc. inversion Hc. subst c.
      destruct (exact_pass_sound _ _ _ E1) as [Hcol Hex].
      split; [exact Hcol|]. exists cands.
      split; [apply Hsub; left; reflexivity|left; exact Hex].
    - destruct (contains_pass (df_cols_lower columns) result (c_contains cands))
        as [c|] eqn:E2; [|exact Hinv].
      rewrite dict_get_set. destruct (String.eqb field f) eqn:Ef; [|exact Hinv].
      apply String.eqb_eq in Ef. subst f. intros Hc. inversion Hc. subst c.
      destruct (contains_pass_sound _ _ _ _ E2) as [Hcol [Hco _]].
      split; [exact Hcol|]. exists cands.
      split; [apply Hsub; left; reflexivity|right; exact Hco]. }
  apply H; [intros x Hx; exact Hx|]. simpl. discriminate.
Qed.

Definition price_mapping : dict Candidates :=
  [("part_number", mkCandidates ["Material"; "Part Number"] ["part"]);
   ("list_price", mkCandidates ["List Price"] ["list"]);
   ("price", mkCandidates [] ["price"])].

Definition price_columns : list string :=
  [" Part number "; "LIST PRICE"; "Net Price"].

Lemma map_columns_sound_witness :
  _map_columns price_columns price_mapping
  = [("part_number", " Part number "); ("list_price", "LIST PRICE");
     ("price", "Net Price")]
  /\ In "Net Price" price_columns
  /\ exists cands, In ("price", cands) price_mapping
                   /\ (by_exact cands "Net Price"
                       \/ by_contains cands "Net Price").
Proof.
  split; [vm_compute; reflexivity|].
  apply (map_columns_sound price_columns price_mapping "price" "Net Price").
  vm_compute. reflexivity.
Defined.

Lemma fold_map_field_other (cols_lower : dict string)
      (fields : dict Candidates) (result : dict string) (field : string) :
  ~ In field (keys fields) ->
  dict_get field (fold_left (map_field cols_lower) fields result)
  = dict_get field result.
Proof.
  revert result. induction fields as [|[f cands] fields IH];
    intros result Hout; simpl; [reflexivity|].
  rewrite IH; [|intros Hin; apply Hout; right; exact Hin].
  assert (Hne : String.eqb field f = false).
  { apply String.eqb_neq. intros ->. apply Hout. left. reflexivity. }
  unfold map_field. simpl.
  destruct (exact_pass cols_lower (c_exact cands)).
  - rewrite dict_get_set, Hne. reflexivity.
  - destruct (contains_pass cols_lower result (c_contains cands));
      [rewrite dict_get_set, Hne|]; reflexivity.
Qed.

(** When an exact candidate of a field names a column of the frame, case
    and surrounding blanks apart, the field is mapped by pass 1: to a column
    that an exact candidate names, whatever its contains candidates are and
    whichever fields have that column already. *)
Theorem map_columns_exact_match_wins
        (columns : list string) (mapping : dict Candidates)
        (field : string) (cands : Candidates) (cand c : string) :
  NoDup (keys mapping) ->
  In (field, cands) mapping ->
  In cand (c_exact cands) ->
  In c columns ->
  lower (strip c) = lower (strip cand) ->
  exists col, dict_get field (_map_columns columns mapping) = Some col
              /\ In col columns /\ by_exact cands col.
Proof.
  intros Hnd Hfield Hcand Hc Hname.
  assert (Hpass : exists col, exact_pass (df_cols_lower columns)
                                         (c_exact cands) = Some col).
  { assert (Hk : In (lower (strip cand)) (keys (df_cols_lower columns))).
    { apply dict_of_items_keys. rewrite map_map. simpl. apply in_map_iff.
      exists c. split; assumption. }
    destruct (dict_get_of_key _ _ Hk) as [col Hget].
    apply (first_found_some _ _ cand col Hcand Hget). }
  destruct Hpass as [col Hpass]. exists col.
  destruct (exact_pass_sound _ _ _ Hpass) as [Hcol Hex].
  split; [|split; assumption].
  apply in_split in Hfield. destruct Hfield as [l1 [l2 ->]].
  unfold _map_columns. rewrite fold_left_app. simpl.
  rewrite fold_map_field_other.
  - unfold map_field at 1. simpl. rewrite Hpass, dict_get_set, String.eqb_refl.
    reflexivity.
  - unfold keys in Hnd. rewrite map_app in Hnd. simpl in Hnd.
    apply NoDup_remove_2 in Hnd. intros Hin. apply Hnd, in_app_iff.
    right. exact Hin.
Qed.

Lemma map_columns_exact_match_wins_witness :
  exists col,
    dict_get "list_price"
             (_map_columns ["Price"; " list price"]
                           [("price", mkCandidates [] ["price"]);
                            ("list_price", mkCandidates ["List Price"] [])])
    = Some col
    /\ In col ["Price"; " list price"]
    /\ by_exact (mkCandidates ["List Price"] []) col.
Proof.
  apply (map_columns_exact_match_wins
           ["Price"; " list price"]
           [("price", mkCandidates [] ["price"]);
            ("list_price", mkCandidates ["List Price"] [])]
           "list_price" (mkCandidates ["List Price"] [])
           "List Price" " list price").
  - repeat constructor; simpl; intuition discriminate.
  - right. left. reflexivity.
  - left. reflexivity.
  - right. left. reflexivity.
  - reflexivity.
Defined.

(** Two fields can be mapped to one column: pass 1 does not look at the
    columns taken, and pass 2, which does, can be followed by a pass 1. *)
Example map_columns_shared_column :
  _map_columns ["Price"]
               [("price", mkCandidates [] ["price"]);
                ("list_price", mkCandidates ["PRICE"] [])]
  = [("price", "Price"); ("list_price", "Price")].
Proof. vm_compute. reflexivity. Qed.

End LoaderFacts.

(* ===================================================================== *)
(** * The basket *)
(* ===================================================================== *)

Module AppFacts.
Import App.

Open Scope Z_scope.

(** The part numbers of the lines, in order. *)
Definition parts (basket : list Item) : list string :=
  map part_number basket.

(** What a line says apart from its quantity. *)
Definition details (item : Item)
  : string * string * string * Q * string * string :=
  (part_number item, description item, uom item, unit_price item,
   source item, source_file item).

(** The quantity the basket holds of one part. *)
Fixpoint qty_of (pn : string) (basket : list Item) : Z :=
  match basket with
  | [] => 0
  | item :: rest =>
      (if String.eqb (part_number item) pn then qty item else 0)
      + qty_of pn rest
  end.

Definition one_if (b : bool) : Z := if b then 1 else 0.

Lemma bump_first_absent (pn : string) (basket : list Item) :
  ~ In pn (parts basket) -> bump_first pn basket = None.
Proof.
  induction basket as [|item rest IH]; simpl; intros H; [reflexivity|].
  destruct (String.eqb (part_number item) pn) eqn:E.
  - apply String.eqb_eq in E. exfalso. apply H. left. exact E.
  - rewrite IH; [reflexivity|]. intros Hin. apply H. right. exact Hin.
Qed.

Lemma bump_first_Some (pn : string) (basket basket' : list Item) :
  bump_first pn basket = Some basket' ->
  In pn (parts basket)
  /\ map details basket' = map details basket
  /\ (forall pn', qty_of pn' basket'
                  = qty_of pn' basket + one_if (String.eqb pn pn'))
  /\ filter (fun i => negb (String.eqb (part_number i) pn)) basket'
     = filter (fun i => negb (String.eqb (part_number i) pn)) basket.
Proof.
  revert basket'. induction basket as [|item rest IH]; simpl; intros basket' H;
    [discriminate|].
  destruct (String.eqb (part_number item) pn) eqn:E.
  - injection H as <-. apply String.eqb_eq in E. split; [left; exact E|].
    split; [reflexivity|]. split.
    + intros pn'. simpl. rewrite E. destruct (String.eqb pn pn'); simpl; lia.
    + simpl. rewrite E, String.eqb_refl. reflexivity.
  - destruct (bump_first pn rest) as [rest'|]; [|discriminate].
    injection H as <-. destruct (IH rest' eq_refl) as [Hin [Hd [Hq Hf]]].
    split; [right; exact Hin|]. split; [simpl; rewrite Hd; reflexivity|].
    split.
    + intros pn'. simpl. rewrite Hq. lia.
    + simpl. rewrite E. simpl. rewrite Hf. reflexivity.
Qed.

Lemma parts_of_details (a b : list Item) :
  map details a = map details b -> parts a = parts b.
Proof.
  intros H. unfold parts.
  assert (Hp : forall l, map part_number l
                         = map (fun d => fst (fst (fst (fst (fst d)))))
                               (map details l)).
  { intros l. rewrite map_map. reflexivity. }
  rewrite (Hp a), (Hp b), H. reflexivity.
Qed.

Lemma qty_of_app (pn : string) (a b : list Item) :
  qty_of pn (a ++ b) = qty_of pn a + qty_of pn b.
Proof.
  induction a as [|item rest IH]; simpl; [reflexivity|]. rewrite IH. lia.
Qed.

Lemma remove_absent (pn : string) (basket : list Item) :
  ~ In pn (parts basket) -> _remove_from_basket basket pn = basket.
Proof.
  unfold _remove_from_basket.
  induction basket as [|item rest IH]; simpl; intros H; [reflexivity|].
  destruct (String.eqb (part_number item) pn) eqn:E.
  - apply String.eqb_eq in E. exfalso. apply H. left. exact E.
  - simpl. rewrite IH; [reflexivity|]. intros Hin. apply H. right. exact Hin.
Qed.

(** A basket with one line per part keeps one line per part when a part is
    added, and the part added is in it. *)
Theorem add_to_basket_one_line_per_part
        (basket : list Item) (pn desc um : string) (price : Q)
        (src src_file : string) :
  NoDup (parts basket) ->
  NoDup (parts (_add_to_basket basket pn desc um price src src_file))
  /\ In pn (parts (_add_to_basket basket pn desc um price src src_file)).
Proof.
  intros Hnd. unfold _add_to_basket.
  destruct (bump_first pn basket) as [basket'|] eqn:E.
  - destruct (bump_first_Some pn basket basket' E) as [Hin [Hd _]].
    rewrite (parts_of_details _ _ Hd). split; assumption.
  - assert (Hout : ~ In pn (parts basket)).
    { intros Hin. clear Hnd. induction basket as [|item rest IH];
        [destruct Hin|]. simpl in E.
      destruct (String.eqb (part_number item) pn) eqn:Ee; [discriminate|].
      apply String.eqb_neq in Ee. destruct Hin as [Hin|Hin]; [congruence|].
      destruct (bump_first pn rest); [discriminate|]. apply IH; auto. }
    unfold parts. rewrite map_app. simpl. split.
    + apply NoDup_app; [exact Hnd| |].
      * constructor; [intros []|constructor].
      * intros x Hx [<-|[]]. apply Hout, Hx.
    + apply in_app_iff. right. left. reflexivity.
Qed.

Lemma add_to_basket_one_line_per_part_witness :
  let basket := [mkItem "P1" "WIRE" "LB" 2 (17 # 2) "End User" "a.xlsx"] in
  NoDup (parts (_add_to_basket basket "P1" "WIRE" "LB" (17 # 2) "End User"
                               "a.xlsx"))
  /\ In "P1" (parts (_add_to_basket basket "P1" "WIRE" "LB" (17 # 2)
                                    "End User" "a.xlsx")).
Proof.
  apply (add_to_basket_one_line_per_part
           [mkItem "P1" "WIRE" "LB" 2 (17 # 2) "End User" "a.xlsx"]).
  constructor; [intros []|constructor].
Defined.

(** Adding a part raises the quantity the basket holds of it by one and
    leaves the quantity of every other part as it was. *)
Theorem add_to_basket_adds_one_unit
        (basket : list Item) (pn desc um : string) (price : Q)
        (src src_file pn' : string) :
  qty_of pn' (_add_to_basket basket pn desc um price src src_file)
  = qty_of pn' basket + one_if (String.eqb pn pn').
Proof.
  unfold _add_to_basket.
  destruct (bump_first pn basket) as [basket'|] eqn:E.
  - apply (bump_first_Some pn basket basket' E).
  - rewrite qty_of_app. simpl. destruct (String.eqb pn pn'); simpl; lia.
Qed.

(** When the part is in the basket already, adding it changes quantities
    only: the description, unit, price and source passed are dropped, and
    the lines keep theirs. *)
Theorem add_to_basket_existing_part_keeps_details
        (basket : list Item) (pn desc um : string) (price : Q)
        (src src_file : string) :
  In pn (parts basket) ->
  map details (_add_to_basket basket pn desc um price src src_file)
  = map details basket.
Proof.
  intros Hin. unfold _add_to_basket.
  destruct (bump_first pn basket) as [basket'|] eqn:E.
  - apply (bump_first_Some pn basket basket' E).
  - exfalso. induction basket as [|item rest IH]; [destruct Hin|].
    simpl in E.
    destruct (String.eqb (part_number item) pn) eqn:Ee; [discriminate|].
    apply String.eqb_neq in Ee. destruct Hin as [Hin|Hin]; [congruence|].
    destruct (bump_first pn rest); [discriminate|]. apply IH; auto.
Qed.

Lemma add_to_basket_existing_part_keeps_details_witness :
  map unit_price
      (_add_to_basket [mkItem "P1" "WIRE" "LB" 2 (17 # 2) "End User" "a.xlsx"]
                      "P1" "WIRE" "LB" 9 "Master Tier" "m.xlsx")
  = [17 # 2].
Proof.
  pose proof (add_to_basket_existing_part_keeps_details
                [mkItem "P1" "WIRE" "LB" 2 (17 # 2) "End User" "a.xlsx"]
                "P1" "WIRE" "LB" 9 "Master Tier" "m.xlsx"
                (or_introl eq_refl)) as H.
  apply (f_equal (map (fun d => snd (fst (fst d))))) in H.
  rewrite !map_map in H. exact H.
Defined.

(** Removing a part leaves no line of it and keeps every other line;
    removing a part just added gives what removing it from the basket
    before gives, which is the basket before when the part was not in it. *)
Theorem remove_from_basket_undoes_add
        (basket : list Item) (pn desc um : string) (price : Q)
        (src src_file : string) :
  ~ In pn (parts (_remove_from_basket basket pn))
  /\ (forall item, In item (_remove_from_basket basket pn)
                   <-> In item basket /\ part_number item <> pn)
  /\ _remove_from_basket
       (_add_to_basket basket pn desc um price src src_file) pn
     = _remove_from_basket basket pn
  /\ (~ In pn (parts basket) ->
      _remove_from_basket
        (_add_to_basket basket pn desc um price src src_file) pn
      = basket).
Proof.
  assert (Hmem : forall item, In item (_remove_from_basket basket pn)
                              <-> In item basket /\ part_number item <> pn).
  { intros item. unfold _remove_from_basket.
    rewrite filter_In, negb_true_iff, String.eqb_neq. reflexivity. }
  assert (Hadd : _remove_from_basket
                   (_add_to_basket basket pn desc um price src src_file) pn
                 = _remove_from_basket basket pn).
  { unfold _add_to_basket, _remove_from_basket.
    destruct (bump_first pn basket) as [basket'|] eqn:E.
    - apply (bump_first_Some pn basket basket' E).
    - rewrite filter_app. simpl. rewrite String.eqb_refl. simpl.
      apply app_nil_r. }
  split.
  - unfold parts. intros Hin. apply in_map_iff in Hin.
    destruct Hin as [item [Hpn Hin]]. apply Hmem in Hin. tauto.
  - split; [exact Hmem|]. split; [exact Hadd|].
    intros Hout. rewrite Hadd. apply remove_absent, Hout.
Qed.

End AppFacts.

(* ===================================================================== *)
(** * Hardgood categories that an earlier entry hides *)
(* ===================================================================== *)

Module HardgoodFacts.
Import PyStr PyList Enrichment.

Open Scope list_scope.

Lemma startswith_trans (d p p1 : string) :
  startswith d p = true -> startswith p p1 = true -> startswith d p1 = true.
Proof.
  revert d p. induction p1 as [|c p1 IH]; intros d p Hd Hp;
    [destruct d; reflexivity|].
  destruct p as [|b p]; [discriminate Hp|].
  destruct d as [|a d]; [discriminate Hd|].
  simpl in Hd, Hp |- *.
  apply andb_true_iff in Hd. destruct Hd as [Hab Hd].
  apply andb_true_iff in Hp. destruct Hp as [Hbc Hp].
  apply Ascii.eqb_eq in Hab. apply Ascii.eqb_eq in Hbc. subst b c.
  rewrite Ascii.eqb_refl. simpl. apply (IH d p Hd Hp).
Qed.

Lemma contains_nil (k : string) :
  contains "" k = startswith "" k.
Proof. unfold contains. apply orb_false_r. Qed.

Lemma contains_cons (a : ascii) (d k : string) :
  contains (String a d) k = startswith (String a d) k || contains d k.
Proof. reflexivity. Qed.

Lemma startswith_contains (d p : string) :
  startswith d p = true -> contains d p = true.
Proof.
  intros H. destruct d as [|a d].
  - rewrite contains_nil. exact H.
  - rewrite contains_cons, H. reflexivity.
Qed.

Lemma contains_tail (a : ascii) (d k : string) :
  contains d k = true -> contains (String a d) k = true.
Proof.
  intros H. rewrite contains_cons, H. apply orb_true_r.
Qed.

Lemma startswith_contains_trans (d p k : string) :
  startswith d p = true -> contains p k = true -> contains d k = true.
Proof.
  revert d. induction p as [|b p IH]; intros d Hd Hp.
  - rewrite contains_nil in Hp.
    apply startswith_contains, (startswith_trans d ""%string k Hd Hp).
  - rewrite contains_cons in Hp. apply orb_true_iff in Hp.
    destruct Hp as [Hp|Hp].
    + apply startswith_contains, (startswith_trans d (String b p) k Hd Hp).
    + destruct d as [|a d]; [discriminate Hd|].
      change (Ascii.eqb a b && startswith d p = true) in Hd.
      apply andb_true_iff in Hd. destruct Hd as [_ Hd].
      apply contains_tail, (IH d Hd Hp).
Qed.

Lemma contains_trans (d kw k : string) :
  contains d kw = true -> contains kw k = true -> contains d k = true.
Proof.
  intros Hd Hk. induction d as [|a d IH].
  - rewrite contains_nil in Hd.
    apply (startswith_contains_trans _ kw k Hd Hk).
  - rewrite contains_cons in Hd. apply orb_true_iff in Hd.
    destruct Hd as [Hd|Hd].
    + apply (startswith_contains_trans _ kw k Hd Hk).
    + apply contains_tail, IH, Hd.
Qed.

(** The categories of the keyword table that can be the first hit: those of
    an entry with a keyword that contains no keyword of an earlier entry. *)
Fixpoint live_keyword_categories (seen : list string)
         (table : list (list string * string)) : list string :=
  match table with
  | [] => []
  | (keywords, category) :: rest =>
      (if forallb (fun kw => existsb (fun k => contains kw k) seen) keywords
       then [] else [category])
      ++ live_keyword_categories (seen ++ keywords) rest
  end.

(** The categories of the prefix table that can be the result: those of a
    prefix that contains no keyword of the keyword table and starts with no
    earlier prefix. *)
Fixpoint live_prefix_categories (keywords seen : list string)
         (table : list (string * string)) : list string :=
  match table with
  | [] => []
  | (prefix, category) :: rest =>
      (if existsb (fun k => contains prefix k) keywords
          || existsb (fun p => startswith prefix p) seen
       then [] else [category])
      ++ live_prefix_categories keywords (seen ++ [prefix]) rest
  end.

Definition all_keywords (table : list (list string * string)) : list string :=
  concat (map fst table).

(** The categories of the two tables that are hidden. *)
Definition shadowed_categories : list string :=
  ["Welding Cable"; "Quick Connector"; "Front Cover Lens"; "Heat Shield";
   "Magnetic Torch Holder"; "Torch Body"; "Torch Adapter"; "Cable Assembly";
   "Slice Plasma Part"].

Lemma existsb_false_In {A : Type} (f : A -> bool) (l : list A) :
  existsb f l = false -> forall x, In x l -> f x = false.
Proof.
  intros H x Hx. destruct (f x) eqn:E; [|reflexivity].
  assert (Ht : existsb f l = true) by (apply existsb_exists; exists x; auto).
  congruence.
Qed.

Section Passes.
Variable d : string.

Definition keyword_step (entry : list string * string) : option string :=
  let '(keywords, category) := entry in
  if existsb (fun kw => contains d kw) keywords then Some category else None.

Definition prefix_step (entry : string * string) : option string :=
  let '(prefix, category) := entry in
  if startswith d prefix then Some category else None.

Lemma keyword_pass_live (seen : list string)
      (table : list (list string * string)) (c : string) :
  (forall k, In k seen -> contains d k = false) ->
  first_some keyword_step table = Some c ->
  In c (live_keyword_categories seen table).
Proof.
  revert seen. induction table as [|[kws cat] rest IH]; intros seen Hseen;
    simpl; [discriminate|].
  destruct (existsb (fun kw => contains d kw) kws) eqn:E.
  - intros H. injection H as <-. apply in_or_app. left.
    destruct (forallb _ kws) eqn:Ef; [|left; reflexivity]. exfalso.
    apply existsb_exists in E. destruct E as [kw [Hkw Hd]].
    rewrite forallb_forall in Ef. specialize (Ef kw Hkw).
    apply existsb_exists in Ef. destruct Ef as [k [Hk Hc]].
    specialize (Hseen k Hk).
    rewrite (contains_trans d kw k Hd Hc) in Hseen. discriminate Hseen.
  - intros H. apply in_or_app. right. apply IH; [|exact H].
    intros k Hk. apply in_app_or in Hk. destruct Hk as [Hk|Hk];
      [apply Hseen, Hk|apply (existsb_false_In _ _ E k Hk)].
Qed.

Lemma keyword_pass_none (table : list (list string * string)) :
  first_some keyword_step table = None ->
  forall k, In k (all_keywords table) -> contains d k = false.
Proof.
  unfold all_keywords.
  induction table as [|[kws cat] rest IH]; simpl; [intros _ k []|].
  destruct (existsb (fun kw => contains d kw) kws) eqn:E; [discriminate|].
  intros H k Hk. apply in_app_or in Hk. destruct Hk as [Hk|Hk];
    [apply (existsb_false_In _ _ E k Hk)|apply (IH H k Hk)].
Qed.

Lemma prefix_pass_live (keywords seen : list string)
      (table : list (string * string)) (c : string) :
  (forall k, In k keywords -> contains d k = false) ->
  (forall p, In p seen -> startswith d p = false) ->
  first_some prefix_step table = Some c ->
  In c (live_prefix_categories keywords seen table).
Proof.
  intros Hkw. revert seen.
  induction table as [|[prefix cat] rest IH]; intros seen Hseen; simpl;
    [discriminate|].
  destruct (startswith d prefix) eqn:E.
  - intros H. injection H as <-. apply in_or_app. left.
    destruct (existsb _ keywords || existsb _ seen) eqn:Ef;
      [|left; reflexivity]. exfalso.
    apply orb_true_iff in Ef. destruct Ef as [Ef|Ef];
      apply existsb_exists in Ef; destruct Ef as [k [Hk Hc]].
    + specialize (Hkw k Hk).
      rewrite (startswith_contains_trans d prefix k E Hc) in Hkw.
      discriminate Hkw.
    + specialize (Hseen k Hk).
      rewrite (startswith_trans d prefix k E Hc) in Hseen.
      discriminate Hseen.
  - intros H. apply in_or_app. right. apply IH; [|exact H].
    intros p Hp. apply in_app_or in Hp. destruct Hp as [Hp|[<-|[]]];
      [apply Hseen, Hp|exact E].
Qed.

End Passes.

Lemma categorize_hardgood_passes (desc : string) :
  _categorize_hardgood desc
  = or_else (first_some (keyword_step (upper desc)) HARDGOODS_CATEGORIES)
            (first_some (prefix_step (upper desc)) _STARTSWITH_CATEGORIES).
Proof. reflexivity. Qed.

Lemma categorize_hardgood_live (desc c : string) :
  _categorize_hardgood desc = Some c ->
  In c (live_keyword_categories [] HARDGOODS_CATEGORIES
        ++ live_prefix_categories (all_keywords HARDGOODS_CATEGORIES) []
                                  _STARTSWITH_CATEGORIES).
Proof.
  rewrite categorize_hardgood_passes. unfold or_else.
  destruct (first_some (keyword_step (upper desc)) HARDGOODS_CATEGORIES)
    as [c'|] eqn:E1.
  - intros H. injection H as <-. apply in_or_app. left.
    apply (keyword_pass_live (upper desc) [] _ _ (fun _ F => match F with end)
                             E1).
  - intros H. apply in_or_app. right.
    apply (prefix_pass_live (upper desc) _ [] _ _
                            (keyword_pass_none (upper desc) _ E1)
                            (fun _ F => match F with end) H).
Qed.

(** Nine categories of the hardgood tables are never returned by
    [_categorize_hardgood]: every keyword of their entries contains a
    keyword of an earlier entry (WELDING CABLE comes after CABLE), and every
    prefix of theirs contains a keyword (CABLE ASSY contains CABLE), so an
    earlier entry decides first. *)
Theorem categorize_hardgood_never_returns_shadowed (desc c : string) :
  In c shadowed_categories ->
  In c (map snd HARDGOODS_CATEGORIES ++ map snd _STARTSWITH_CATEGORIES)
  /\ _categorize_hardgood desc <> Some c.
Proof.
  intros Hc. split.
  - assert (Hall : forallb
                     (fun c => mem c (map snd HARDGOODS_CATEGORIES
                                      ++ map snd _STARTSWITH_CATEGORIES))
                     shadowed_categories = true) by (vm_compute; reflexivity).
    rewrite forallb_forall in Hall. specialize (Hall c Hc).
    unfold mem in Hall. apply existsb_exists in Hall.
    destruct Hall as [x [Hx Heq]]. apply String.eqb_eq in Heq. subst x.
    exact Hx.
  - intros H. apply categorize_hardgood_live in H.
    assert (Hdead : forallb
                      (fun c => negb (mem c
                         (live_keyword_categories [] HARDGOODS_CATEGORIES
                          ++ live_prefix_categories
                               (all_keywords HARDGOODS_CATEGORIES) []
                               _STARTSWITH_CATEGORIES)))
                      shadowed_categories = true) by (vm_compute; reflexivity).
    rewrite forallb_forall in Hdead. specialize (Hdead c Hc).
    apply negb_true_iff in Hdead.
    assert (Hm : mem c (live_keyword_categories [] HARDGOODS_CATEGORIES
                        ++ live_prefix_categories
                             (all_keywords HARDGOODS_CATEGORIES) []
                             _STARTSWITH_CATEGORIES) = true).
    { unfold mem. apply existsb_exists. exists c. split; [exact H|].
      apply String.eqb_refl. }
    congruence.
Qed.

Lemma categorize_hardgood_never_returns_shadowed_witness :
  _categorize_hardgood "Welding Cable 2 0" = Some "Cable"
  /\ In "Welding Cable"
        (map snd HARDGOODS_CATEGORIES ++ map snd _STARTSWITH_CATEGORIES)
  /\ _categorize_hardgood "Welding Cable 2 0" <> Some "Welding Cable".
Proof.
  split; [vm_compute; reflexivity|].
  apply (categorize_hardgood_never_returns_shadowed
           "Welding Cable 2 0" "Welding Cable").
  simpl. left. reflexivity.
Defined.

End HardgoodFacts.
